(** * dv-flow-libfusesoc: file-set conversion, EDAM builder and task wrappers

    A shallow embedding of the Python sources under
    [src/dv_flow/libfusesoc] and the properties the specification states
    about them.

    Layout: Python values and exceptions, a model of [pathlib]'s POSIX
    paths, [FilesetConverter] (fusesoc_fileset.py), [EdamBuilder]
    (edam_builder.py), [EdalizeBackend] (edalize_backend.py), the task
    wrappers (fusesoc_core_resolve.py, edalize_sim.py), then the theorems. *)

From Stdlib Require Import ZArith String Ascii List Bool Lia.
From stdpp Require Import base option list strings gmap fin_maps pretty sorting.

Set Warnings "-register-all".
Local Open Scope Z_scope.
Local Open Scope string_scope.

(* ===================================================================== *)
(** ** Python values *)
(* ===================================================================== *)

(** A [pathlib.PurePosixPath]: the root ([""], ["/"] or ["//"]) and the
    remaining components.  Two paths are equal in Python exactly when
    these agree. *)
Record Path := mkPath { p_root : string; p_names : list string }.

(** The values that flow through the repository's dictionaries.  A float
    is kept as its IEEE-754 binary64 bit pattern. *)
Inductive PyVal :=
| PyNone
| PyBool (b : bool)
| PyInt (z : Z)
| PyFloat (bits : Z)
| PyStr (s : string)
| PyList (l : list PyVal)
| PyDict (d : gmap string PyVal)
| PyPath (p : Path).

(** [bool(v)]: the truth value Python's [if v] and [not v] use. *)
Definition truthy (v : PyVal) : bool :=
  match v with
  | PyNone => false
  | PyBool b => b
  | PyInt z => negb (Z.eqb z 0)
  | PyFloat bits => negb (Z.eqb (Z.land bits (2 ^ 63 - 1)) 0)
  | PyStr s => negb (String.eqb s "")
  | PyList l => match l with [] => false | _ => true end
  | PyDict d => match map_to_list d with [] => false | _ => true end
  | PyPath _ => true
  end.

(** [type(v).__name__]. *)
Definition type_name (v : PyVal) : string :=
  match v with
  | PyNone => "NoneType"
  | PyBool _ => "bool"
  | PyInt _ => "int"
  | PyFloat _ => "float"
  | PyStr _ => "str"
  | PyList _ => "list"
  | PyDict _ => "dict"
  | PyPath _ => "PosixPath"
  end.

(** [isinstance(v, int)] holds for booleans as well: [bool] is a subclass
    of [int]. *)
Definition isinstance_bool (v : PyVal) : bool :=
  match v with PyBool _ => true | _ => false end.
Definition isinstance_int (v : PyVal) : bool :=
  match v with PyBool _ | PyInt _ => true | _ => false end.
Definition isinstance_float (v : PyVal) : bool :=
  match v with PyFloat _ => true | _ => false end.
Definition isinstance_list (v : PyVal) : bool :=
  match v with PyList _ => true | _ => false end.
Definition isinstance_dict (v : PyVal) : bool :=
  match v with PyDict _ => true | _ => false end.

(** Lists and dictionaries cannot be used as dictionary keys. *)
Definition hashable (v : PyVal) : bool :=
  match v with PyList _ | PyDict _ => false | _ => true end.

(* ===================================================================== *)
(** ** Exceptions *)
(* ===================================================================== *)

(** An exception class either derives from [Exception] or only from
    [BaseException] ([KeyboardInterrupt], [SystemExit], ...); a clause
    [except Exception] handles the former only. *)
Inductive exn_class :=
| ExceptionClass (name : string)
| BaseExceptionClass (name : string).

Record exn := mkExn { exn_cls : exn_class; exn_str : string }.

Definition is_Exception (e : exn) : bool :=
  match exn_cls e with ExceptionClass _ => true | BaseExceptionClass _ => false end.

Definition TypeError (msg : string) : exn := mkExn (ExceptionClass "TypeError") msg.
Definition ValueError (msg : string) : exn := mkExn (ExceptionClass "ValueError") msg.
Definition AttributeError (msg : string) : exn :=
  mkExn (ExceptionClass "AttributeError") msg.
Definition OSError (msg : string) : exn := mkExn (ExceptionClass "OSError") msg.

(** The outcome of code that may raise. *)
Inductive result (A : Type) :=
| Ok (a : A)
| Raise (e : exn).
Arguments Ok {A} a.
Arguments Raise {A} e.

#[global] Instance result_ret : MRet result := fun A a => Ok a.
#[global] Instance result_bind : MBind result := fun A B f m =>
  match m with Ok a => f a | Raise e => Raise e end.

Definition is_Ok {A} (r : result A) : bool :=
  match r with Ok _ => true | Raise _ => false end.

(* ===================================================================== *)
(** ** pathlib on POSIX *)
(* ===================================================================== *)

(** [s.split(sep)]. *)
Fixpoint str_split (sep : ascii) (s : string) : list string :=
  match s with
  | EmptyString => [EmptyString]
  | String c s' =>
      if Ascii.eqb c sep then EmptyString :: str_split sep s'
      else match str_split sep s' with
           | [] => [String c EmptyString]
           | w :: ws => String c w :: ws
           end
  end.

(** [sep.join(l)]. *)
Fixpoint str_join (sep : string) (l : list string) : string :=
  match l with
  | [] => ""
  | [x] => x
  | x :: rest => x +:+ sep +:+ str_join sep rest
  end.

(** The root pathlib splits off: exactly two leading slashes are kept,
    one or three and more collapse to a single one. *)
Definition posix_root (s : string) : string :=
  if String.prefix "///" s then "/"
  else if String.prefix "//" s then "//"
  else if String.prefix "/" s then "/"
  else "".

Definition keep_component (n : string) : bool :=
  negb (String.eqb n "") && negb (String.eqb n ".").

(** [Path(s)]: empty and ["."] components are dropped, [".."] is kept. *)
Definition Path_of_str (s : string) : Path :=
  mkPath (posix_root s) (filter (fun n => keep_component n = true) (str_split "/" s)).

(** [p / q]: an absolute right operand replaces the left one. *)
Definition path_join (p q : Path) : Path :=
  if String.eqb (p_root q) "" then mkPath (p_root p) (p_names p ++ p_names q)
  else q.

(** [str(p)]. *)
Definition path_str (p : Path) : string :=
  match p_root p, p_names p with
  | EmptyString, [] => "."
  | r, ns => r +:+ str_join "/" ns
  end.

#[global] Instance Path_eq_dec : EqDecision Path.
Proof. solve_decision. Defined.

(** [p.parent]. *)
Definition path_parent (p : Path) : Path :=
  mkPath (p_root p) (removelast (p_names p)).

(** [os.path.isabs(s)] on POSIX: [s.startswith('/')]. *)
Definition os_path_isabs (s : string) : bool := String.prefix "/" s.

(** [os.fspath(v)]: strings and path objects are accepted. *)
Definition os_fspath (v : PyVal) : result string :=
  match v with
  | PyStr s => Ok s
  | PyPath p => Ok (path_str p)
  | _ => Raise (TypeError ("expected str, bytes or os.PathLike object, not "
                           +:+ type_name v))
  end.

(** [Path(v)] for a value that passed [os.fspath]. *)
Definition Path_of (v : PyVal) : Path :=
  match v with
  | PyPath p => p
  | PyStr s => Path_of_str s
  | _ => Path_of_str ""
  end.

(** What the code asks of the file system: [Path.exists()] and
    [Path.resolve()] (absolute, symlinks and [..] resolved).  Either call
    may raise instead of answering: [exists()] lets through every
    [OSError] other than "no such file" (a name component that is too
    long, permission denied), [resolve()] raises [ValueError] for a name
    with an embedded NUL. *)
Record FileSystem := mkFS {
  fs_exists : Path -> result bool;
  fs_resolve : Path -> result Path
}.

(** Both questions about [p] are answered. *)
Definition fs_answers (fs : FileSystem) (p : Path) : bool :=
  is_Ok (fs_exists fs p) && is_Ok (fs_resolve fs p).

(** [os.path.normpath] on components: [..] removes the component before
    it, and is dropped at the root. *)
Fixpoint normpath_acc (acc : list string) (ns : list string) : list string :=
  match ns with
  | [] => rev acc
  | n :: rest =>
      if String.eqb n ".." then normpath_acc (tail acc) rest
      else normpath_acc (n :: acc) rest
  end.

(** The canonical form of [p] on a file system without symbolic links
    whose working directory is [/]. *)
Definition plain_resolve (p : Path) : Path :=
  mkPath (if String.eqb (p_root p) "" then "/" else p_root p)
         (normpath_acc [] (p_names p)).

(** [NAME_MAX] of Linux file systems: the bytes a name component may
    have. *)
Definition NAME_MAX : nat := 255.

Definition name_too_long (p : Path) : bool :=
  existsb (fun n => (NAME_MAX <? String.length n)%nat) (p_names p).

Fixpoint str_has_nul (s : string) : bool :=
  match s with
  | EmptyString => false
  | String c s' => Ascii.eqb c Ascii.zero || str_has_nul s'
  end.

Definition has_nul (p : Path) : bool := existsb str_has_nul (p_names p).

(** A Linux file system without symbolic links whose working directory
    is [/]: [entries] are the canonical paths that exist.  [exists()]
    answers [False] for a name with a NUL and raises [OSError] (errno 36)
    for a component over [NAME_MAX] bytes; [resolve()] raises [ValueError]
    for a name with a NUL. *)
Definition plain_fs (entries : list Path) : FileSystem :=
  mkFS (fun p => if has_nul p then Ok false
                 else if name_too_long p
                      then Raise (OSError ("[Errno 36] File name too long: '"
                                           +:+ path_str p +:+ "'"))
                      else Ok (bool_decide (plain_resolve p ∈ entries)))
       (fun p => if has_nul p then Raise (ValueError "embedded null byte")
                 else Ok (plain_resolve p)).

(* ===================================================================== *)
(** ** fusesoc_fileset.py: FilesetConverter *)
(* ===================================================================== *)

Module FilesetConverter.

(** The instance attributes [__init__] sets. *)
Record t := mk { core_root : Path; files_root : Path }.

(** [__init__(core_root, files_root=None)]: a path object is always
    truthy, so only [None] falls back to [core_root]. *)
Definition init (core_root : Path) (files_root : option Path) : t :=
  mk core_root (match files_root with Some f => f | None => core_root end).

Definition FILE_TYPE_MAP_items : list (string * string) :=
  [ ("verilogSource", "verilog");
    ("systemVerilogSource", "systemverilog");
    ("vhdlSource", "vhdl");
    ("vhdlSource-2008", "vhdl");
    ("tclSource", "tcl");
    ("user", "user");
    ("xdc", "constraint");
    ("SDC", "constraint");
    ("UCF", "constraint");
    ("PCF", "constraint");
    ("LPF", "constraint") ].

Definition FILE_TYPE_MAP : gmap string string := list_to_map FILE_TYPE_MAP_items.

(** [FILE_TYPE_MAP.get(file_type, file_type)]. *)
Definition FILE_TYPE_MAP_get (file_type : PyVal) : result PyVal :=
  match file_type with
  | PyStr s => Ok (match FILE_TYPE_MAP !! s with
                   | Some target => PyStr target
                   | None => file_type
                   end)
  | _ => if hashable file_type then Ok file_type
         else Raise (TypeError ("unhashable type: '" +:+ type_name file_type +:+ "'"))
  end.

Definition _resolve_file_path (fs : FileSystem) (self : t) (filename : PyVal)
  : result Path :=
  s ← os_fspath filename;
  if os_path_isabs s then Ok (Path_of filename)
  else
    let core_path := path_join (core_root self) (Path_of filename) in
    found ← fs_exists fs core_path;
    if found : bool then fs_resolve fs core_path
    else if negb (bool_decide (files_root self = core_root self)) then
      let files_path := path_join (files_root self) (Path_of filename) in
      found ← fs_exists fs files_path;
      if found : bool then fs_resolve fs files_path
      else fs_resolve fs core_path
    else fs_resolve fs core_path.

(** [if key in file_info: converted[key'] = file_info[key]]. *)
Definition copy_attr (file_info : gmap string PyVal) (key key' : string)
    (converted : gmap string PyVal) : gmap string PyVal :=
  match file_info !! key with
  | Some v => <[key' := v]> converted
  | None => converted
  end.

Definition _convert_file (fs : FileSystem) (self : t)
    (file_info : gmap string PyVal) : result (option (gmap string PyVal)) :=
  let filename := default PyNone (file_info !! "name") in
  if negb (truthy filename) then Ok None
  else
    abs_path ← _resolve_file_path fs self filename;
    let file_type := default (PyStr "user") (file_info !! "file_type") in
    mapped_type ← FILE_TYPE_MAP_get file_type;
    let converted : gmap string PyVal :=
      <["name" := filename]>
        (<["type" := mapped_type]>
           (<["path" := PyStr (path_str abs_path)]> ∅)) in
    let converted := copy_attr file_info "is_include_file" "is_include" converted in
    converted ←
      match file_info !! "include_path" with
      | Some v => p ← _resolve_file_path fs self v;
                  Ok (<["include_path" := PyPath p]> converted)
      | None => Ok converted
      end;
    let converted := copy_attr file_info "logical_name" "library" converted in
    let converted := copy_attr file_info "copyto" "copyto" converted in
    let converted := copy_attr file_info "tags" "tags" converted in
    Ok (Some converted).

(** The loop of [convert_files]; [converted_files] is the list built so
    far.  [if converted:] tests a dictionary (or [None]) for truth. *)
Fixpoint convert_files_loop (fs : FileSystem) (self : t)
    (fusesoc_files : list (gmap string PyVal))
    (converted_files : list (gmap string PyVal))
  : result (list (gmap string PyVal)) :=
  match fusesoc_files with
  | [] => Ok converted_files
  | file_info :: rest =>
      converted ← _convert_file fs self file_info;
      convert_files_loop fs self rest
        (match converted with
         | Some d => if truthy (PyDict d) then converted_files ++ [d]
                     else converted_files
         | None => converted_files
         end)
  end.

Definition convert_files (fs : FileSystem) (self : t)
    (fusesoc_files : list (gmap string PyVal))
  : result (list (gmap string PyVal)) :=
  convert_files_loop fs self fusesoc_files [].

(** The loop of [extract_include_dirs]; [include_dirs] is the set built
    so far. *)
Fixpoint extract_include_dirs_loop (fs : FileSystem) (self : t)
    (fusesoc_files : list (gmap string PyVal)) (include_dirs : gset string)
  : result (gset string) :=
  match fusesoc_files with
  | [] => Ok include_dirs
  | file_info :: rest =>
      include_dirs ←
        match file_info !! "include_path" with
        | Some v => inc_path ← _resolve_file_path fs self v;
                    Ok ({[ path_str inc_path ]} ∪ include_dirs)
        | None => Ok include_dirs
        end;
      include_dirs ←
        (if truthy (default (PyBool false) (file_info !! "is_include_file")) then
           let filename := default PyNone (file_info !! "name") in
           if truthy filename then
             file_path ← _resolve_file_path fs self filename;
             Ok ({[ path_str (path_parent file_path) ]} ∪ include_dirs)
           else Ok include_dirs
         else Ok include_dirs);
      extract_include_dirs_loop fs self rest include_dirs
  end.

(** [sorted(list(include_dirs))]: strings are ordered by code point. *)
Definition extract_include_dirs (fs : FileSystem) (self : t)
    (fusesoc_files : list (gmap string PyVal)) : result (list string) :=
  include_dirs ← extract_include_dirs_loop fs self fusesoc_files ∅;
  Ok (merge_sort (fun a b : string => Is_true (String.leb a b)) (elements include_dirs)).

(** [[f for f in converted_files if f.get('type') in file_types]]: the
    types asked for are strings, and only a string equals a string. *)
Definition type_in (f : gmap string PyVal) (file_types : list string) : bool :=
  match f !! "type" with
  | Some (PyStr s) => bool_decide (s ∈ file_types)
  | _ => false
  end.

Definition filter_by_type (converted_files : list (gmap string PyVal))
    (file_types : list string) : list (gmap string PyVal) :=
  filter (fun f => type_in f file_types = true) converted_files.

Definition source_types : list string := [ "verilog"; "systemverilog"; "vhdl" ].

Definition get_source_files (converted_files : list (gmap string PyVal))
  : list (gmap string PyVal) :=
  filter_by_type converted_files source_types.

End FilesetConverter.

(* ===================================================================== *)
(** ** str() *)
(* ===================================================================== *)

(** [repr()] of floats and containers is left to the interpreter; the
    code only ever formats them into messages and names. *)
Class Interp := { py_repr : PyVal -> string }.

(** [str(v)], which is also what an f-string field [{v}] produces. *)
Definition py_str `{Interp} (v : PyVal) : string :=
  match v with
  | PyNone => "None"
  | PyBool true => "True"
  | PyBool false => "False"
  | PyInt z => pretty z
  | PyStr s => s
  | PyPath p => path_str p
  | _ => py_repr v
  end.

(** [v.get(key, dflt)] on a value that should be a dictionary. *)
Definition py_get (v : PyVal) (key : string) (dflt : PyVal) : result PyVal :=
  match v with
  | PyDict d => Ok (default dflt (d !! key))
  | _ => Raise (AttributeError ("'" +:+ type_name v
                                +:+ "' object has no attribute 'get'"))
  end.


(* ===================================================================== *)
(** ** edam_builder.py: EdamBuilder *)
(* ===================================================================== *)

Module EdamBuilder.

(** [self.edam]: the six keys [__init__] creates; no method removes one. *)
Record t := mk {
  name : PyVal;
  files : list (gmap string PyVal);
  parameters : gmap string PyVal;
  tool_options : gmap string (gmap string PyVal);
  flow_options : gmap string PyVal;
  toplevel : PyVal
}.

Definition init (name : PyVal) : t := mk name [] ∅ ∅ ∅ (PyList []).

(** The dictionary [build()] hands out. *)
Definition to_dict (self : t) : PyVal :=
  PyDict (<["name" := name self]>
         (<["files" := PyList (PyDict <$> files self)]>
         (<["parameters" := PyDict (parameters self)]>
         (<["tool_options" := PyDict (PyDict <$> tool_options self)]>
         (<["flow_options" := PyDict (flow_options self)]>
         (<["toplevel" := toplevel self]> ∅)))))).

Definition type_map_items : list (string * string) :=
  [ ("verilog", "verilogSource");
    ("systemverilog", "systemVerilogSource");
    ("vhdl", "vhdlSource");
    ("vhdl-2008", "vhdlSource-2008");
    ("constraint", "user");
    ("xdc", "xdc");
    ("sdc", "SDC");
    ("ucf", "UCF");
    ("tcl", "tclSource");
    ("user", "user") ].

Definition type_map : gmap string string := list_to_map type_map_items.

(** [type_map.get(dv_flow_type, 'user')]. *)
Definition _map_file_type (dv_flow_type : PyVal) : result string :=
  match dv_flow_type with
  | PyStr s => Ok (default "user" (type_map !! s))
  | _ => if hashable dv_flow_type then Ok "user"
         else Raise (TypeError ("unhashable type: '" +:+ type_name dv_flow_type
                                +:+ "'"))
  end.

Definition _infer_datatype (value : PyVal) : string :=
  if isinstance_bool value then "bool"
  else if isinstance_int value then "int"
  else if isinstance_float value then "real"
  else "str".

(** One iteration of the loop in [add_files]. *)
Definition edam_file_of `{Interp} (file_info : gmap string PyVal)
  : result (gmap string PyVal) :=
  let shown := default (default PyNone (file_info !! "name")) (file_info !! "path") in
  file_type ← _map_file_type (default (PyStr "user") (file_info !! "type"));
  let edam_file : gmap string PyVal :=
    <["file_type" := PyStr file_type]> (<["name" := PyStr (py_str shown)]> ∅) in
  let edam_file :=
    if truthy (default PyNone (file_info !! "is_include"))
    then <["is_include_file" := PyBool true]> edam_file else edam_file in
  let edam_file :=
    match file_info !! "include_path" with
    | Some v => if truthy v then <["include_path" := PyStr (py_str v)]> edam_file
                else edam_file
    | None => edam_file
    end in
  let edam_file :=
    match file_info !! "library" with
    | Some v => if truthy v then <["logical_name" := v]> edam_file else edam_file
    | None => edam_file
    end in
  Ok edam_file.

(** The builder methods return the builder ([return self]); here they
    return the updated state.  When a method raises, what it had already
    stored in the builder is not kept: no caller in the repository uses a
    builder after one of its methods raised. *)
Fixpoint add_files `{Interp} (self : t) (files_arg : list (gmap string PyVal))
  : result t :=
  match files_arg with
  | [] => Ok self
  | file_info :: rest =>
      edam_file ← edam_file_of file_info;
      add_files (mk (name self) (files self ++ [edam_file]) (parameters self)
                    (tool_options self) (flow_options self) (toplevel self))
                rest
  end.

Definition set_toplevel `{Interp} (self : t) (toplevel_arg : PyVal) : t :=
  let v := match toplevel_arg with
           | PyList l => match l with x :: _ => x | [] => PyStr "" end
           | _ => PyStr (py_str toplevel_arg)
           end in
  mk (name self) (files self) (parameters self) (tool_options self)
     (flow_options self) v.

(** The record stored for a raw value. *)
Definition param_record (value : PyVal) (paramtype : string) : PyVal :=
  PyDict (<["datatype" := PyStr (_infer_datatype value)]>
         (<["default" := value]>
         (<["paramtype" := PyStr paramtype]> ∅))).

Definition with_parameters (self : t) (ps : gmap string PyVal) : t :=
  mk (name self) (files self) ps (tool_options self) (flow_options self)
     (toplevel self).

(** [for name, value in parameters.items(): ...]: the keys of a
    dictionary are distinct, so the order of the iteration does not show
    in the result. *)
Definition add_parameters (self : t) (parameters_arg : gmap string PyVal) : t :=
  map_fold (fun pname value (acc : t) =>
              with_parameters acc
                (<[pname := if isinstance_dict value then value
                            else param_record value "vlogparam"]> (parameters acc)))
           self parameters_arg.

Definition add_plusargs (self : t) (plusargs : gmap string PyVal) : t :=
  map_fold (fun pname value (acc : t) =>
              with_parameters acc
                (<[pname := param_record value "plusarg"]> (parameters acc)))
           self plusargs.

Definition with_tool_options (self : t) (tos : gmap string (gmap string PyVal)) : t :=
  mk (name self) (files self) (parameters self) tos (flow_options self)
     (toplevel self).

(** [dict.update]: the new entries win. *)
Definition set_tool_options (self : t) (tool : string) (options : gmap string PyVal)
  : t :=
  let current := default ∅ (tool_options self !! tool) in
  with_tool_options self (<[tool := options ∪ current]> (tool_options self)).

Definition set_flow_options (self : t) (options : gmap string PyVal) : t :=
  mk (name self) (files self) (parameters self) (tool_options self)
     (options ∪ flow_options self) (toplevel self).

(** [v.extend(items)] and [v.append(item)]: only a list has them. *)
Definition list_extend (v : PyVal) (items : list PyVal) : result PyVal :=
  match v with
  | PyList l => Ok (PyList (l ++ items))
  | _ => Raise (AttributeError ("'" +:+ type_name v
                                +:+ "' object has no attribute 'extend'"))
  end.

Definition list_append (v : PyVal) (item : PyVal) : result PyVal :=
  match v with
  | PyList l => Ok (PyList (l ++ [item]))
  | _ => Raise (AttributeError ("'" +:+ type_name v
                                +:+ "' object has no attribute 'append'"))
  end.

(** [for inc_dir in include_dirs: opts.extend(['-I', str(inc_dir)])]. *)
Fixpoint extend_icarus `{Interp} (include_dirs : list PyVal) (opts : PyVal)
  : result PyVal :=
  match include_dirs with
  | [] => Ok opts
  | inc_dir :: rest =>
      opts' ← list_extend opts [PyStr "-I"; PyStr (py_str inc_dir)];
      extend_icarus rest opts'
  end.

(** [for inc_dir in include_dirs: opts.append(f'-I{inc_dir}')]. *)
Fixpoint append_verilator `{Interp} (include_dirs : list PyVal) (opts : PyVal)
  : result PyVal :=
  match include_dirs with
  | [] => Ok opts
  | inc_dir :: rest =>
      opts' ← list_append opts (PyStr ("-I" +:+ py_str inc_dir));
      append_verilator rest opts'
  end.

(** The body of the [for tool in ['icarus', 'verilator']] loop. *)
Definition add_include_dirs_tool `{Interp} (include_dirs : list PyVal)
    (tool : string) (tos : gmap string (gmap string PyVal))
  : result (gmap string (gmap string PyVal)) :=
  let bag := default ∅ (tos !! tool) in
  if String.eqb tool "icarus" then
    opts ← extend_icarus include_dirs
             (default (PyList []) (bag !! "iverilog_options"));
    Ok (<[tool := <["iverilog_options" := opts]> bag]> tos)
  else if String.eqb tool "verilator" then
    opts ← append_verilator include_dirs
             (default (PyList []) (bag !! "verilator_options"));
    Ok (<[tool := <["verilator_options" := opts]> bag]> tos)
  else Ok (<[tool := bag]> tos).

(** Option lists are kept by value: two options never share one list
    object.  Every caller in the repository adds include directories to a
    builder whose tool options are still empty. *)
Definition add_include_dirs `{Interp} (self : t) (include_dirs : list PyVal)
  : result t :=
  tos ← add_include_dirs_tool include_dirs "icarus" (tool_options self);
  tos ← add_include_dirs_tool include_dirs "verilator" tos;
  Ok (with_tool_options self tos).

Definition build (self : t) : result t :=
  if negb (truthy (name self)) then Raise (ValueError "EDAM 'name' is required")
  else Ok self.

End EdamBuilder.

(* ===================================================================== *)
(** ** State and exceptions *)
(* ===================================================================== *)

(** Code that acts on a state [S] and may raise.  A raised exception
    leaves the changes made so far in place. *)
Definition ES (S A : Type) : Type := S -> result A * S.

Definition es_ret {S A} (a : A) : ES S A := fun s => (Ok a, s).

Definition es_bind {S A B} (m : ES S A) (k : A -> ES S B) : ES S B :=
  fun s => match m s with
           | (Ok a, s') => k a s'
           | (Raise e, s') => (Raise e, s')
           end.

Declare Scope es_scope.
Delimit Scope es_scope with es.
Notation "'let*' x ':=' m 'in' k" := (es_bind m (fun x => k))
  (at level 10, x pattern, m at level 100, k at level 200) : es_scope.
Notation "m ';;' k" := (es_bind m (fun _ => k))
  (at level 100, k at level 200, right associativity) : es_scope.

Definition es_raise {S A} (e : exn) : ES S A := fun s => (Raise e, s).

(** A pure computation that may raise. *)
Definition es_lift {S A} (r : result A) : ES S A := fun s => (r, s).

(** [try: body  except Exception as e: handler e]. *)
Definition try_except_Exception {S A} (body : ES S A) (handler : exn -> ES S A)
  : ES S A :=
  fun s => match body s with
           | (Ok a, s') => (Ok a, s')
           | (Raise e, s') => if is_Exception e then handler e s' else (Raise e, s')
           end.

(** The state of a function body: the outside world and the local
    object [L] the body updates in place. *)
Definition in_world {W L A} (m : ES W A) : ES (W * L) A :=
  fun s => let '(r, w') := m (fst s) in (r, (w', snd s)).

Definition get_local {W L} : ES (W * L) L := fun s => (Ok (snd s), s).

Definition put_local {W L} (l : L) : ES (W * L) unit := fun s => (Ok tt, (fst s, l)).

Definition read_world {W L A} (f : W -> A) : ES (W * L) A := fun s => (Ok (f (fst s)), s).

(** A question to the world that may raise instead of answering. *)
Definition ask_world {W L A} (f : W -> result A) : ES (W * L) A :=
  fun s => (f (fst s), s).

(** A method call [obj.m()] from a body whose own local state is [L]:
    the method runs on the object, which comes back updated. *)
Definition call {W O L A} (m : ES (W * O) A) (obj : O) : ES (W * L) (A * O) :=
  fun s => match m (fst s, obj) with
           | (Ok a, (w', obj')) => (Ok (a, obj'), (w', snd s))
           | (Raise e, (w', _)) => (Raise e, (w', snd s))
           end.

(* ===================================================================== *)
(** ** What lies outside the repository *)
(* ===================================================================== *)

(** The operating system and the two wrapped libraries (Edalize and
    FuseSoC).  [World] is everything they can change, [Obj] the objects
    they hand out; every call may raise.  Console output ([print],
    [traceback.print_exc]) is not recorded. *)
Class External := {
  World : Type;
  Obj : Type;
  (** the file system as seen by [Path.exists], [Path.resolve], [Path.glob] *)
  world_fs : World -> FileSystem;
  world_glob : World -> Path -> string -> list Path;
  (** [path.mkdir(parents=True, exist_ok=True)] *)
  os_mkdir : Path -> ES World unit;
  (** [with open(path) as f: json.load(f)] *)
  json_load_file : Path -> ES World PyVal;
  (** [time.time()] *)
  time_time : ES World PyVal;
  (** [from edalize.flows.sim import Sim] *)
  import_Sim : ES World Obj;
  (** [flow_class(edam=..., work_root=..., verbose=...)] *)
  flow_new : Obj -> PyVal -> string -> bool -> ES World Obj;
  flow_configure : Obj -> ES World unit;
  flow_build : Obj -> ES World unit;
  flow_run : Obj -> ES World unit;
  (** [Config(path=...)] or [Config()] *)
  fusesoc_Config : option string -> ES World Obj;
  fusesoc_LibraryManager : Obj -> ES World Obj;
  fusesoc_CoreManager : Obj -> Obj -> ES World Obj;
  (** [Library(name, location, sync_type, sync_uri, auto_sync)] *)
  fusesoc_Library : string -> string -> string -> option string -> bool -> ES World Obj;
  lm_add_library : Obj -> Obj -> ES World unit;
  (** [core_manager.find_cores(library, config.ignored_dirs)] *)
  cm_find_cores : Obj -> Obj -> Obj -> ES World (list Obj);
  (** [core_manager.db.add(core, library)] *)
  cm_db_add : Obj -> Obj -> Obj -> ES World unit;
  fusesoc_Vlnv : string -> ES World Obj;
  cm_get_core : Obj -> Obj -> ES World Obj;
  (** [core.provider], [None] when the attribute is missing or falsy *)
  core_provider : Obj -> ES World (option Obj);
  provider_status : Obj -> ES World string;
  provider_fetch : Obj -> ES World unit;
  core_get_files : Obj -> gmap string PyVal -> ES World (list (gmap string PyVal));
  (** [[str(dep) for dep in core.get_depends(flags)]], [None] when the core
      has no [get_depends] *)
  core_get_depends : Obj -> gmap string PyVal -> ES World (option (list string));
  (** [core.get_parameters(flags)], [None] when the core has none *)
  core_get_parameters : Obj -> gmap string PyVal -> ES World (option (gmap string PyVal));
  (** [str(core.name)], [core.core_root], [core.files_root] *)
  core_name : Obj -> ES World string;
  core_core_root : Obj -> ES World string;
  core_files_root : Obj -> ES World string
}.

(* ===================================================================== *)
(** ** edalize_backend.py: EdalizeBackend *)
(* ===================================================================== *)

Module EdalizeBackend.
Section WithExternal.
Context `{External}.
Local Open Scope es_scope.

Record t := mk {
  flow_class : Obj;
  edam : PyVal;
  work_root : Path;
  verbose : bool;
  flow : option Obj
}.

Definition with_flow (self : t) (f : option Obj) : t :=
  mk (flow_class self) (edam self) (work_root self) (verbose self) f.

(** [__init__]: stores its arguments and creates the work directory. *)
Definition init (flow_class : Obj) (edam : PyVal) (work_root : Path) (verbose : bool)
  : ES World t :=
  os_mkdir work_root ;;
  es_ret (mk flow_class edam work_root verbose None).

Definition configure : ES (World * t) bool :=
  try_except_Exception
    (let* self := get_local in
     let* f := in_world (flow_new (flow_class self) (edam self)
                                  (path_str (work_root self)) (verbose self)) in
     put_local (with_flow self (Some f)) ;;
     in_world (flow_configure f) ;;
     es_ret true)
    (fun e => es_ret false).

(** [self.edam.get('flow_options', {}).get('tool')] when a flow exists. *)
Definition get_tool (self : t) : result PyVal :=
  match flow self with
  | Some _ =>
      fo ← py_get (edam self) "flow_options" (PyDict ∅);
      py_get fo "tool" PyNone
  | None => Ok PyNone
  end.

Definition nonempty {A} (l : list A) : bool :=
  match l with [] => false | _ => true end.

Definition _check_build_success : ES (World * t) bool :=
  let* self := get_local in
  let* tool := es_lift (get_tool self) in
  match tool with
  | PyStr "icarus" =>
      let* simv := ask_world (fun w =>
        fs_exists (world_fs w) (path_join (work_root self) (Path_of_str "simv"))) in
      if simv : bool then es_ret true
      else read_world (fun w => nonempty (world_glob w (work_root self) "*.vvp"))
  | PyStr "verilator" =>
      read_world (fun w =>
        match world_glob w (work_root self) "obj_dir" with
        | obj_dir :: _ => nonempty (world_glob w obj_dir "V*")
        | [] => false
        end)
  | _ => es_ret true
  end.

Definition _check_run_success : ES (World * t) bool := es_ret true.

(** An Edalize flow object is truthy, so [not self.flow] holds exactly
    when no flow has been created. *)
Definition build : ES (World * t) (bool * string) :=
  let* self := get_local in
  match flow self with
  | None => es_ret (false, "Flow not configured. Call configure() first.")
  | Some f =>
      try_except_Exception
        (in_world (flow_build f) ;;
         let* build_success := _check_build_success in
         es_ret (build_success, "Build completed"))
        (fun e => es_ret (false, "Build failed: " +:+ exn_str e))
  end.

Definition run : ES (World * t) (bool * string) :=
  let* self := get_local in
  match flow self with
  | None => es_ret (false, "Flow not configured. Call configure() first.")
  | Some f =>
      try_except_Exception
        (in_world (flow_run f) ;;
         let* run_success := _check_run_success in
         es_ret (run_success, "Run completed"))
        (fun e => es_ret (false, "Run failed: " +:+ exn_str e))
  end.

Definition get_log_files : ES (World * t) (list Path) :=
  let* self := get_local in
  read_world (fun w =>
    (world_glob w (work_root self) "*.log"
     ++ world_glob w (work_root self) "*.rpt"
     ++ world_glob w (work_root self) "transcript")%list).

(** [create_sim_backend(edam, work_root, verbose)]. *)
Definition create_sim_backend (edam : PyVal) (work_root : Path) (verbose : bool)
  : ES World t :=
  let* Sim := import_Sim in
  init Sim edam work_root verbose.

End WithExternal.
End EdalizeBackend.

(* ===================================================================== *)
(** ** fusesoc_manager.py: FuseSoCManager *)
(* ===================================================================== *)

Module FuseSoCManager.
Section WithExternal.
Context `{External}.
Local Open Scope es_scope.

Record t := mk {
  config_dir : option Path;
  data_dir : option Path;
  _config : Obj;
  _library_manager : Obj;
  _core_manager : option Obj
}.

(** What [get_core_files] returns. *)
Record CoreFiles := mkCoreFiles {
  cf_files : list (gmap string PyVal);
  cf_name : string;
  cf_core_root : string;
  cf_files_root : string;
  cf_dependencies : list string;
  cf_parameters : gmap string PyVal
}.

Definition _init_config (config_dir : option Path) : ES World Obj :=
  match config_dir with
  | Some d =>
      fusesoc_Config
        (Some (path_str (path_join (path_join d (Path_of_str "fusesoc"))
                                   (Path_of_str "fusesoc.conf"))))
  | None => fusesoc_Config None
  end.

Definition init (config_dir data_dir : option Path) : ES World t :=
  let* config := _init_config config_dir in
  let* library_manager := fusesoc_LibraryManager config in
  es_ret (mk config_dir data_dir config library_manager None).

Definition get_core_manager : ES (World * t) Obj :=
  let* self := get_local in
  match _core_manager self with
  | Some cm => es_ret cm
  | None =>
      let* cm := in_world (fusesoc_CoreManager (_config self) (_library_manager self)) in
      put_local (mk (config_dir self) (data_dir self) (_config self)
                    (_library_manager self) (Some cm)) ;;
      es_ret cm
  end.

(** [for core in found_cores: core_manager.db.add(core, library)]. *)
Fixpoint db_add_all (core_manager library : Obj) (found_cores : list Obj)
  : ES World unit :=
  match found_cores with
  | [] => es_ret tt
  | core :: rest =>
      cm_db_add core_manager core library ;;
      db_add_all core_manager library rest
  end.

Definition add_library (lname : string) (path : Path) (sync_uri : option string)
  : ES (World * t) unit :=
  let* self := get_local in
  let sync_type :=
    match sync_uri with
    | Some u => if String.eqb u "" then "local" else "git"
    | None => "local"
    end in
  let* library := in_world (fusesoc_Library lname (path_str path) sync_type
                                            sync_uri false) in
  in_world (lm_add_library (_library_manager self) library) ;;
  let* core_manager := get_core_manager in
  let* found_cores := in_world (cm_find_cores core_manager library (_config self)) in
  in_world (db_add_all core_manager library found_cores).

Definition resolve_core (core_name_arg : string) (flags : gmap string PyVal)
  : ES (World * t) Obj :=
  let* core_manager := get_core_manager in
  let* vlnv := in_world (fusesoc_Vlnv core_name_arg) in
  let* core := in_world (cm_get_core core_manager vlnv) in
  let* provider := in_world (core_provider core) in
  match provider with
  | Some p =>
      let* st := in_world (provider_status p) in
      (if String.eqb st "downloaded" then es_ret tt else in_world (provider_fetch p)) ;;
      es_ret core
  | None => es_ret core
  end.

Definition get_core_files (core : Obj) (flags : gmap string PyVal)
  : ES (World * t) CoreFiles :=
  let* files := in_world (core_get_files core flags) in
  let* depends := in_world (core_get_depends core flags) in
  let* params := in_world (core_get_parameters core flags) in
  let* cname := in_world (core_name core) in
  let* croot := in_world (core_core_root core) in
  let* froot := in_world (core_files_root core) in
  es_ret (mkCoreFiles files cname croot froot (default [] depends) (default ∅ params)).

Definition get_dependencies (core : Obj) (flags : gmap string PyVal)
  : ES (World * t) (list string) :=
  let* core_manager := get_core_manager in
  let* depends := in_world (core_get_depends core flags) in
  es_ret (default [] depends).

End WithExternal.
End FuseSoCManager.

(* ===================================================================== *)
(** ** edam_builder.py: build_edam_from_core *)
(* ===================================================================== *)

(** [core_files] is the dictionary [FuseSoCManager.get_core_files]
    returns; [parameters] and [plusargs] default to [None]. *)
Definition build_edam_from_core `{Interp} (fs : FileSystem)
    (core_files : FuseSoCManager.CoreFiles) (toplevel : PyVal) (tool : string)
    (parameters plusargs : option (gmap string PyVal)) : result EdamBuilder.t :=
  let converter :=
    FilesetConverter.init (Path_of_str (FuseSoCManager.cf_core_root core_files))
                          (Some (Path_of_str (FuseSoCManager.cf_files_root core_files))) in
  converted_files ← FilesetConverter.convert_files fs converter
                      (FuseSoCManager.cf_files core_files);
  include_dirs ← FilesetConverter.extract_include_dirs fs converter
                   (FuseSoCManager.cf_files core_files);
  let builder := EdamBuilder.init (PyStr (FuseSoCManager.cf_name core_files)) in
  builder ← EdamBuilder.add_files builder converted_files;
  let builder := EdamBuilder.set_toplevel builder toplevel in
  let builder := EdamBuilder.set_flow_options builder {[ "tool" := PyStr tool ]} in
  builder ← (if EdalizeBackend.nonempty include_dirs
             then EdamBuilder.add_include_dirs builder (PyStr <$> include_dirs)
             else Ok builder);
  let builder := match parameters with
                 | Some ps => if truthy (PyDict ps)
                              then EdamBuilder.add_parameters builder ps else builder
                 | None => builder
                 end in
  let builder := match plusargs with
                 | Some ps => if truthy (PyDict ps)
                              then EdamBuilder.add_plusargs builder ps else builder
                 | None => builder
                 end in
  EdamBuilder.build builder.

(* ===================================================================== *)
(** ** Task records *)
(* ===================================================================== *)

(** Modelled from the spec: the severities of [dv_flow.mgr.task_data],
    which is not part of the sources; messages are informational or
    errors. *)
Inductive SeverityE := Info | Error.

(** Modelled from the spec: a severity-tagged message, with the keyword
    arguments the wrappers pass to [TaskMarker]. *)
Record TaskMarker := mkMarker { severity : SeverityE; msg : string }.

(** Modelled from the spec: the result record of a task, carrying a
    status code (0 success / 1 failure), the list of messages and the
    output payload, with the keyword arguments the wrappers pass to
    [TaskDataResult]. *)
Record TaskDataResult := mkResult {
  changed : bool;
  output : list PyVal;
  memento : option PyVal;
  markers : list TaskMarker;
  status : Z
}.

(** Modelled from the spec: the input of a task, of which the wrappers
    read the validated parameters and the run directory. *)
Record TaskDataInput (Params : Type) := mkInput {
  params : Params;
  rundir : string
}.
Arguments mkInput {Params} params rundir.
Arguments params {Params} t.
Arguments rundir {Params} t.

(** [Optional[str]] as a Python value. *)
Definition py_opt_str (o : option string) : PyVal :=
  match o with Some s => PyStr s | None => PyNone end.

Section Tasks.
Context `{External} `{Interp}.
Local Open Scope es_scope.

(** The body of a task: the world and the local list [markers]. *)
Definition Task (A : Type) : Type := ES (World * list TaskMarker) A.

(** [markers.append(TaskMarker(severity=..., msg=...))]. *)
Definition mark (sev : SeverityE) (m : string) : Task unit :=
  let* ms := get_local in
  put_local (ms ++ [mkMarker sev m])%list.

(** [return TaskDataResult(changed=..., output=..., markers=markers, status=...)]. *)
Definition task_return (changed : bool) (output : list PyVal) (memento : option PyVal)
    (status : Z) : Task TaskDataResult :=
  let* ms := get_local in
  es_ret (mkResult changed output memento ms status).

(** The [except Exception as e:] clause all four wrappers share, up to
    the prefix of the message. *)
Definition task_failed (prefix : string) (e : exn) : Task TaskDataResult :=
  mark Error (prefix +:+ exn_str e) ;;
  task_return false [] None 1.

(** A wrapper starts with [markers = []]; awaiting the coroutine runs the
    body to its end. *)
Definition run_task (body : Task TaskDataResult) (prefix : string)
  : ES World TaskDataResult :=
  fun w =>
    let '(r, s) := try_except_Exception body (task_failed prefix) (w, []) in
    (r, fst s).

(* --------------------------------------------------------------------- *)
(** *** fusesoc_core_resolve.py *)

Record CoreResolveParams := mkCoreResolveParams {
  crp_core : string;
  crp_target : option string;
  crp_tool : option string;
  crp_libraries : list (string * string);
  crp_workspace : option string
}.

Definition opt_truthy (o : option string) : bool :=
  match o with Some s => negb (String.eqb s "") | None => false end.

(** [for lib_name, lib_path in params.libraries.items(): ...]. *)
Fixpoint add_libraries (manager : FuseSoCManager.t) (libs : list (string * string))
  : Task FuseSoCManager.t :=
  match libs with
  | [] => es_ret manager
  | (lib_name, lib_path) :: rest =>
      let* (_, manager) :=
        call (FuseSoCManager.add_library lib_name (Path_of_str lib_path) None) manager in
      add_libraries manager rest
  end.

Definition CoreResolve_flags (p : CoreResolveParams) : gmap string PyVal :=
  let flags : gmap string PyVal := ∅ in
  let flags := if opt_truthy (crp_target p)
               then <["target" := py_opt_str (crp_target p)]> flags else flags in
  if opt_truthy (crp_tool p) then <["tool" := py_opt_str (crp_tool p)]> flags else flags.

Definition CoreResolve_body (input : TaskDataInput CoreResolveParams)
  : Task TaskDataResult :=
  let p := params input in
  let workspace :=
    if opt_truthy (crp_workspace p) then Path_of_str (default "" (crp_workspace p))
    else path_join (Path_of_str (rundir input)) (Path_of_str "fusesoc_workspace") in
  in_world (os_mkdir workspace) ;;
  let* manager := in_world (FuseSoCManager.init None None) in
  let* manager := add_libraries manager (crp_libraries p) in
  let flags := CoreResolve_flags p in
  let* (core, manager) := call (FuseSoCManager.resolve_core (crp_core p) flags) manager in
  let* cname := in_world (core_name core) in
  mark Info ("Resolved core: " +:+ cname) ;;
  let* (core_files, manager) := call (FuseSoCManager.get_core_files core flags) manager in
  let converter :=
    FilesetConverter.init (Path_of_str (FuseSoCManager.cf_core_root core_files))
                          (Some (Path_of_str (FuseSoCManager.cf_files_root core_files))) in
  let* converted_files :=
    ask_world (fun w => FilesetConverter.convert_files (world_fs w) converter
                          (FuseSoCManager.cf_files core_files)) in
  let* include_dirs :=
    ask_world (fun w => FilesetConverter.extract_include_dirs (world_fs w) converter
                          (FuseSoCManager.cf_files core_files)) in
  mark Info ("Extracted " +:+ pretty (Z.of_nat (length converted_files))
             +:+ " files from core") ;;
  let* (dependencies, manager) :=
    call (FuseSoCManager.get_dependencies core flags) manager in
  let output : gmap string PyVal :=
    <["core_name" := PyStr (FuseSoCManager.cf_name core_files)]>
   (<["core_root" := PyStr (FuseSoCManager.cf_core_root core_files)]>
   (<["files_root" := PyStr (FuseSoCManager.cf_files_root core_files)]>
   (<["files" := PyList (PyDict <$> converted_files)]>
   (<["dependencies" := PyList (PyStr <$> dependencies)]>
   (<["parameters" := PyDict (FuseSoCManager.cf_parameters core_files)]>
   (<["include_dirs" := PyList (PyStr <$> include_dirs)]> ∅)))))) in
  let* now := in_world time_time in
  let memento : gmap string PyVal :=
    <["core" := PyStr (crp_core p)]>
   (<["target" := py_opt_str (crp_target p)]>
   (<["tool" := py_opt_str (crp_tool p)]>
   (<["core_name" := PyStr (FuseSoCManager.cf_name core_files)]>
   (<["last_resolution" := now]> ∅)))) in
  task_return true [PyDict output] (Some (PyDict memento)) 0.

Definition CoreResolve (input : TaskDataInput CoreResolveParams)
  : ES World TaskDataResult :=
  run_task (CoreResolve_body input) "Core resolution failed: ".

(* --------------------------------------------------------------------- *)
(** *** edalize_sim.py *)

Record SimConfigureParams := mkSimConfigureParams {
  scp_core_name : string;
  scp_files : list (gmap string PyVal);
  scp_include_dirs : list string;
  scp_toplevel : string;
  scp_tool : string;
  scp_parameters : gmap string PyVal;
  scp_plusargs : gmap string PyVal;
  scp_tool_options : gmap string PyVal
}.

Record SimBuildParams := mkSimBuildParams {
  sbp_work_root : string;
  sbp_tool : string
}.

Record SimRunParams := mkSimRunParams {
  srp_work_root : string;
  srp_tool : string;
  srp_runtime_plusargs : gmap string PyVal
}.

(** The builder calls at the head of [SimConfigure]. *)
Definition SimConfigure_edam (p : SimConfigureParams) : result EdamBuilder.t :=
  let builder := EdamBuilder.init (PyStr (scp_core_name p)) in
  builder ← EdamBuilder.add_files builder (scp_files p);
  let builder := EdamBuilder.set_toplevel builder (PyStr (scp_toplevel p)) in
  let builder := EdamBuilder.set_flow_options builder {[ "tool" := PyStr (scp_tool p) ]} in
  builder ← (if EdalizeBackend.nonempty (scp_include_dirs p)
             then EdamBuilder.add_include_dirs builder (PyStr <$> scp_include_dirs p)
             else Ok builder);
  let builder := if truthy (PyDict (scp_parameters p))
                 then EdamBuilder.add_parameters builder (scp_parameters p)
                 else builder in
  let builder := if truthy (PyDict (scp_plusargs p))
                 then EdamBuilder.add_plusargs builder (scp_plusargs p)
                 else builder in
  let builder := if truthy (PyDict (scp_tool_options p))
                 then EdamBuilder.set_tool_options builder (scp_tool p) (scp_tool_options p)
                 else builder in
  EdamBuilder.build builder.

Definition SimConfigureOutput (work_root tool : string) (configured : bool) : PyVal :=
  PyDict (<["work_root" := PyStr work_root]>
         (<["tool" := PyStr tool]>
         (<["configured" := PyBool configured]> ∅))).

Definition SimConfigure_body (input : TaskDataInput SimConfigureParams)
  : Task TaskDataResult :=
  let p := params input in
  let* edam := es_lift (SimConfigure_edam p) in
  let work_root := path_join (Path_of_str (rundir input)) (Path_of_str "sim_work") in
  let* backend :=
    in_world (EdalizeBackend.create_sim_backend (EdamBuilder.to_dict edam) work_root true) in
  let* (success, backend) := call EdalizeBackend.configure backend in
  (if success : bool
   then mark Info ("Configured " +:+ scp_tool p +:+ " simulation for " +:+ scp_toplevel p)
   else mark Error ("Failed to configure " +:+ scp_tool p +:+ " simulation")) ;;
  task_return true [SimConfigureOutput (path_str work_root) (scp_tool p) success] None
              (if success then 0 else 1).

Definition SimConfigure (input : TaskDataInput SimConfigureParams)
  : ES World TaskDataResult :=
  run_task (SimConfigure_body input) "Configuration failed: ".

Definition SimBuildOutput (work_root : string) (build_success : bool) : PyVal :=
  PyDict (<["work_root" := PyStr work_root]>
         (<["build_success" := PyBool build_success]>
         (<["executable" := PyNone]> ∅))).

(** The descriptor [SimBuild] reads back: [<tool>.edam], else
    [edam.json], else the empty dictionary. *)
Definition SimBuild_load_edam (work_root : Path) (tool : string) : Task PyVal :=
  let edam_file := path_join work_root (Path_of_str (tool +:+ ".edam")) in
  let* found := ask_world (fun w => fs_exists (world_fs w) edam_file) in
  let edam_file := if found : bool then edam_file
                   else path_join work_root (Path_of_str "edam.json") in
  let* found := ask_world (fun w => fs_exists (world_fs w) edam_file) in
  if found : bool then in_world (json_load_file edam_file)
  else es_ret (PyDict ∅).

(** [SimBuild] from the creation of the backend on. *)
Definition SimBuild_with_edam (Sim : Obj) (work_root : Path) (edam : PyVal)
  : Task TaskDataResult :=
  let* backend := in_world (EdalizeBackend.init Sim edam work_root true) in
  let* ((build_success, build_msg), backend) := call EdalizeBackend.build backend in
  (if build_success : bool
   then mark Info "Build completed successfully"
   else mark Error ("Build failed: " +:+ build_msg)) ;;
  task_return true [SimBuildOutput (path_str work_root) build_success] None
              (if build_success then 0 else 1).

Definition SimBuild_body (input : TaskDataInput SimBuildParams) : Task TaskDataResult :=
  let p := params input in
  let work_root := Path_of_str (sbp_work_root p) in
  let* Sim := in_world import_Sim in
  let* edam := SimBuild_load_edam work_root (sbp_tool p) in
  SimBuild_with_edam Sim work_root edam.

Definition SimBuild (input : TaskDataInput SimBuildParams) : ES World TaskDataResult :=
  run_task (SimBuild_body input) "Build failed: ".

Definition SimRunOutput (work_root : string) (run_success : bool) (log_file : PyVal)
  : PyVal :=
  PyDict (<["work_root" := PyStr work_root]>
         (<["run_success" := PyBool run_success]>
         (<["log_file" := log_file]> ∅))).

Definition SimRun_body (input : TaskDataInput SimRunParams) : Task TaskDataResult :=
  let p := params input in
  let work_root := Path_of_str (srp_work_root p) in
  let* Sim := in_world import_Sim in
  let* backend := in_world (EdalizeBackend.init Sim (PyDict ∅) work_root true) in
  let* ((run_success, run_msg), backend) := call EdalizeBackend.run backend in
  (if run_success : bool
   then mark Info "Simulation completed successfully"
   else mark Error ("Simulation failed: " +:+ run_msg)) ;;
  let* (log_files, backend) := call EdalizeBackend.get_log_files backend in
  let log_file := match log_files with
                  | f :: _ => PyStr (path_str f)
                  | [] => PyNone
                  end in
  task_return true [SimRunOutput (path_str work_root) run_success log_file] None
              (if run_success then 0 else 1).

Definition SimRun (input : TaskDataInput SimRunParams) : ES World TaskDataResult :=
  run_task (SimRun_body input) "Simulation failed: ".

End Tasks.

(* ===================================================================== *)
(** ** Statements and example inputs *)
(* ===================================================================== *)


(** The file system answers every question [_resolve_file_path] may ask
    about the name [v]: [exists()] and [resolve()] on the name joined to
    either root. *)
Definition resolver_answers (fs : FileSystem) (self : FilesetConverter.t)
    (v : PyVal) : bool :=
  fs_answers fs (path_join (FilesetConverter.core_root self) (Path_of v))
  && fs_answers fs (path_join (FilesetConverter.files_root self) (Path_of v)).




(** A converter with distinct roots, on a file system holding one file
    under each root. *)
Definition example_converter : FilesetConverter.t :=
  FilesetConverter.init (Path_of_str "/core") (Some (Path_of_str "/files")).

Definition example_fs : FileSystem :=
  plain_fs [ Path_of_str "/core"; Path_of_str "/core/rtl"; Path_of_str "/core/rtl/top.v";
             Path_of_str "/files"; Path_of_str "/files/fetched.v";
             Path_of_str "/ip" ].

(** A file record has a name when [file_info.get('name')] is truthy. *)
Definition has_name (file_info : gmap string PyVal) : bool :=
  truthy (default PyNone (file_info !! "name")).

Definition is_pathlike (v : PyVal) : bool :=
  match v with PyStr _ | PyPath _ => true | _ => false end.

(** A file record as the core manager produces it: a name, when there
    is one, is a string or a path, and so is an include path; the type
    tag can be looked up in a dictionary. *)
Definition file_record_ok (file_info : gmap string PyVal) : bool :=
  negb (has_name file_info)
  || (is_pathlike (default PyNone (file_info !! "name"))
      && hashable (default (PyStr "user") (file_info !! "file_type"))
      && is_pathlike (default (PyStr "") (file_info !! "include_path"))).

(** The file system answers for the paths [convert_files] resolves in a
    record: the name and the include path of a record that has a name. *)
Definition record_answered (fs : FileSystem) (self : FilesetConverter.t)
    (file_info : gmap string PyVal) : bool :=
  negb (has_name file_info)
  || (resolver_answers fs self (default PyNone (file_info !! "name"))
      && match file_info !! "include_path" with
         | Some v => resolver_answers fs self v
         | None => true
         end).

(** The type tag of a converted record: the table's target for a tag in
    the table, the tag itself otherwise. *)
Definition mapped_tag (file_type : PyVal) (mapped : PyVal) : Prop :=
  match file_type with
  | PyStr s => match FilesetConverter.FILE_TYPE_MAP !! s with
               | Some target => mapped = PyStr target
               | None => mapped = file_type
               end
  | _ => mapped = file_type
  end.

Definition converted_keys : list string :=
  [ "path"; "type"; "name"; "is_include"; "include_path"; "library"; "copyto"; "tags" ].

(** [d] is the conversion of the record [r]. *)
Definition converted_from (fs : FileSystem) (self : FilesetConverter.t)
    (r d : gmap string PyVal) : Prop :=
  d !! "name" = r !! "name"
  /\ (exists p, FilesetConverter._resolve_file_path fs self (default PyNone (r !! "name")) = Ok p
                /\ d !! "path" = Some (PyStr (path_str p)))
  /\ (exists m, d !! "type" = Some m
                /\ mapped_tag (default (PyStr "user") (r !! "file_type")) m)
  /\ d !! "is_include" = r !! "is_include_file"
  /\ match r !! "include_path" with
     | Some v => exists p, FilesetConverter._resolve_file_path fs self v = Ok p
                           /\ d !! "include_path" = Some (PyPath p)
     | None => d !! "include_path" = None
     end
  /\ d !! "library" = r !! "logical_name"
  /\ d !! "copyto" = r !! "copyto"
  /\ d !! "tags" = r !! "tags"
  /\ (forall k, k ∉ converted_keys -> d !! k = None).

(** The optional attributes as the contract of [convert_files] is
    specified: each carried over, under its new key, exactly when the
    input record has it. *)
Definition attributes_carried_over (r d : gmap string PyVal) : Prop :=
  d !! "is_include" = r !! "is_include_file"
  /\ d !! "include_path" = r !! "include_path"
  /\ d !! "library" = r !! "logical_name"
  /\ d !! "copyto" = r !! "copyto"
  /\ d !! "tags" = r !! "tags".

(** A file name of [n] letters. *)
Definition long_name (n : nat) : string := string_of_list_ascii (repeat "a"%char n).

Definition example_records : list (gmap string PyVal) :=
  [ <["name" := PyStr "rtl/top.v"]> (<["file_type" := PyStr "verilogSource"]>
      (<["is_include_file" := PyBool false]> (<["include_path" := PyStr "rtl"]> ∅)));
    <["file_type" := PyStr "user"]> ∅;
    <["name" := PyStr "fetched.v"]> (<["file_type" := PyStr "mySource"]>
      (<["logical_name" := PyStr "work"]> ∅)) ].

(** The first of the example records, and its conversion. *)
Definition example_include_record : gmap string PyVal :=
  <["name" := PyStr "rtl/top.v"]> (<["file_type" := PyStr "verilogSource"]>
    (<["is_include_file" := PyBool false]> (<["include_path" := PyStr "rtl"]> ∅))).

Definition example_include_converted : gmap string PyVal :=
  <["name" := PyStr "rtl/top.v"]> (<["type" := PyStr "verilog"]>
    (<["path" := PyStr "/core/rtl/top.v"]> (<["is_include" := PyBool false]>
      (<["include_path" := PyPath (mkPath "/" ["core"; "rtl"])]> ∅)))).

(** The two properties the attribute mapping is specified to have. *)
Definition file_type_round_trip : Prop :=
  forall tag target,
    FilesetConverter.FILE_TYPE_MAP !! tag = Some target ->
    EdamBuilder._map_file_type (PyStr target) = Ok tag.

Definition file_type_one_to_one : Prop :=
  forall tag1 tag2 target,
    FilesetConverter.FILE_TYPE_MAP !! tag1 = Some target ->
    FilesetConverter.FILE_TYPE_MAP !! tag2 = Some target ->
    tag1 = tag2.

(** The tags whose round trip gives them back. *)
Definition round_trip_tags : list string :=
  [ "verilogSource"; "systemVerilogSource"; "vhdlSource"; "tclSource"; "user" ].

(** The tags that do not come back: [vhdlSource-2008], and the five
    constraint formats. *)
Definition constraint_tags : list string := [ "xdc"; "SDC"; "UCF"; "PCF"; "LPF" ].

(** A tag sent through [FILE_TYPE_MAP] and back through
    [EdamBuilder._map_file_type], as a file record is on its way from
    [convert_files] to [add_files]. *)
Definition file_type_there_and_back (tag : string) : result string :=
  m ← FilesetConverter.FILE_TYPE_MAP_get (PyStr tag);
  EdamBuilder._map_file_type m.

Definition is_str (v : PyVal) : bool :=
  match v with PyStr _ => true | _ => false end.

(** The list stored under an option key: empty when the key is absent. *)
Definition option_list (bag : gmap string PyVal) (key : string) : option (list PyVal) :=
  match bag !! key with
  | None => Some []
  | Some (PyList l) => Some l
  | Some _ => None
  end.

(** An interpreter for the examples. *)
Definition example_interp : Interp := {| py_repr := fun v => "<" +:+ type_name v +:+ ">" |}.

(** The result every wrapper's [except Exception as e:] clause builds:
    [prior] are the markers appended before the exception. *)
Definition failure_result (prefix : string) (prior : list TaskMarker) (e : exn)
  : TaskDataResult :=
  mkResult false [] None (prior ++ [mkMarker Error (prefix +:+ exn_str e)])%list 1.


(** What [SimConfigure] returns when [EdalizeBackend.configure] reports
    failure. *)
Definition configure_failed_result (work_root : Path) (tool : string) : TaskDataResult :=
  mkResult true [SimConfigureOutput (path_str work_root) tool false] None
           [mkMarker Error ("Failed to configure " +:+ tool +:+ " simulation")] 1.

(** What [SimBuild] returns when the backend's build step reports that
    no flow was configured. *)
Definition flow_not_configured_result (work_root : Path) : TaskDataResult :=
  mkResult true [SimBuildOutput (path_str work_root) false] None
           [mkMarker Error
              "Build failed: Flow not configured. Call configure() first."] 1.

(** The descriptor file [SimBuild] settles on, when [exists()] answers
    for [<tool>.edam]. *)
Definition SimBuild_edam_file (fs : FileSystem) (work_root : Path) (tool : string)
  : result Path :=
  found ← fs_exists fs (path_join work_root (Path_of_str (tool +:+ ".edam")));
  Ok (if found : bool then path_join work_root (Path_of_str (tool +:+ ".edam"))
      else path_join work_root (Path_of_str "edam.json")).

(** [SimBuild] behaves as specified for an unusable descriptor file when
    its outcome is that of the build carried out, from some state of the
    world on, with the empty descriptor. *)
Definition builds_with_empty_descriptor `{External}
    (input : TaskDataInput SimBuildParams) (w : World) : Prop :=
  exists Sim w',
    fst (SimBuild input w)
    = fst (run_task (SimBuild_with_edam Sim (Path_of_str (sbp_work_root (params input)))
                                        (PyDict ∅))
                    "Build failed: " w').

(** An outside world for the examples.  The world is the log of the
    calls made so far; library objects are numbers.  Every call succeeds,
    except for the three outcomes the script fixes. *)
Record Script := mkScript {
  script_fs : FileSystem;
  script_flow_new : result nat;
  script_json_load : result PyVal;
  script_get_core : result nat
}.

Definition logged {A} (entry : string) (r : result A) : ES (list string) A :=
  fun w => (r, (w ++ [entry])%list).

Definition scripted (sc : Script) : External := {|
  World := list string;
  Obj := nat;
  world_fs := fun _ => script_fs sc;
  world_glob := fun _ _ _ => [];
  os_mkdir := fun p => logged ("mkdir " +:+ path_str p) (Ok tt);
  json_load_file := fun p => logged ("json.load " +:+ path_str p) (script_json_load sc);
  time_time := logged "time.time" (Ok (PyFloat 0));
  import_Sim := logged "import Sim" (Ok 0%nat);
  flow_new := fun _ _ _ _ => logged "Sim()" (script_flow_new sc);
  flow_configure := fun _ => logged "flow.configure" (Ok tt);
  flow_build := fun _ => logged "flow.build" (Ok tt);
  flow_run := fun _ => logged "flow.run" (Ok tt);
  fusesoc_Config := fun _ => logged "Config()" (Ok 1%nat);
  fusesoc_LibraryManager := fun _ => logged "LibraryManager()" (Ok 2%nat);
  fusesoc_CoreManager := fun _ _ => logged "CoreManager()" (Ok 3%nat);
  fusesoc_Library := fun n _ _ _ _ => logged ("Library " +:+ n) (Ok 4%nat);
  lm_add_library := fun _ _ => logged "add_library" (Ok tt);
  cm_find_cores := fun _ _ _ => logged "find_cores" (Ok []);
  cm_db_add := fun _ _ _ => logged "db.add" (Ok tt);
  fusesoc_Vlnv := fun n => logged ("Vlnv " +:+ n) (Ok 5%nat);
  cm_get_core := fun _ _ => logged "get_core" (script_get_core sc);
  core_provider := fun _ => logged "core.provider" (Ok None);
  provider_status := fun _ => logged "provider.status" (Ok "downloaded");
  provider_fetch := fun _ => logged "provider.fetch" (Ok tt);
  core_get_files := fun _ _ => logged "core.get_files" (Ok example_records);
  core_get_depends := fun _ _ => logged "core.get_depends" (Ok (Some []));
  core_get_parameters := fun _ _ => logged "core.get_parameters" (Ok (Some ∅));
  core_name := fun _ => logged "core.name" (Ok "test:core:simple:1.0");
  core_core_root := fun _ => logged "core.core_root" (Ok "/core");
  core_files_root := fun _ => logged "core.files_root" (Ok "/files")
|}.

Definition RuntimeError (msg : string) : exn := mkExn (ExceptionClass "RuntimeError") msg.
Definition JSONDecodeError (msg : string) : exn :=
  mkExn (ExceptionClass "JSONDecodeError") msg.

(** The Edalize flow cannot be created. *)
Definition flow_fails : External :=
  scripted (mkScript example_fs (Raise (RuntimeError "iverilog not found"))
                     (Ok (PyDict ∅)) (Ok 6%nat)).

(** The requested core is unknown to the core manager. *)
Definition core_missing : External :=
  scripted (mkScript example_fs (Ok 7%nat) (Ok (PyDict ∅))
                     (Raise (RuntimeError "'no:such:core' or any of its dependencies requires 'core', but this core was not found"))).

(** The work directory holds [icarus.edam], and it is not JSON. *)
Definition edam_malformed : External :=
  scripted (mkScript (plain_fs [Path_of_str "/run/sim_work";
                                Path_of_str "/run/sim_work/icarus.edam"])
                     (Ok 7%nat)
                     (Raise (JSONDecodeError "Expecting value: line 1 column 1 (char 0)"))
                     (Ok 6%nat)).

(** The work directory holds no descriptor. *)
Definition edam_missing : External :=
  scripted (mkScript (plain_fs [Path_of_str "/run/sim_work"])
                     (Ok 7%nat) (Ok (PyDict ∅)) (Ok 6%nat)).

Definition example_configure_input : TaskDataInput SimConfigureParams :=
  mkInput (mkSimConfigureParams "test_design"
             [ <["path" := PyStr "/core/rtl/top.v"]> (<["type" := PyStr "verilog"]> ∅) ]
             [] "top" "icarus" ∅ ∅ ∅)
          "/run".

Definition example_build_input : TaskDataInput SimBuildParams :=
  mkInput (mkSimBuildParams "/run/sim_work" "icarus") "/run".

Definition example_run_input : TaskDataInput SimRunParams :=
  mkInput (mkSimRunParams "/run/sim_work" "icarus" ∅) "/run".

Definition example_resolve_input : TaskDataInput CoreResolveParams :=
  mkInput (mkCoreResolveParams "no:such:core" None None [] None) "/run".

(* ===================================================================== *)
(** ** Statements about the rest of the code *)
(* ===================================================================== *)

(** A record [extract_include_dirs] can handle: an include path is a
    string or a path, and so is the name of a record flagged as an
    include file. *)
Definition include_record_ok (r : gmap string PyVal) : bool :=
  is_pathlike (default (PyStr "") (r !! "include_path"))
  && (negb (truthy (default (PyBool false) (r !! "is_include_file")))
      || negb (has_name r)
      || is_pathlike (default PyNone (r !! "name"))).

(** The file system answers for the paths [extract_include_dirs]
    resolves in a record: the include path, and the name of a named record
    flagged as an include file. *)
Definition include_answered (fs : FileSystem) (self : FilesetConverter.t)
    (r : gmap string PyVal) : bool :=
  match r !! "include_path" with
  | Some v => resolver_answers fs self v
  | None => true
  end
  && (negb (truthy (default (PyBool false) (r !! "is_include_file")))
      || negb (has_name r)
      || resolver_answers fs self (default PyNone (r !! "name"))).

(** [d] is an include directory the record [r] gives rise to: its
    resolved include path, or the directory of the resolved file when the
    record is flagged as an include file and has a name. *)
Definition include_dir_of (fs : FileSystem) (self : FilesetConverter.t)
    (r : gmap string PyVal) (d : string) : Prop :=
  (exists v p, r !! "include_path" = Some v
               /\ FilesetConverter._resolve_file_path fs self v = Ok p
               /\ d = path_str p)
  \/ (truthy (default (PyBool false) (r !! "is_include_file")) = true
      /\ has_name r = true
      /\ exists p, FilesetConverter._resolve_file_path fs self
                     (default PyNone (r !! "name")) = Ok p
                   /\ d = path_str (path_parent p)).

(** The order of [sorted()] on strings. *)
Definition str_le (a b : string) : Prop := Is_true (String.leb a b).

(** The input tags whose conversion is a source file. *)
Definition source_tags : list string :=
  [ "verilogSource"; "systemVerilogSource"; "vhdlSource"; "vhdlSource-2008";
    "verilog"; "systemverilog"; "vhdl" ].

(** What [add_parameters] stores for a value: a dictionary as it is, a
    raw value as a Verilog parameter record. *)
Definition stored_parameter (value : PyVal) : PyVal :=
  if isinstance_dict value then value else EdamBuilder.param_record value "vlogparam".

(** What [add_plusargs] stores for a value. *)
Definition stored_plusarg (value : PyVal) : PyVal :=
  EdamBuilder.param_record value "plusarg".

(** A file record [add_files] can handle: its type can be looked up in a
    dictionary. *)
Definition type_hashable (file_info : gmap string PyVal) : bool :=
  hashable (default (PyStr "user") (file_info !! "type")).

(** Parameters with an include directory and caller-supplied
    [iverilog_options]. *)
Definition example_params_with_options : SimConfigureParams :=
  mkSimConfigureParams "test_design" [] ["/path/to/inc"] "top" "icarus" ∅ ∅
    {[ "iverilog_options" := PyList [PyStr "-g2012"] ]}.

Definition edam_file_keys : list string :=
  [ "name"; "file_type"; "is_include_file"; "include_path"; "logical_name" ].

(** [f] is the EDAM file [add_files] makes of the file record [r]. *)
Definition edam_file_for `{Interp} (r f : gmap string PyVal) : Prop :=
  f !! "name"
  = Some (PyStr (py_str (default (default PyNone (r !! "name")) (r !! "path"))))
  /\ (exists t, EdamBuilder._map_file_type (default (PyStr "user") (r !! "type")) = Ok t
                /\ f !! "file_type" = Some (PyStr t))
  /\ f !! "is_include_file"
     = (if truthy (default PyNone (r !! "is_include")) then Some (PyBool true) else None)
  /\ f !! "include_path"
     = (if truthy (default PyNone (r !! "include_path"))
        then Some (PyStr (py_str (default PyNone (r !! "include_path")))) else None)
  /\ f !! "logical_name"
     = (if truthy (default PyNone (r !! "library")) then r !! "library" else None)
  /\ (forall k, k ∉ edam_file_keys -> f !! k = None).






(** What [SimConfigure] returns when the flow is configured. *)
Definition configured_result (work_root : Path) (tool toplevel : string)
  : TaskDataResult :=
  mkResult true [SimConfigureOutput (path_str work_root) tool true] None
           [mkMarker Info ("Configured " +:+ tool +:+ " simulation for " +:+ toplevel)] 0.

(** A result that reports failure: status 1, with an error marker. *)
Definition reports_failure (r : TaskDataResult) : Prop :=
  status r = 1 /\ exists m, m ∈ markers r /\ severity m = Error.

(** What [SimRun] returns in the world [edam_missing]. *)
Definition example_run_result : TaskDataResult :=
  mkResult true [SimRunOutput "/run/sim_work" false PyNone] None
           [mkMarker Error
              "Simulation failed: Flow not configured. Call configure() first."] 1.

(** A Verilog source record and its conversion. *)
Definition example_source_record : gmap string PyVal :=
  <["name" := PyStr "rtl/top.v"]> (<["file_type" := PyStr "verilogSource"]> ∅).

Definition example_source_converted : gmap string PyVal :=
  <["name" := PyStr "rtl/top.v"]>
    (<["type" := PyStr "verilog"]> (<["path" := PyStr "/core/rtl/top.v"]> ∅)).

(** A manager as [FuseSoCManager()] makes it in the example worlds. *)
Definition example_manager : @FuseSoCManager.t edam_missing :=
  @FuseSoCManager.mk edam_missing None None 1%nat 2%nat None.


(** The converter [build_edam_from_core] and [CoreResolve] make for the
    files of a core. *)
Definition core_converter (core_files : FuseSoCManager.CoreFiles)
  : FilesetConverter.t :=
  FilesetConverter.init (Path_of_str (FuseSoCManager.cf_core_root core_files))
                        (Some (Path_of_str (FuseSoCManager.cf_files_root core_files))).

(** The core files of the example records. *)
Definition example_core_files : FuseSoCManager.CoreFiles :=
  FuseSoCManager.mkCoreFiles example_records "test:core:simple:1.0" "/core" "/files"
                             [] ∅.

(** What a method of the manager may do to the manager object: nothing,
    or store a core manager where there was none. *)
Definition manager_kept `{External} (self self' : FuseSoCManager.t) : Prop :=
  self' = self
  \/ (FuseSoCManager._core_manager self = None
      /\ exists cm,
           self' = FuseSoCManager.mk (FuseSoCManager.config_dir self)
                     (FuseSoCManager.data_dir self) (FuseSoCManager._config self)
                     (FuseSoCManager._library_manager self) (Some cm)).

(** A method that treats the manager object this way, whether it
    returns or raises. *)
Definition keeps_manager `{External} {A} (m : ES (World * FuseSoCManager.t) A) : Prop :=
  forall s r s', m s = (r, s') -> manager_kept (snd s) (snd s').

(** A task body started with the markers [ms]: when it returns [a] the
    markers satisfy [Q a], when it raises they satisfy [E]. *)
Definition task_triple `{External} {A} (ms : list TaskMarker) (m : Task A)
    (Q : A -> list TaskMarker -> Prop) (E : list TaskMarker -> Prop) : Prop :=
  forall w, match m (w, ms) with
            | (Ok a, s') => Q a (snd s')
            | (Raise _, s') => E (snd s')
            end.

(** At most two markers, all informational. *)
Definition only_info (ms : list TaskMarker) : Prop :=
  Forall (fun m => severity m = Info) ms /\ (length ms <= 2)%nat.

(** The output record and the memento of [CoreResolve]. *)
Definition CoreResolveOutput `{External} (core_files : FuseSoCManager.CoreFiles)
    (converted_files : list (gmap string PyVal)) (dependencies include_dirs : list string)
  : PyVal :=
  PyDict (<["core_name" := PyStr (FuseSoCManager.cf_name core_files)]>
         (<["core_root" := PyStr (FuseSoCManager.cf_core_root core_files)]>
         (<["files_root" := PyStr (FuseSoCManager.cf_files_root core_files)]>
         (<["files" := PyList (PyDict <$> converted_files)]>
         (<["dependencies" := PyList (PyStr <$> dependencies)]>
         (<["parameters" := PyDict (FuseSoCManager.cf_parameters core_files)]>
         (<["include_dirs" := PyList (PyStr <$> include_dirs)]> ∅))))))).

Definition CoreResolveMemento `{External} (p : CoreResolveParams)
    (core_files : FuseSoCManager.CoreFiles) (now : PyVal) : PyVal :=
  PyDict (<["core" := PyStr (crp_core p)]>
         (<["target" := py_opt_str (crp_target p)]>
         (<["tool" := py_opt_str (crp_tool p)]>
         (<["core_name" := PyStr (FuseSoCManager.cf_name core_files)]>
         (<["last_resolution" := now]> ∅))))).

(** The result of a [CoreResolve] that resolved the core, and the world
    [w'] it leaves: the core is the one [resolve_core] returned for the
    requested name, the core files are what [get_core_files] returned for
    it, and the output holds the conversion of these files, their include
    directories and the dependencies [get_dependencies] returned. *)
Definition resolved_result `{External} (p : CoreResolveParams) (w' : World)
    (r : TaskDataResult) : Prop :=
  let flags := CoreResolve_flags p in
  exists (core : Obj) (cname : string) (core_files : FuseSoCManager.CoreFiles)
         (converted_files : list (gmap string PyVal)) (include_dirs dependencies : list string)
         (now : PyVal) (w0 w1 w2 w3 w4 : World) (m0 m1 m2 m3 : FuseSoCManager.t),
    FuseSoCManager.resolve_core (crp_core p) flags (w0, m0) = (Ok core, (w1, m1))
    /\ core_name core w1 = (Ok cname, w2)
    /\ FuseSoCManager.get_core_files core flags (w2, m1) = (Ok core_files, (w3, m2))
    /\ FilesetConverter.convert_files (world_fs w3) (core_converter core_files)
         (FuseSoCManager.cf_files core_files) = Ok converted_files
    /\ FilesetConverter.extract_include_dirs (world_fs w3) (core_converter core_files)
         (FuseSoCManager.cf_files core_files) = Ok include_dirs
    /\ FuseSoCManager.get_dependencies core flags (w3, m2) = (Ok dependencies, (w4, m3))
    /\ time_time w4 = (Ok now, w')
    /\ r = mkResult true
             [CoreResolveOutput core_files converted_files dependencies include_dirs]
             (Some (CoreResolveMemento p core_files now))
             [ mkMarker Info ("Resolved core: " +:+ cname);
               mkMarker Info ("Extracted "
                              +:+ pretty (Z.of_nat (length converted_files))
                              +:+ " files from core") ]
             0.

(** The result of a [CoreResolve] that failed: the markers issued before
    the failure are kept, the error comes last. *)
Definition unresolved_result (r : TaskDataResult) : Prop :=
  exists prior e,
    r = failure_result "Core resolution failed: " prior e
    /\ is_Exception e = true
    /\ only_info prior.

(** The artefacts [_check_build_success] looks for. *)
Definition build_artefacts `{External} (w : World) (self : EdalizeBackend.t) : Prop :=
  (EdalizeBackend.get_tool self = Ok (PyStr "icarus") ->
   fs_exists (world_fs w)
     (path_join (EdalizeBackend.work_root self) (Path_of_str "simv")) = Ok true
   \/ world_glob w (EdalizeBackend.work_root self) "*.vvp" <> [])
  /\ (EdalizeBackend.get_tool self = Ok (PyStr "verilator") ->
      exists obj_dir rest,
        world_glob w (EdalizeBackend.work_root self) "obj_dir" = obj_dir :: rest
        /\ world_glob w obj_dir "V*" <> []).

(** A backend of the example worlds whose flow has been created. *)
Definition example_flow_backend : @EdalizeBackend.t edam_missing :=
  @EdalizeBackend.mk edam_missing 0%nat (PyDict ∅) (Path_of_str "/run/sim_work")
                     true (Some 7%nat).

(** A manager of the example worlds that holds its core manager. *)
Definition example_cached_manager : @FuseSoCManager.t edam_missing :=
  @FuseSoCManager.mk edam_missing None None 1%nat 2%nat (Some 3%nat).

(* ===================================================================== *)
(** ** Theorems: the path resolver *)
(* ===================================================================== *)



Lemma posix_root_absolute (s : string) :
  os_path_isabs s = true -> posix_root s <> "".
Proof.
  unfold os_path_isabs, posix_root. intros Habs.
  destruct (String.prefix "///" s); [discriminate|].
  destruct (String.prefix "//" s); [discriminate|].
  rewrite Habs. discriminate.
Qed.


(** An absolute name joined to any root is the name itself. *)
Lemma path_join_absolute (root : Path) (s : string) :
  os_path_isabs s = true -> path_join root (Path_of_str s) = Path_of_str s.
Proof.
  intros Habs. unfold path_join. simpl.
  destruct (String.eqb_spec (posix_root s) "") as [Heq|Hne]; [|reflexivity].
  exfalso. exact (posix_root_absolute s Habs Heq).
Qed.

(** C10. For every absolute filename, [_resolve_file_path] returns the
    filename unchanged, as [Path(filename)], whatever the file system
    holds and whatever the two roots are: existence is not consulted. *)
Theorem resolve_file_path_absolute (fs : FileSystem) (self : FilesetConverter.t)
    (filename : string) :
  os_path_isabs filename = true ->
  FilesetConverter._resolve_file_path fs self (PyStr filename)
  = Ok (Path_of_str filename).
Proof.
  intros Habs. unfold FilesetConverter._resolve_file_path. simpl.
  rewrite Habs. reflexivity.
Qed.

Lemma resolve_file_path_absolute_witness :
  FilesetConverter._resolve_file_path example_fs example_converter (PyStr "/opt/ip/top.v")
  = Ok (mkPath "/" ["opt"; "ip"; "top.v"]).
Proof.
  apply (resolve_file_path_absolute example_fs example_converter "/opt/ip/top.v").
  reflexivity.
Defined.







(** What the file system refuses is not caught: a relative name of 256
    letters, a missing file like any other, makes [exists()] raise
    [OSError], and so does [_resolve_file_path]; a name with a NUL makes
    [resolve()] raise [ValueError]. *)
Lemma resolve_file_path_refused :
  is_Ok (FilesetConverter._resolve_file_path example_fs example_converter
           (PyStr (long_name 255))) = true
  /\ (exists e, FilesetConverter._resolve_file_path example_fs example_converter
                  (PyStr (long_name 256)) = Raise e
                /\ exn_cls e = ExceptionClass "OSError")
  /\ FilesetConverter._resolve_file_path example_fs example_converter
       (PyStr (String Ascii.zero "a"))
     = Raise (ValueError "embedded null byte").
Proof.
  split; [vm_compute; reflexivity|]. split; [|vm_compute; reflexivity].
  eexists. split; [vm_compute; reflexivity|reflexivity].
Qed.

(* ===================================================================== *)
(** ** Theorems: converting file records *)
(* ===================================================================== *)

(** A string or path name for which the file system answers is
    resolved. *)
Lemma resolve_file_path_pathlike (fs : FileSystem) (self : FilesetConverter.t)
    (v : PyVal) :
  is_pathlike v = true -> resolver_answers fs self v = true ->
  exists p, FilesetConverter._resolve_file_path fs self v = Ok p.
Proof.
  intros Hv Hans. unfold resolver_answers, fs_answers in Hans.
  apply andb_true_iff in Hans as [Hc Hf].
  apply andb_true_iff in Hc as [Hce Hcr]. apply andb_true_iff in Hf as [Hfe Hfr].
  unfold FilesetConverter._resolve_file_path.
  destruct v; try discriminate Hv; cbn [os_fspath mbind result_bind];
    (match goal with |- context [if ?b then _ else _] => destruct b end;
     [eexists; reflexivity|]);
    (destruct (fs_exists fs (path_join (FilesetConverter.core_root self) _))
       as [[]|]; [| |discriminate Hce]; cbn [mbind result_bind];
     [destruct (fs_resolve fs (path_join (FilesetConverter.core_root self) _));
        [eauto|discriminate Hcr]|]);
    (destruct (negb (bool_decide _));
     [|destruct (fs_resolve fs (path_join (FilesetConverter.core_root self) _));
         [eauto|discriminate Hcr]]);
    (destruct (fs_exists fs (path_join (FilesetConverter.files_root self) _))
       as [[]|]; [| |discriminate Hfe]; cbn [mbind result_bind];
     [destruct (fs_resolve fs (path_join (FilesetConverter.files_root self) _));
        [eauto|discriminate Hfr]
     |destruct (fs_resolve fs (path_join (FilesetConverter.core_root self) _));
        [eauto|discriminate Hcr]]).
Qed.

Lemma FILE_TYPE_MAP_get_hashable (file_type : PyVal) :
  hashable file_type = true ->
  exists m, FilesetConverter.FILE_TYPE_MAP_get file_type = Ok m /\ mapped_tag file_type m.
Proof.
  intros Hh. destruct file_type; try discriminate Hh; simpl;
    try (eexists; split; reflexivity).
  unfold mapped_tag.
  destruct (FilesetConverter.FILE_TYPE_MAP !! s); eexists; split; reflexivity.
Qed.

Lemma truthy_dict_lookup (d : gmap string PyVal) (k : string) (v : PyVal) :
  d !! k = Some v -> truthy (PyDict d) = true.
Proof.
  intros Hk. simpl. destruct (map_to_list d) eqn:Hl; [|reflexivity].
  apply map_to_list_empty_iff in Hl. subst d. rewrite lookup_empty in Hk. discriminate.
Qed.

Lemma copy_attr_lookup (file_info : gmap string PyVal) (key key' k : string)
    (converted : gmap string PyVal) :
  FilesetConverter.copy_attr file_info key key' converted !! k
  = if decide (key' = k) then
      match file_info !! key with Some v => Some v | None => converted !! k end
    else converted !! k.
Proof.
  unfold FilesetConverter.copy_attr.
  destruct (file_info !! key); case_decide; subst; simplify_map_eq; reflexivity.
Qed.

(** A record without a name is skipped. *)
Lemma convert_file_unnamed (fs : FileSystem) (self : FilesetConverter.t)
    (r : gmap string PyVal) :
  has_name r = false -> FilesetConverter._convert_file fs self r = Ok None.
Proof.
  unfold has_name, FilesetConverter._convert_file. intros ->. reflexivity.
Qed.

(** Lookups in a converted record, key by key. *)
Ltac dict_lookup :=
  repeat first [ rewrite copy_attr_lookup | rewrite lookup_insert | rewrite lookup_empty ];
  repeat first [ rewrite decide_True by reflexivity
               | rewrite decide_False by (discriminate || congruence) ].

(** A record with a name whose paths are resolved is converted. *)
Lemma convert_file_resolved (fs : FileSystem) (self : FilesetConverter.t)
    (r : gmap string PyVal) (p : Path) :
  has_name r = true ->
  hashable (default (PyStr "user") (r !! "file_type")) = true ->
  FilesetConverter._resolve_file_path fs self (default PyNone (r !! "name")) = Ok p ->
  match r !! "include_path" with
  | Some v => exists q, FilesetConverter._resolve_file_path fs self v = Ok q
  | None => True
  end ->
  exists d, FilesetConverter._convert_file fs self r = Ok (Some d)
            /\ converted_from fs self r d.
Proof.
  intros Hname Hhash Hp Hinc.
  destruct (FILE_TYPE_MAP_get_hashable _ Hhash) as [m [Hm Htag]].
  unfold FilesetConverter._convert_file. unfold has_name in Hname.
  rewrite Hname. cbn [negb]. rewrite Hp. cbn [mbind result_bind]. rewrite Hm.
  cbn [mbind result_bind].
  assert (Hn : r !! "name" = Some (default PyNone (r !! "name"))).
  { destruct (r !! "name"); [reflexivity|discriminate Hname]. }
  unfold converted_from.
  destruct (r !! "include_path") as [v|] eqn:Hv.
  - destruct Hinc as [q Hq].
    rewrite Hq. cbn [mbind result_bind]. eexists. split; [reflexivity|].
    split; [dict_lookup; symmetry; exact Hn|].
    split; [exists p; split; [exact Hp|dict_lookup; reflexivity]|].
    split; [exists m; split; [dict_lookup; reflexivity|exact Htag]|].
    split; [dict_lookup; destruct (r !! "is_include_file"); reflexivity|].
    split; [exists q; split; [reflexivity|dict_lookup; reflexivity]|].
    split; [dict_lookup; destruct (r !! "logical_name"); reflexivity|].
    split; [dict_lookup; destruct (r !! "copyto"); reflexivity|].
    split; [dict_lookup; destruct (r !! "tags"); reflexivity|].
    intros k Hk. unfold converted_keys in Hk.
    rewrite !not_elem_of_cons in Hk. destruct_and!.
    dict_lookup; try reflexivity.
  - cbn [mbind result_bind]. eexists. split; [reflexivity|].
    split; [dict_lookup; symmetry; exact Hn|].
    split; [exists p; split; [exact Hp|dict_lookup; reflexivity]|].
    split; [exists m; split; [dict_lookup; reflexivity|exact Htag]|].
    split; [dict_lookup; destruct (r !! "is_include_file"); reflexivity|].
    split; [dict_lookup; reflexivity|].
    split; [dict_lookup; destruct (r !! "logical_name"); reflexivity|].
    split; [dict_lookup; destruct (r !! "copyto"); reflexivity|].
    split; [dict_lookup; destruct (r !! "tags"); reflexivity|].
    intros k Hk. unfold converted_keys in Hk.
    rewrite !not_elem_of_cons in Hk. destruct_and!.
    dict_lookup; try reflexivity.
Qed.

(** A well-typed record with a name, for whose paths the file system
    answers, is converted. *)
Lemma convert_file_named (fs : FileSystem) (self : FilesetConverter.t)
    (r : gmap string PyVal) :
  has_name r = true -> file_record_ok r = true -> record_answered fs self r = true ->
  exists d, FilesetConverter._convert_file fs self r = Ok (Some d)
            /\ converted_from fs self r d.
Proof.
  intros Hname Hok Hans. unfold file_record_ok in Hok. unfold record_answered in Hans.
  rewrite Hname in Hok, Hans. cbn [negb orb] in Hok, Hans.
  apply andb_true_iff in Hok as [Hok Hinc]. apply andb_true_iff in Hok as [Hpl Hhash].
  apply andb_true_iff in Hans as [Hans Hians].
  destruct (resolve_file_path_pathlike fs self _ Hpl Hans) as [p Hp].
  apply (convert_file_resolved fs self r p Hname Hhash Hp).
  destruct (r !! "include_path") as [v|]; [|exact I].
  simpl in Hinc. exact (resolve_file_path_pathlike fs self v Hinc Hians).
Qed.

Lemma convert_files_loop_spec (fs : FileSystem) (self : FilesetConverter.t)
    (files acc : list (gmap string PyVal)) :
  Forall (fun r => file_record_ok r = true) files ->
  Forall (fun r => record_answered fs self r = true) files ->
  exists out,
    FilesetConverter.convert_files_loop fs self files acc = Ok (acc ++ out)%list
    /\ Forall2 (converted_from fs self) (filter (fun r => has_name r = true) files) out.
Proof.
  intros Hok. revert acc. induction Hok as [|r rest Hr _ IH]; intros acc Hans.
  - exists []. split; [cbn; rewrite app_nil_r; reflexivity | constructor].
  - apply Forall_cons in Hans as [Har Hans].
    cbn [FilesetConverter.convert_files_loop].
    destruct (has_name r) eqn:Hname.
    + destruct (convert_file_named fs self r Hname Hr Har) as [d [Hd Hconv]].
      rewrite Hd. cbn [mbind result_bind].
      assert (Hd_name : exists v, d !! "name" = Some v).
      { destruct Hconv as [Hdn _]. unfold has_name in Hname. rewrite Hdn.
        destruct (r !! "name"); [eauto | discriminate Hname]. }
      destruct Hd_name as [v Hv]. rewrite (truthy_dict_lookup d "name" v Hv).
      destruct (IH (acc ++ [d])%list Hans) as [out [Hout Hall]].
      exists (d :: out). split.
      * rewrite Hout, <- app_assoc. reflexivity.
      * rewrite filter_cons_True by exact Hname. constructor; assumption.
    + rewrite (convert_file_unnamed fs self r Hname). cbn [mbind result_bind].
      destruct (IH acc Hans) as [out [Hout Hall]].
      exists out. split; [exact Hout|].
      rewrite filter_cons_False by (rewrite Hname; discriminate). exact Hall.
Qed.

(** The loop stops at the first named record whose name is refused. *)
Lemma convert_files_loop_raises (fs : FileSystem) (self : FilesetConverter.t)
    (before after acc : list (gmap string PyVal)) (r : gmap string PyVal) (e : exn) :
  Forall (fun r => file_record_ok r = true) before ->
  Forall (fun r => record_answered fs self r = true) before ->
  has_name r = true ->
  FilesetConverter._resolve_file_path fs self (default PyNone (r !! "name")) = Raise e ->
  FilesetConverter.convert_files_loop fs self (before ++ r :: after) acc = Raise e.
Proof.
  intros Hok. revert acc. induction Hok as [|r0 rest Hr0 _ IH];
    intros acc Hans Hname Hraise.
  - cbn [app FilesetConverter.convert_files_loop].
    unfold FilesetConverter._convert_file. unfold has_name in Hname.
    rewrite Hname. cbn [negb]. rewrite Hraise. reflexivity.
  - apply Forall_cons in Hans as [Har Hans].
    cbn [app FilesetConverter.convert_files_loop].
    destruct (has_name r0) eqn:Hname0.
    + destruct (convert_file_named fs self r0 Hname0 Hr0 Har) as [d [Hd _]].
      rewrite Hd. cbn [mbind result_bind]. apply IH; assumption.
    + rewrite (convert_file_unnamed fs self r0 Hname0). cbn [mbind result_bind].
      apply IH; assumption.
Qed.

(** C2, as stated, fails for [include_path]: the attribute is not carried
    over but replaced.  For the record named [rtl/top.v] with the include
    path ['rtl'], the converted record holds under [include_path] the path
    object [/core/rtl] that [_resolve_file_path] returns, not the input
    string. *)
Lemma convert_files_include_path_replaced :
  FilesetConverter.convert_files example_fs example_converter [example_include_record]
  = Ok [example_include_converted]
  /\ example_include_record !! "include_path" = Some (PyStr "rtl")
  /\ example_include_converted !! "include_path"
     = Some (PyPath (mkPath "/" ["core"; "rtl"]))
  /\ ~ attributes_carried_over example_include_record example_include_converted.
Proof.
  assert (Hr : example_include_record !! "include_path" = Some (PyStr "rtl"))
    by (vm_compute; reflexivity).
  assert (Hd : example_include_converted !! "include_path"
               = Some (PyPath (mkPath "/" ["core"; "rtl"])))
    by (vm_compute; reflexivity).
  split; [vm_compute; reflexivity|]. split; [exact Hr|]. split; [exact Hd|].
  intros (_ & Hinc & _). rewrite Hr, Hd in Hinc. discriminate Hinc.
Qed.

(** C2, amended. For every list of well-typed file records for whose
    names and include paths the file system answers, [convert_files]
    returns exactly the conversions, in input order, of the records that
    have a non-empty name; the others are dropped.  In a converted record
    the type tag is the table's target when the input tag is in
    [FILE_TYPE_MAP] and the input tag otherwise (['user'] when the record
    has none); [is_include_file], [logical_name], [copyto] and [tags] are
    present exactly when the input has them, with the input's value, under
    the keys [is_include], [library], [copyto] and [tags]; [include_path]
    is present exactly when the input has it and holds, instead of the
    input's value, the path object [_resolve_file_path] makes of it; no
    other key is present.  An exception raised while the name of a record
    is resolved is not caught: it ends [convert_files]. *)
Theorem convert_files_contract (fs : FileSystem) (self : FilesetConverter.t)
    (files : list (gmap string PyVal)) :
  Forall (fun r => file_record_ok r = true) files ->
  (Forall (fun r => record_answered fs self r = true) files ->
   exists out,
     FilesetConverter.convert_files fs self files = Ok out
     /\ Forall2 (converted_from fs self) (filter (fun r => has_name r = true) files) out)
  /\ (forall before r after e,
         files = (before ++ r :: after)%list ->
         Forall (fun r => record_answered fs self r = true) before ->
         has_name r = true ->
         FilesetConverter._resolve_file_path fs self (default PyNone (r !! "name"))
         = Raise e ->
         FilesetConverter.convert_files fs self files = Raise e).
Proof.
  intros Hok. split.
  - intros Hans. exact (convert_files_loop_spec fs self files [] Hok Hans).
  - intros before r after e -> Hans Hname Hraise.
    apply Forall_app in Hok as [Hbefore _].
    exact (convert_files_loop_raises fs self before after [] r e
             Hbefore Hans Hname Hraise).
Qed.

Lemma convert_files_contract_witness :
  exists out,
    FilesetConverter.convert_files example_fs example_converter example_records = Ok out
    /\ Forall2 (converted_from example_fs example_converter)
               (filter (fun r => has_name r = true) example_records) out.
Proof.
  apply (convert_files_contract example_fs example_converter example_records).
  - repeat constructor.
  - repeat constructor.
Defined.

(* ===================================================================== *)
(** ** Theorems: the descriptor builder *)
(* ===================================================================== *)

Lemma infer_datatype_cases (v : PyVal) :
  EdamBuilder._infer_datatype v
  = match v with
    | PyBool _ => "bool"
    | PyInt _ => "int"
    | PyFloat _ => "real"
    | _ => "str"
    end.
Proof. destruct v; reflexivity. Qed.

(** The loop shared by [add_parameters] and [add_plusargs]: every entry
    of the argument is stored, converted by [f]; the other parameters
    stay. *)
Lemma parameters_fold_lookup (f : PyVal -> PyVal) (self : EdamBuilder.t)
    (ps : gmap string PyVal) (k : string) :
  EdamBuilder.parameters
    (map_fold (fun pname value (acc : EdamBuilder.t) =>
                 EdamBuilder.with_parameters acc
                   (<[pname := f value]> (EdamBuilder.parameters acc)))
              self ps) !! k
  = match ps !! k with
    | Some v => Some (f v)
    | None => EdamBuilder.parameters self !! k
    end.
Proof.
  revert k.
  apply (map_fold_weak_ind
           (fun (acc : EdamBuilder.t) (m : gmap string PyVal) =>
              forall k, EdamBuilder.parameters acc !! k
                        = match m !! k with
                          | Some v => Some (f v)
                          | None => EdamBuilder.parameters self !! k
                          end)).
  - intros k. rewrite lookup_empty. reflexivity.
  - intros i x m r Hi IH k. cbn [EdamBuilder.with_parameters EdamBuilder.parameters].
    rewrite !lookup_insert. case_decide; [reflexivity | apply IH].
Qed.

Lemma param_record_fields (v : PyVal) (paramtype : string) :
  exists d, EdamBuilder.param_record v paramtype = PyDict d
            /\ d !! "datatype" = Some (PyStr (EdamBuilder._infer_datatype v))
            /\ d !! "default" = Some v
            /\ d !! "paramtype" = Some (PyStr paramtype).
Proof.
  eexists. split; [reflexivity|].
  repeat split; dict_lookup; reflexivity.
Qed.

(** C3. A raw value is tagged ["bool"] when it is a boolean (although a
    boolean is also an [int]), ["int"] when it is another integer,
    ["real"] when it is a float and ["str"] otherwise; [add_parameters]
    stores that tag for every non-dictionary value and [add_plusargs] for
    every value. *)
Theorem infer_datatype_spec (self : EdamBuilder.t) (ps : gmap string PyVal)
    (pname : string) (v : PyVal) :
  ps !! pname = Some v ->
  EdamBuilder._infer_datatype v
  = match v with
    | PyBool _ => "bool"
    | PyInt _ => "int"
    | PyFloat _ => "real"
    | _ => "str"
    end
  /\ (isinstance_bool v = true ->
      isinstance_int v = true /\ EdamBuilder._infer_datatype v = "bool")
  /\ EdamBuilder.parameters (EdamBuilder.add_parameters self ps) !! pname
     = Some (if isinstance_dict v then v else EdamBuilder.param_record v "vlogparam")
  /\ EdamBuilder.parameters (EdamBuilder.add_plusargs self ps) !! pname
     = Some (EdamBuilder.param_record v "plusarg")
  /\ forall paramtype,
       exists d, EdamBuilder.param_record v paramtype = PyDict d
                 /\ d !! "datatype" = Some (PyStr (EdamBuilder._infer_datatype v)).
Proof.
  intros Hv. split; [apply infer_datatype_cases|]. split; [|split; [|split]].
  - destruct v; try discriminate. intros _. split; reflexivity.
  - unfold EdamBuilder.add_parameters.
    rewrite (parameters_fold_lookup
               (fun value => if isinstance_dict value then value
                             else EdamBuilder.param_record value "vlogparam")).
    rewrite Hv. reflexivity.
  - unfold EdamBuilder.add_plusargs.
    rewrite (parameters_fold_lookup
               (fun value => EdamBuilder.param_record value "plusarg")).
    rewrite Hv. reflexivity.
  - intros paramtype. destruct (param_record_fields v paramtype) as [d [Hd [Hdt _]]].
    exists d. split; assumption.
Qed.

Lemma infer_datatype_spec_witness :
  EdamBuilder._infer_datatype (PyBool true) = "bool"
  /\ EdamBuilder.parameters
       (EdamBuilder.add_parameters (EdamBuilder.init (PyStr "design"))
          {[ "ENABLE" := PyBool true ]}) !! "ENABLE"
     = Some (EdamBuilder.param_record (PyBool true) "vlogparam").
Proof.
  pose proof (infer_datatype_spec (EdamBuilder.init (PyStr "design"))
                {[ "ENABLE" := PyBool true ]} "ENABLE" (PyBool true)
                (lookup_singleton_eq _ _)) as [H1 [_ [H3 _]]].
  split; [exact H1 | exact H3].
Defined.

(** C4, as stated, fails: [xdc] maps to [constraint], which maps back
    to [user]; and [vhdlSource] and [vhdlSource-2008] share the target
    [vhdl]. *)
Lemma file_type_map_not_symmetric :
  FilesetConverter.FILE_TYPE_MAP !! "xdc" = Some "constraint"
  /\ EdamBuilder._map_file_type (PyStr "constraint") = Ok "user"
  /\ FilesetConverter.FILE_TYPE_MAP !! "vhdlSource" = Some "vhdl"
  /\ FilesetConverter.FILE_TYPE_MAP !! "vhdlSource-2008" = Some "vhdl"
  /\ ~ file_type_round_trip
  /\ ~ file_type_one_to_one.
Proof.
  repeat split; try reflexivity.
  - intros Hrt. specialize (Hrt "xdc" "constraint" eq_refl). discriminate Hrt.
  - intros Hinj.
    specialize (Hinj "vhdlSource" "vhdlSource-2008" "vhdl" eq_refl eq_refl).
    discriminate Hinj.
Qed.

Lemma FILE_TYPE_MAP_entries (tag target : string) :
  FilesetConverter.FILE_TYPE_MAP !! tag = Some target ->
  (tag, target) ∈ FilesetConverter.FILE_TYPE_MAP_items.
Proof. apply elem_of_list_to_map_2. Qed.

Lemma file_type_round_trip_value (tag target : string) :
  FilesetConverter.FILE_TYPE_MAP !! tag = Some target ->
  EdamBuilder._map_file_type (PyStr target)
  = Ok (if bool_decide (tag ∈ round_trip_tags) then tag
        else if bool_decide (tag = "vhdlSource-2008") then "vhdlSource"
        else "user")
  /\ (tag ∉ round_trip_tags ->
      tag ∈ ["vhdlSource-2008"; "xdc"; "SDC"; "UCF"; "PCF"; "LPF"]).
Proof.
  intros Hfwd.
  apply FILE_TYPE_MAP_entries in Hfwd. unfold FilesetConverter.FILE_TYPE_MAP_items in Hfwd.
  rewrite !elem_of_cons, elem_of_nil in Hfwd.
  repeat (destruct Hfwd as [Hfwd|Hfwd]; [injection Hfwd as -> ->; split;
                                           [vm_compute; reflexivity | intros Hn] |]);
    try (exfalso; apply Hn; vm_compute; tauto);
    try (unfold round_trip_tags in *; set_solver).
Qed.

(** C4, amended. The tags [verilogSource], [systemVerilogSource],
    [vhdlSource], [tclSource] and [user] are in [FILE_TYPE_MAP], and the
    forward map followed by the reverse map gives each of them back; on
    these five tags the forward map is one-to-one.  [vhdlSource-2008]
    shares the target [vhdl] with [vhdlSource] and comes back as
    [vhdlSource]; [xdc], [SDC], [UCF], [PCF] and [LPF] share the target
    [constraint] and come back as [user].  The table has no other tag. *)
Theorem file_type_round_trip_amended (tag target : string) :
  (forall t, t ∈ round_trip_tags ->
             is_Some (FilesetConverter.FILE_TYPE_MAP !! t)
             /\ file_type_there_and_back t = Ok t)
  /\ (FilesetConverter.FILE_TYPE_MAP !! "vhdlSource-2008" = Some "vhdl"
      /\ FilesetConverter.FILE_TYPE_MAP !! "vhdlSource" = Some "vhdl"
      /\ file_type_there_and_back "vhdlSource-2008" = Ok "vhdlSource")
  /\ (forall t, t ∈ constraint_tags ->
                FilesetConverter.FILE_TYPE_MAP !! t = Some "constraint"
                /\ file_type_there_and_back t = Ok "user")
  /\ (forall t, is_Some (FilesetConverter.FILE_TYPE_MAP !! t)
                <-> t ∈ (round_trip_tags ++ "vhdlSource-2008" :: constraint_tags)%list)
  /\ (FilesetConverter.FILE_TYPE_MAP !! tag = Some target ->
      EdamBuilder._map_file_type (PyStr target)
      = Ok (if bool_decide (tag ∈ round_trip_tags) then tag
            else if bool_decide (tag = "vhdlSource-2008") then "vhdlSource"
            else "user")
      /\ (tag ∉ round_trip_tags ->
          tag ∈ ["vhdlSource-2008"; "xdc"; "SDC"; "UCF"; "PCF"; "LPF"])
      /\ (forall tag2, tag ∈ round_trip_tags -> tag2 ∈ round_trip_tags ->
                       FilesetConverter.FILE_TYPE_MAP !! tag2 = Some target ->
                       tag2 = tag)).
Proof.
  split; [|split; [|split; [|split]]].
  - intros t Ht. unfold round_trip_tags in Ht.
    rewrite !elem_of_cons, elem_of_nil in Ht.
    destruct Ht as [->|[->|[->|[->|[->|[]]]]]];
      (split; [eexists; vm_compute; reflexivity | vm_compute; reflexivity]).
  - repeat split; vm_compute; reflexivity.
  - intros t Ht. unfold constraint_tags in Ht.
    rewrite !elem_of_cons, elem_of_nil in Ht.
    destruct Ht as [->|[->|[->|[->|[->|[]]]]]]; split; vm_compute; reflexivity.
  - intros t. split.
    + intros [tg Htg]. destruct (file_type_round_trip_value t tg Htg) as [_ Hother].
      apply elem_of_app.
      destruct (decide (t ∈ round_trip_tags)) as [Hin|Hout]; [left; exact Hin|].
      right. exact (Hother Hout).
    + intros Ht. unfold round_trip_tags, constraint_tags in Ht. cbn [app] in Ht.
      rewrite !elem_of_cons, elem_of_nil in Ht.
      repeat (destruct Ht as [->|Ht]; [eexists; vm_compute; reflexivity|]).
      destruct Ht.
  - intros Hfwd.
    destruct (file_type_round_trip_value tag target Hfwd) as [Hrt Hother].
    split; [exact Hrt|]. split; [exact Hother|].
    intros tag2 Htag Htag2 Hfwd2.
    destruct (file_type_round_trip_value tag2 target Hfwd2) as [Hrt2 _].
    rewrite bool_decide_eq_true_2 in Hrt by exact Htag.
    rewrite bool_decide_eq_true_2 in Hrt2 by exact Htag2.
    congruence.
Qed.

Lemma file_type_round_trip_amended_witness :
  EdamBuilder._map_file_type (PyStr "verilog") = Ok "verilogSource".
Proof.
  destruct (file_type_round_trip_amended "verilogSource" "verilog")
    as (_ & _ & _ & _ & Hvalue).
  exact (proj1 (Hvalue eq_refl)).
Defined.

(** C5. [build()] raises [ValueError] when the design name is the empty
    string, and for every non-empty design name it returns the
    accumulated descriptor unchanged, without raising. *)
Theorem build_requires_name (self : EdamBuilder.t) (s : string) :
  EdamBuilder.name self = PyStr s ->
  (s = "" -> EdamBuilder.build self = Raise (ValueError "EDAM 'name' is required"))
  /\ (s <> "" -> EdamBuilder.build self = Ok self).
Proof.
  intros Hname. unfold EdamBuilder.build. rewrite Hname. cbn [truthy].
  split.
  - intros ->. reflexivity.
  - intros Hne. destruct (String.eqb_spec s ""); [contradiction|reflexivity].
Qed.

Lemma build_requires_name_witness :
  EdamBuilder.build (EdamBuilder.init (PyStr ""))
  = Raise (ValueError "EDAM 'name' is required")
  /\ EdamBuilder.build (EdamBuilder.init (PyStr "test_design"))
     = Ok (EdamBuilder.init (PyStr "test_design")).
Proof.
  split.
  - apply (build_requires_name (EdamBuilder.init (PyStr "")) "" eq_refl). reflexivity.
  - apply (build_requires_name (EdamBuilder.init (PyStr "test_design")) "test_design"
             eq_refl).
    discriminate.
Defined.

(** C6. After [set_toplevel(t)]: a string [t] is stored as it is; from
    a non-empty list the first element is taken; an empty list stores the
    empty string.  So for a string or a list of strings the stored
    toplevel is a single string and not a list. *)
Theorem set_toplevel_single_string `{Interp} (self : EdamBuilder.t) (t : PyVal) :
  ((forall l, t = PyList l -> Forall (fun x => is_str x = true) l) ->
   is_str (EdamBuilder.toplevel (EdamBuilder.set_toplevel self t)) = true)
  /\ (forall s, t = PyStr s ->
                EdamBuilder.toplevel (EdamBuilder.set_toplevel self t) = PyStr s)
  /\ (forall x rest, t = PyList (x :: rest) ->
                     EdamBuilder.toplevel (EdamBuilder.set_toplevel self t) = x)
  /\ (t = PyList [] ->
      EdamBuilder.toplevel (EdamBuilder.set_toplevel self t) = PyStr "").
Proof.
  split; [|split; [|split]].
  - intros Hstr. destruct t; try reflexivity.
    specialize (Hstr l eq_refl). destruct Hstr as [|x rest Hx _]; [reflexivity|exact Hx].
  - intros s ->. reflexivity.
  - intros x rest ->. reflexivity.
  - intros ->. reflexivity.
Qed.

Lemma set_toplevel_single_string_witness :
  is_str (EdamBuilder.toplevel
            (@EdamBuilder.set_toplevel example_interp (EdamBuilder.init (PyStr "test2"))
               (PyList [PyStr "top1"; PyStr "top2"]))) = true
  /\ EdamBuilder.toplevel
       (@EdamBuilder.set_toplevel example_interp (EdamBuilder.init (PyStr "test2"))
          (PyList [PyStr "top1"; PyStr "top2"]))
     = PyStr "top1".
Proof.
  destruct (@set_toplevel_single_string example_interp
              (EdamBuilder.init (PyStr "test2")) (PyList [PyStr "top1"; PyStr "top2"]))
    as (Hstr & _ & Hfirst & _).
  split.
  - apply Hstr. intros l Hl. injection Hl as <-. repeat constructor.
  - exact (Hfirst (PyStr "top1") [PyStr "top2"] eq_refl).
Defined.

Lemma extend_icarus_list `{Interp} (include_dirs : list PyVal) (l : list PyVal) :
  EdamBuilder.extend_icarus include_dirs (PyList l)
  = Ok (PyList (l ++ flat_map (fun d => [PyStr "-I"; PyStr (py_str d)]) include_dirs)).
Proof.
  revert l. induction include_dirs as [|d rest IH]; intros l.
  - cbn. rewrite app_nil_r. reflexivity.
  - cbn [EdamBuilder.extend_icarus EdamBuilder.list_extend mbind result_bind flat_map].
    rewrite IH, <- app_assoc. reflexivity.
Qed.

Lemma append_verilator_list `{Interp} (include_dirs : list PyVal) (l : list PyVal) :
  EdamBuilder.append_verilator include_dirs (PyList l)
  = Ok (PyList (l ++ map (fun d => PyStr ("-I" +:+ py_str d)) include_dirs)).
Proof.
  revert l. induction include_dirs as [|d rest IH]; intros l.
  - cbn. rewrite app_nil_r. reflexivity.
  - cbn [EdamBuilder.append_verilator EdamBuilder.list_append mbind result_bind map].
    rewrite IH, <- app_assoc. reflexivity.
Qed.

Lemma option_list_default (bag : gmap string PyVal) (key : string) (l : list PyVal) :
  option_list bag key = Some l -> default (PyList []) (bag !! key) = PyList l.
Proof.
  unfold option_list. destruct (bag !! key) as [v|]; [|intros [= <-]; reflexivity].
  destruct v; try discriminate. intros [= <-]. reflexivity.
Qed.

(** C7. [add_include_dirs] appends, for every directory in order, the
    pair ['-I', dir] to the [iverilog_options] of [icarus] and the single
    token ['-I' + dir] to the [verilator_options] of [verilator]; the
    options already there stay in front, the other options of the two
    tools and every other tool are left as they were, and so is the rest
    of the descriptor. *)
Theorem add_include_dirs_two_tools `{Interp} (self : EdamBuilder.t)
    (include_dirs l_icarus l_verilator : list PyVal) :
  option_list (default ∅ (EdamBuilder.tool_options self !! "icarus")) "iverilog_options"
  = Some l_icarus ->
  option_list (default ∅ (EdamBuilder.tool_options self !! "verilator")) "verilator_options"
  = Some l_verilator ->
  exists self' icarus verilator,
    EdamBuilder.add_include_dirs self include_dirs = Ok self'
    /\ EdamBuilder.tool_options self' !! "icarus" = Some icarus
    /\ icarus !! "iverilog_options"
       = Some (PyList (l_icarus
                       ++ flat_map (fun d => [PyStr "-I"; PyStr (py_str d)]) include_dirs))
    /\ (forall k, k <> "iverilog_options" ->
                  icarus !! k = default ∅ (EdamBuilder.tool_options self !! "icarus") !! k)
    /\ EdamBuilder.tool_options self' !! "verilator" = Some verilator
    /\ verilator !! "verilator_options"
       = Some (PyList (l_verilator
                       ++ map (fun d => PyStr ("-I" +:+ py_str d)) include_dirs))
    /\ (forall k, k <> "verilator_options" ->
                  verilator !! k
                  = default ∅ (EdamBuilder.tool_options self !! "verilator") !! k)
    /\ (forall tool, tool <> "icarus" -> tool <> "verilator" ->
                     EdamBuilder.tool_options self' !! tool
                     = EdamBuilder.tool_options self !! tool)
    /\ EdamBuilder.with_tool_options self' (EdamBuilder.tool_options self) = self.
Proof.
  intros Hi Hv.
  unfold EdamBuilder.add_include_dirs, EdamBuilder.add_include_dirs_tool.
  cbn [String.eqb Ascii.eqb Bool.eqb].
  rewrite (option_list_default _ _ _ Hi), extend_icarus_list.
  cbn [mbind result_bind].
  rewrite lookup_insert_ne by discriminate.
  rewrite (option_list_default _ _ _ Hv), append_verilator_list.
  cbn [mbind result_bind].
  eexists _, _, _. split; [reflexivity|].
  cbn [EdamBuilder.with_tool_options EdamBuilder.tool_options].
  split; [rewrite lookup_insert_ne by discriminate; apply lookup_insert_eq|].
  split; [apply lookup_insert_eq|].
  split; [intros k Hk; apply lookup_insert_ne; congruence|].
  split; [apply lookup_insert_eq|].
  split; [apply lookup_insert_eq|].
  split; [intros k Hk; apply lookup_insert_ne; congruence|].
  split; [intros tool H1 H2; rewrite !lookup_insert_ne by congruence; reflexivity|].
  destruct self; reflexivity.
Qed.

Lemma add_include_dirs_two_tools_witness :
  exists self' icarus verilator,
    @EdamBuilder.add_include_dirs example_interp (EdamBuilder.init (PyStr "test"))
      [PyStr "/path/to/inc1"; PyStr "/path/to/inc2"] = Ok self'
    /\ EdamBuilder.tool_options self' !! "icarus" = Some icarus
    /\ icarus !! "iverilog_options"
       = Some (PyList [PyStr "-I"; PyStr "/path/to/inc1"; PyStr "-I"; PyStr "/path/to/inc2"])
    /\ EdamBuilder.tool_options self' !! "verilator" = Some verilator
    /\ verilator !! "verilator_options"
       = Some (PyList [PyStr "-I/path/to/inc1"; PyStr "-I/path/to/inc2"]).
Proof.
  destruct (@add_include_dirs_two_tools example_interp (EdamBuilder.init (PyStr "test"))
              [PyStr "/path/to/inc1"; PyStr "/path/to/inc2"] [] [] eq_refl eq_refl)
    as (self' & icarus & verilator & H1 & H2 & H3 & _ & H5 & H6 & _).
  exists self', icarus, verilator. repeat split; assumption.
Defined.

(* ===================================================================== *)
(** ** Theorems: the task wrappers *)
(* ===================================================================== *)




Section TaskTheorems.
Context `{External}.

(** An exception derived from [Exception] that leaves the body of a
    wrapper is turned into the failure result. *)
Lemma run_task_caught (body : Task TaskDataResult) (prefix : string) (w : World)
    (e : exn) (s' : World * list TaskMarker) :
  body (w, []) = (Raise e, s') -> is_Exception e = true ->
  run_task body prefix w = (Ok (failure_result prefix (snd s') e), fst s').
Proof.
  intros Hbody He. unfold run_task, try_except_Exception. rewrite Hbody, He.
  destruct s' as [w' ms]. reflexivity.
Qed.

(** Any other exception goes on to the caller. *)
Lemma run_task_propagated (body : Task TaskDataResult) (prefix : string) (w : World)
    (e : exn) (s' : World * list TaskMarker) :
  body (w, []) = (Raise e, s') -> is_Exception e = false ->
  run_task body prefix w = (Raise e, fst s').
Proof.
  intros Hbody He. unfold run_task, try_except_Exception. rewrite Hbody, He.
  reflexivity.
Qed.

Lemma run_task_returned (body : Task TaskDataResult) (prefix : string) (w : World)
    (r : TaskDataResult) (s' : World * list TaskMarker) :
  body (w, []) = (Ok r, s') -> run_task body prefix w = (Ok r, fst s').
Proof.
  intros Hbody. unfold run_task, try_except_Exception. rewrite Hbody. reflexivity.
Qed.

Ltac es_unfold :=
  cbv beta iota zeta
      delta [es_bind in_world call get_local put_local es_ret es_lift read_world
             mark task_return fst snd].

Ltac backend_fields :=
  cbn [EdalizeBackend.flow_class EdalizeBackend.edam EdalizeBackend.work_root
       EdalizeBackend.verbose EdalizeBackend.flow EdalizeBackend.with_flow].

Context `{Interp}.




(** [SimBuild] never configures the backend it creates, so the build
    step answers "not configured", whatever the descriptor is. *)
Lemma SimBuild_with_edam_result (Sim : Obj) (work_root : Path) (edam : PyVal)
    (w1 w2 : World) :
  os_mkdir work_root w1 = (Ok tt, w2) ->
  SimBuild_with_edam Sim work_root edam (w1, [])
  = (Ok (flow_not_configured_result work_root),
     (w2, markers (flow_not_configured_result work_root))).
Proof.
  intros Hmkdir. unfold SimBuild_with_edam, EdalizeBackend.init. es_unfold.
  rewrite Hmkdir. unfold EdalizeBackend.build. es_unfold. backend_fields.
  reflexivity.
Qed.

Lemma SimBuild_with_edam_any (Sim : Obj) (work_root : Path) (edam edam' : PyVal)
    (s : World * list TaskMarker) :
  SimBuild_with_edam Sim work_root edam s = SimBuild_with_edam Sim work_root edam' s.
Proof.
  unfold SimBuild_with_edam, EdalizeBackend.init. es_unfold.
  destruct (os_mkdir work_root (let (w, _) := s in w)) as [[[]|e] w2]; [|reflexivity].
  unfold EdalizeBackend.build. es_unfold. backend_fields. reflexivity.
Qed.

Lemma SimBuild_body_missing (input : TaskDataInput SimBuildParams) (w w1 : World)
    (Sim : Obj) (edam_file : Path) :
  let work_root := Path_of_str (sbp_work_root (params input)) in
  import_Sim w = (Ok Sim, w1) ->
  SimBuild_edam_file (world_fs w1) work_root (sbp_tool (params input)) = Ok edam_file ->
  fs_exists (world_fs w1) edam_file = Ok false ->
  SimBuild_body input (w, []) = SimBuild_with_edam Sim work_root (PyDict ∅) (w1, []).
Proof.
  intros work_root Himport Hfile Hmissing.
  unfold SimBuild_body, SimBuild_load_edam. es_unfold. unfold ask_world. cbn [fst snd].
  rewrite Himport. cbn [fst snd].
  fold work_root. unfold SimBuild_edam_file in Hfile.
  destruct (fs_exists (world_fs w1)
              (path_join work_root (Path_of_str (sbp_tool (params input) +:+ ".edam"))))
    as [[]|e] eqn:Htool; cbn [mbind result_bind] in Hfile; [| |discriminate Hfile];
    injection Hfile as <-.
  - rewrite Htool in Hmissing. discriminate Hmissing.
  - rewrite Hmissing. reflexivity.
Qed.

Lemma SimBuild_body_malformed (input : TaskDataInput SimBuildParams) (w w1 w2 : World)
    (Sim : Obj) (edam_file : Path) (e : exn) :
  let work_root := Path_of_str (sbp_work_root (params input)) in
  import_Sim w = (Ok Sim, w1) ->
  SimBuild_edam_file (world_fs w1) work_root (sbp_tool (params input)) = Ok edam_file ->
  fs_exists (world_fs w1) edam_file = Ok true ->
  json_load_file edam_file w1 = (Raise e, w2) ->
  SimBuild_body input (w, []) = (Raise e, (w2, [])).
Proof.
  intros work_root Himport Hfile Hexists Hload.
  unfold SimBuild_body, SimBuild_load_edam. es_unfold. unfold ask_world. cbn [fst snd].
  rewrite Himport. cbn [fst snd].
  fold work_root. unfold SimBuild_edam_file in Hfile.
  destruct (fs_exists (world_fs w1)
              (path_join work_root (Path_of_str (sbp_tool (params input) +:+ ".edam"))))
    as [[]|e0] eqn:Htool; cbn [mbind result_bind] in Hfile; [| |discriminate Hfile];
    injection Hfile as <-.
  - rewrite Htool, Hload. reflexivity.
  - rewrite Hexists, Hload. reflexivity.
Qed.

End TaskTheorems.




(** C9, as stated, fails for a malformed file: with [icarus.edam]
    present and not JSON, [json.load] raises; no descriptor is
    substituted, the backend is never created (the world sees no [mkdir])
    and the wrapper returns the failure result carrying the parser's
    message, not the outcome of a build with the empty descriptor. *)
Lemma SimBuild_malformed_descriptor_fails :
  @SimBuild edam_malformed example_build_input []
  = (Ok (failure_result "Build failed: " []
           (JSONDecodeError "Expecting value: line 1 column 1 (char 0)")),
     ["import Sim"; "json.load /run/sim_work/icarus.edam"])
  /\ ~ @builds_with_empty_descriptor edam_malformed example_build_input [].
Proof.
  split; [vm_compute; reflexivity|].
  intros (Sim & w' & Heq). vm_compute in Heq. discriminate Heq.
Qed.

(** C9, amended. When neither [<tool>.edam] nor [edam.json] exists,
    [SimBuild] substitutes the empty descriptor without a word and goes on
    to create the backend and call its build step; the descriptor has no
    influence on the outcome of that step, so the missing file is not what
    decides the status.  When the descriptor file exists and [json.load]
    raises, nothing is substituted: the wrapper returns status 1, an empty
    output list and an error marker with the parser's message.
    [edam_file] is the file [SimBuild] settles on: [<tool>.edam] when
    [exists()] answers [True] for it, [edam.json] when it answers
    [False]. *)
Theorem SimBuild_descriptor_file `{External} (input : TaskDataInput SimBuildParams)
    (w w1 : World) (Sim : Obj) (edam_file : Path) :
  let work_root := Path_of_str (sbp_work_root (params input)) in
  import_Sim w = (Ok Sim, w1) ->
  SimBuild_edam_file (world_fs w1) work_root (sbp_tool (params input)) = Ok edam_file ->
  (fs_exists (world_fs w1) edam_file = Ok false ->
   SimBuild_body input (w, []) = SimBuild_with_edam Sim work_root (PyDict ∅) (w1, [])
   /\ builds_with_empty_descriptor input w
   /\ forall w2, os_mkdir work_root w1 = (Ok tt, w2) ->
                 SimBuild input w = (Ok (flow_not_configured_result work_root), w2))
  /\ (forall edam edam' s,
         SimBuild_with_edam Sim work_root edam s = SimBuild_with_edam Sim work_root edam' s)
  /\ (forall e w2,
         fs_exists (world_fs w1) edam_file = Ok true ->
         json_load_file edam_file w1 = (Raise e, w2) ->
         is_Exception e = true ->
         SimBuild input w = (Ok (failure_result "Build failed: " [] e), w2)).
Proof.
  intros work_root Himport Hfile. split; [|split].
  - intros Hmissing.
    pose proof (SimBuild_body_missing input w w1 Sim edam_file Himport Hfile Hmissing)
      as Hbody.
    fold work_root in Hbody. split; [exact Hbody|]. split.
    + exists Sim, w1. unfold SimBuild, run_task, try_except_Exception.
      rewrite Hbody. reflexivity.
    + intros w2 Hmkdir. unfold SimBuild.
      eapply (run_task_returned _ _ _ _ (w2, _)).
      rewrite Hbody. apply SimBuild_with_edam_result. exact Hmkdir.
  - intros edam edam' s. apply SimBuild_with_edam_any.
  - intros e w2 Hexists Hload He.
    pose proof (SimBuild_body_malformed input w w1 w2 Sim edam_file e
                  Himport Hfile Hexists Hload) as Hbody.
    unfold SimBuild. exact (run_task_caught _ _ w e (w2, []) Hbody He).
Qed.

Lemma SimBuild_descriptor_file_witness :
  @SimBuild edam_missing example_build_input []
  = (Ok (flow_not_configured_result (Path_of_str "/run/sim_work")),
     ["import Sim"; "mkdir /run/sim_work"]).
Proof.
  pose proof (@SimBuild_descriptor_file edam_missing example_build_input
                [] ["import Sim"] 0%nat (Path_of_str "/run/sim_work/edam.json")
                eq_refl eq_refl) as (Hmissing & _ & _).
  destruct (Hmissing eq_refl) as (_ & _ & Hrun).
  exact (Hrun _ eq_refl).
Defined.

(* ===================================================================== *)
(** ** Further properties: include directories and filters *)
(* ===================================================================== *)

#[local] Instance str_le_total : Total str_le.
Proof.
  intros a b. unfold str_le.
  destruct (String.leb_total a b) as [Hab|Hba]; [left|right];
    apply Is_true_true; assumption.
Qed.

Lemma extract_include_dirs_loop_spec (fs : FileSystem) (self : FilesetConverter.t)
    (files : list (gmap string PyVal)) (acc : gset string) :
  Forall (fun r => include_record_ok r = true) files ->
  Forall (fun r => include_answered fs self r = true) files ->
  exists dirs,
    FilesetConverter.extract_include_dirs_loop fs self files acc = Ok dirs
    /\ forall d, d ∈ dirs <-> d ∈ acc \/ exists r, r ∈ files /\ include_dir_of fs self r d.
Proof.
  intros Hok. revert acc. induction Hok as [|r rest Hr _ IH]; intros acc Hans.
  - exists acc. split; [reflexivity|]. intros d. split; [auto|].
    intros [Hd|(r & Hr & _)]; [exact Hd|]. apply elem_of_nil in Hr. destruct Hr.
  - apply Forall_cons in Hans as [Har Hans].
    unfold include_record_ok in Hr. apply andb_true_iff in Hr as [Hinc Hnm].
    unfold include_answered in Har. apply andb_true_iff in Har as [Hainc Hanm].
    cbn [FilesetConverter.extract_include_dirs_loop].
    (* the include path *)
    assert (Hstep1 : exists acc1,
               match r !! "include_path" with
               | Some v => FilesetConverter._resolve_file_path fs self v
                           ≫= (fun inc_path => Ok ({[ path_str inc_path ]} ∪ acc))
               | None => Ok acc
               end = Ok acc1
               /\ forall d, d ∈ acc1 <->
                            d ∈ acc \/ exists v p, r !! "include_path" = Some v
                              /\ FilesetConverter._resolve_file_path fs self v = Ok p
                              /\ d = path_str p).
    { destruct (r !! "include_path") as [v|] eqn:Hv.
      - simpl in Hinc.
        destruct (resolve_file_path_pathlike fs self v Hinc Hainc) as [p Hp].
        rewrite Hp. cbn [mbind result_bind]. eexists. split; [reflexivity|].
        intros d. rewrite elem_of_union, elem_of_singleton. split.
        + intros [->|Hd]; [right; exists v, p; auto | left; exact Hd].
        + intros [Hd|(v' & p' & Hv' & Hp' & ->)]; [right; exact Hd|].
          left. injection Hv' as <-. rewrite Hp in Hp'. injection Hp' as <-. reflexivity.
      - exists acc. split; [reflexivity|]. intros d. split; [auto|].
        intros [Hd|(v' & p' & Hv' & _)]; [exact Hd|discriminate Hv']. }
    destruct Hstep1 as (acc1 & -> & Hacc1). cbn [mbind result_bind].
    (* the include flag *)
    assert (Hstep2 : exists acc2,
               (if truthy (default (PyBool false) (r !! "is_include_file")) then
                  if truthy (default PyNone (r !! "name")) then
                    FilesetConverter._resolve_file_path fs self (default PyNone (r !! "name"))
                    ≫= (fun file_path => Ok ({[ path_str (path_parent file_path) ]} ∪ acc1))
                  else Ok acc1
                else Ok acc1) = Ok acc2
               /\ forall d, d ∈ acc2 <-> d ∈ acc \/ include_dir_of fs self r d).
    { unfold include_dir_of, has_name.
      destruct (truthy (default (PyBool false) (r !! "is_include_file"))) eqn:Hflag.
      - destruct (truthy (default PyNone (r !! "name"))) eqn:Hname.
        + unfold has_name in Hnm, Hanm. rewrite Hname in Hnm, Hanm.
          simpl in Hnm, Hanm.
          destruct (resolve_file_path_pathlike fs self _ Hnm Hanm) as [p Hp].
          rewrite Hp. cbn [mbind result_bind]. eexists. split; [reflexivity|].
          intros d. rewrite elem_of_union, elem_of_singleton, Hacc1. split.
          * intros [->|[Hd|Hd]]; [right; right; eauto | left; exact Hd | right; left; exact Hd].
          * intros [Hd|[Hd|(_ & _ & p' & Hp' & ->)]]; [right; left; exact Hd
                                                       | right; right; exact Hd |].
            left. injection Hp' as <-. reflexivity.
        + exists acc1. split; [reflexivity|]. intros d. rewrite Hacc1. split.
          * intros [Hd|Hd]; [left; exact Hd | right; left; exact Hd].
          * intros [Hd|[Hd|(_ & Hn & _)]]; [left; exact Hd | right; exact Hd
                                            | discriminate Hn].
      - exists acc1. split; [reflexivity|]. intros d. rewrite Hacc1. split.
        + intros [Hd|Hd]; [left; exact Hd | right; left; exact Hd].
        + intros [Hd|[Hd|(Hf & _)]]; [left; exact Hd | right; exact Hd | discriminate Hf]. }
    destruct Hstep2 as (acc2 & -> & Hacc2). cbn [mbind result_bind].
    destruct (IH acc2 Hans) as (dirs & Hdirs & Hmem). exists dirs.
    split; [exact Hdirs|].
    intros d. rewrite Hmem, Hacc2. split.
    + intros [[Hd|Hd]|(r' & Hr' & Hd)].
      * left; exact Hd.
      * right. exists r. split; [left|exact Hd].
      * right. exists r'. split; [right; exact Hr'|exact Hd].
    + intros [Hd|(r' & Hr' & Hd)]; [left; left; exact Hd|].
      apply elem_of_cons in Hr' as [->|Hr'].
      * left; right; exact Hd.
      * right. exists r'. split; assumption.
Qed.

(** X1. On well-typed records for whose include paths and include-file
    names the file system answers, [extract_include_dirs] returns exactly
    the include directories the records give rise to (resolved include
    paths, and the directories of named include files), each once, in
    ascending order. *)
Theorem extract_include_dirs_spec (fs : FileSystem) (self : FilesetConverter.t)
    (files : list (gmap string PyVal)) :
  Forall (fun r => include_record_ok r = true) files ->
  Forall (fun r => include_answered fs self r = true) files ->
  exists dirs,
    FilesetConverter.extract_include_dirs fs self files = Ok dirs
    /\ (forall d, d ∈ dirs <-> exists r, r ∈ files /\ include_dir_of fs self r d)
    /\ NoDup dirs
    /\ Sorted str_le dirs.
Proof.
  intros Hok Hans.
  destruct (extract_include_dirs_loop_spec fs self files ∅ Hok Hans)
    as (set & Hset & Hmem).
  unfold FilesetConverter.extract_include_dirs. rewrite Hset. cbn [mbind result_bind].
  eexists. split; [reflexivity|]. split; [|split].
  - intros d. rewrite merge_sort_Permutation, elem_of_elements, Hmem.
    split; [intros [Hd|Hd]; [apply not_elem_of_empty in Hd; destruct Hd|exact Hd]
           | intros Hd; right; exact Hd].
  - rewrite merge_sort_Permutation. apply NoDup_elements.
  - apply (Sorted_merge_sort str_le).
Qed.

Lemma extract_include_dirs_spec_witness :
  exists dirs,
    FilesetConverter.extract_include_dirs example_fs example_converter example_records
    = Ok dirs
    /\ NoDup dirs.
Proof.
  destruct (extract_include_dirs_spec example_fs example_converter example_records)
    as (dirs & Hdirs & _ & Hnodup & _).
  - repeat constructor.
  - repeat constructor.
  - exists dirs. split; assumption.
Defined.


Lemma resolve_file_path_ok_pathlike (fs : FileSystem) (self : FilesetConverter.t)
    (v : PyVal) (p : Path) :
  FilesetConverter._resolve_file_path fs self v = Ok p -> is_pathlike v = true.
Proof. destruct v; try reflexivity; discriminate. Qed.

Lemma FILE_TYPE_MAP_get_ok_hashable (file_type m : PyVal) :
  FilesetConverter.FILE_TYPE_MAP_get file_type = Ok m -> hashable file_type = true.
Proof. destruct file_type; try reflexivity; discriminate. Qed.

(** A record that was converted had a name and was well typed. *)
Lemma convert_file_inv (fs : FileSystem) (self : FilesetConverter.t)
    (r d : gmap string PyVal) :
  FilesetConverter._convert_file fs self r = Ok (Some d) ->
  has_name r = true /\ file_record_ok r = true /\ converted_from fs self r d.
Proof.
  intros Hconv.
  assert (Hname : has_name r = true).
  { unfold FilesetConverter._convert_file in Hconv. unfold has_name.
    destruct (truthy (default PyNone (r !! "name"))); [reflexivity|discriminate Hconv]. }
  assert (Hparts :
    exists p, FilesetConverter._resolve_file_path fs self (default PyNone (r !! "name"))
              = Ok p
              /\ hashable (default (PyStr "user") (r !! "file_type")) = true
              /\ match r !! "include_path" with
                 | Some v => exists q, FilesetConverter._resolve_file_path fs self v = Ok q
                 | None => True
                 end).
  { pose proof Hconv as Hrun.
    unfold FilesetConverter._convert_file in Hrun. unfold has_name in Hname.
    rewrite Hname in Hrun. cbn [negb] in Hrun.
    destruct (FilesetConverter._resolve_file_path fs self (default PyNone (r !! "name")))
      as [p|e] eqn:Hp; [|discriminate Hrun].
    exists p. split; [reflexivity|].
    cbn [mbind result_bind] in Hrun.
    destruct (FilesetConverter.FILE_TYPE_MAP_get (default (PyStr "user") (r !! "file_type")))
      as [m|e] eqn:Hm; [|discriminate Hrun].
    split; [exact (FILE_TYPE_MAP_get_ok_hashable _ m Hm)|].
    cbn [mbind result_bind] in Hrun.
    destruct (r !! "include_path") as [v|]; [|exact I].
    destruct (FilesetConverter._resolve_file_path fs self v) as [q|e] eqn:Hq;
      [|discriminate Hrun].
    exists q. reflexivity. }
  destruct Hparts as (p & Hp & Hhash & Hinc).
  assert (Hok : file_record_ok r = true).
  { unfold file_record_ok. rewrite Hname. cbn [negb orb].
    rewrite (resolve_file_path_ok_pathlike fs self _ p Hp), Hhash. cbn [andb].
    destruct (r !! "include_path") as [v|]; [|reflexivity].
    destruct Hinc as [q Hq]. exact (resolve_file_path_ok_pathlike fs self v q Hq). }
  split; [exact Hname|]. split; [exact Hok|].
  destruct (convert_file_resolved fs self r p Hname Hhash Hp Hinc) as (d' & Hd' & Hfrom).
  rewrite Hconv in Hd'. injection Hd' as <-. exact Hfrom.
Qed.

(** X3. Among converted records, [get_source_files] keeps exactly
    those whose input tag is [verilogSource], [systemVerilogSource],
    [vhdlSource] or [vhdlSource-2008], or already one of the three source
    categories; constraint, Tcl and user files, and files without a tag,
    are never source files. *)
Theorem get_source_files_of_converted (fs : FileSystem) (self : FilesetConverter.t)
    (r d : gmap string PyVal) :
  FilesetConverter._convert_file fs self r = Ok (Some d) ->
  (FilesetConverter.get_source_files [d] = [d]
   <-> exists tag, r !! "file_type" = Some (PyStr tag) /\ tag ∈ source_tags)
  /\ (FilesetConverter.get_source_files [d] = []
      <-> ~ exists tag, r !! "file_type" = Some (PyStr tag) /\ tag ∈ source_tags).
Proof.
  intros Hconv. apply convert_file_inv in Hconv as (_ & _ & Hfrom).
  destruct Hfrom as (_ & _ & (m & Hm & Htag) & _).
  assert (Hin : FilesetConverter.type_in d FilesetConverter.source_types = true
                <-> exists tag, r !! "file_type" = Some (PyStr tag) /\ tag ∈ source_tags).
  { unfold FilesetConverter.type_in. rewrite Hm. unfold mapped_tag in Htag.
    destruct (r !! "file_type") as [ft|] eqn:Hft; cbn [default from_option id] in Htag.
    - destruct ft; try (subst m; split; [discriminate | intros (tag & [=] & _)]).
      destruct (FilesetConverter.FILE_TYPE_MAP !! s) as [target|] eqn:Hmap; subst m.
      + rewrite bool_decide_eq_true. split.
        * intros Hsrc. exists s. split; [reflexivity|].
          apply FILE_TYPE_MAP_entries in Hmap.
          unfold FilesetConverter.FILE_TYPE_MAP_items in Hmap.
          unfold FilesetConverter.source_types in Hsrc. unfold source_tags.
          rewrite !elem_of_cons, elem_of_nil in Hmap.
          repeat (destruct Hmap as [Hmap|Hmap];
                  [injection Hmap as -> ->;
                   first [ solve [repeat constructor]
                         | exfalso; rewrite !elem_of_cons, elem_of_nil in Hsrc;
                           intuition discriminate ] |]).
          destruct Hmap.
        * intros (tag & [= <-] & Hsrc). unfold source_tags in Hsrc.
          rewrite !elem_of_cons, elem_of_nil in Hsrc.
          repeat (destruct Hsrc as [->|Hsrc];
                  [vm_compute in Hmap;
                   first [ injection Hmap as <-; unfold FilesetConverter.source_types;
                           solve [repeat constructor]
                         | discriminate Hmap ] |]).
          destruct Hsrc.
      + rewrite bool_decide_eq_true. split.
        * intros Hsrc. exists s. split; [reflexivity|].
          unfold FilesetConverter.source_types in Hsrc. unfold source_tags.
          rewrite !elem_of_cons, elem_of_nil in Hsrc.
          destruct Hsrc as [->|[->|[->|[]]]]; solve [repeat constructor].
        * intros (tag & [= <-] & Hsrc). unfold source_tags in Hsrc.
          rewrite !elem_of_cons, elem_of_nil in Hsrc.
          unfold FilesetConverter.source_types.
          repeat (destruct Hsrc as [->|Hsrc];
                  [first [ discriminate Hmap | solve [repeat constructor] ] |]).
          destruct Hsrc.
    - rewrite Htag. split; [vm_compute; discriminate|]. intros (tag & [=] & _). }
  unfold FilesetConverter.get_source_files, FilesetConverter.filter_by_type.
  destruct (FilesetConverter.type_in d FilesetConverter.source_types) eqn:Hd.
  - rewrite filter_cons_True by exact Hd. rewrite filter_nil. split; split.
    + intros _. apply Hin. reflexivity.
    + reflexivity.
    + discriminate.
    + intros Hno. exfalso. apply Hno, Hin. reflexivity.
  - rewrite filter_cons_False by (rewrite Hd; discriminate). rewrite filter_nil.
    split; split.
    + discriminate.
    + intros Hex. apply Hin in Hex. discriminate Hex.
    + intros _ Hex. apply Hin in Hex. discriminate Hex.
    + reflexivity.
Qed.

Lemma get_source_files_of_converted_witness :
  FilesetConverter.get_source_files [example_source_converted]
  = [example_source_converted].
Proof.
  apply (proj1 (get_source_files_of_converted example_fs example_converter
                  example_source_record example_source_converted eq_refl)).
  exists "verilogSource". split; [reflexivity|]. unfold source_tags. constructor.
Defined.

(* ===================================================================== *)
(** ** Further properties: the descriptor builder *)
(* ===================================================================== *)

Lemma parameters_fold_closed (f : PyVal -> PyVal) (self : EdamBuilder.t)
    (ps : gmap string PyVal) :
  map_fold (fun pname value (acc : EdamBuilder.t) =>
              EdamBuilder.with_parameters acc
                (<[pname := f value]> (EdamBuilder.parameters acc)))
           self ps
  = EdamBuilder.with_parameters self ((f <$> ps) ∪ EdamBuilder.parameters self).
Proof.
  assert (Hshape :
    let acc := map_fold (fun pname value (acc : EdamBuilder.t) =>
                           EdamBuilder.with_parameters acc
                             (<[pname := f value]> (EdamBuilder.parameters acc)))
                        self ps in
    acc = EdamBuilder.with_parameters self (EdamBuilder.parameters acc)).
  { apply (map_fold_weak_ind
             (fun (acc : EdamBuilder.t) (_ : gmap string PyVal) =>
                acc = EdamBuilder.with_parameters self (EdamBuilder.parameters acc))).
    - destruct self; reflexivity.
    - intros i x m r _ IH. rewrite IH at 1. reflexivity. }
  cbv zeta in Hshape. rewrite Hshape. f_equal.
  apply map_eq. intros k. rewrite parameters_fold_lookup, lookup_union, lookup_fmap.
  destruct (ps !! k), (EdamBuilder.parameters self !! k); reflexivity.
Qed.

(** X4. [add_parameters] and [add_plusargs] are dictionary updates of
    the descriptor's parameters: every given name is stored (a dictionary
    as given, a raw value as a typed record), parameters under other names
    are kept, and nothing else in the descriptor changes; an empty argument
    changes nothing. *)
Theorem add_parameters_is_update (self : EdamBuilder.t) (ps : gmap string PyVal) :
  EdamBuilder.add_parameters self ps
  = EdamBuilder.with_parameters self
      ((stored_parameter <$> ps) ∪ EdamBuilder.parameters self)
  /\ EdamBuilder.add_plusargs self ps
     = EdamBuilder.with_parameters self
         ((stored_plusarg <$> ps) ∪ EdamBuilder.parameters self)
  /\ EdamBuilder.add_parameters self ∅ = self
  /\ EdamBuilder.add_plusargs self ∅ = self.
Proof.
  split; [|split; [|split]].
  - apply (parameters_fold_closed stored_parameter).
  - apply (parameters_fold_closed stored_plusarg).
  - unfold EdamBuilder.add_parameters. rewrite map_fold_empty. reflexivity.
  - unfold EdamBuilder.add_plusargs. rewrite map_fold_empty. reflexivity.
Qed.

Lemma add_parameters_closed (self : EdamBuilder.t) (ps : gmap string PyVal) :
  EdamBuilder.add_parameters self ps
  = EdamBuilder.with_parameters self
      ((stored_parameter <$> ps) ∪ EdamBuilder.parameters self).
Proof. apply (parameters_fold_closed stored_parameter). Qed.

Lemma add_plusargs_closed (self : EdamBuilder.t) (ps : gmap string PyVal) :
  EdamBuilder.add_plusargs self ps
  = EdamBuilder.with_parameters self
      ((stored_plusarg <$> ps) ∪ EdamBuilder.parameters self).
Proof. apply (parameters_fold_closed stored_plusarg). Qed.

(** X5. Chained builder calls that write different fields of the
    descriptor commute: [add_parameters] and [add_plusargs] each with
    [set_toplevel], [set_flow_options] and [set_tool_options], and these
    three with one another.  Two [add_parameters] calls with disjoint
    names commute as well. *)
Theorem builder_calls_commute `{Interp} (self : EdamBuilder.t)
    (ps ps' flow_opts tool_opts : gmap string PyVal) (t : PyVal) (tool : string) :
  dom ps ## dom ps' ->
  EdamBuilder.set_toplevel (EdamBuilder.add_parameters self ps) t
  = EdamBuilder.add_parameters (EdamBuilder.set_toplevel self t) ps
  /\ EdamBuilder.set_flow_options (EdamBuilder.add_parameters self ps) flow_opts
     = EdamBuilder.add_parameters (EdamBuilder.set_flow_options self flow_opts) ps
  /\ EdamBuilder.set_tool_options (EdamBuilder.add_plusargs self ps) tool tool_opts
     = EdamBuilder.add_plusargs (EdamBuilder.set_tool_options self tool tool_opts) ps
  /\ EdamBuilder.set_tool_options (EdamBuilder.set_flow_options self flow_opts) tool tool_opts
     = EdamBuilder.set_flow_options (EdamBuilder.set_tool_options self tool tool_opts)
         flow_opts
  /\ EdamBuilder.set_toplevel (EdamBuilder.set_tool_options self tool tool_opts) t
     = EdamBuilder.set_tool_options (EdamBuilder.set_toplevel self t) tool tool_opts
  /\ EdamBuilder.set_toplevel (EdamBuilder.add_plusargs self ps) t
     = EdamBuilder.add_plusargs (EdamBuilder.set_toplevel self t) ps
  /\ EdamBuilder.set_flow_options (EdamBuilder.add_plusargs self ps) flow_opts
     = EdamBuilder.add_plusargs (EdamBuilder.set_flow_options self flow_opts) ps
  /\ EdamBuilder.set_tool_options (EdamBuilder.add_parameters self ps) tool tool_opts
     = EdamBuilder.add_parameters (EdamBuilder.set_tool_options self tool tool_opts) ps
  /\ EdamBuilder.set_toplevel (EdamBuilder.set_flow_options self flow_opts) t
     = EdamBuilder.set_flow_options (EdamBuilder.set_toplevel self t) flow_opts
  /\ EdamBuilder.add_parameters (EdamBuilder.add_parameters self ps) ps'
     = EdamBuilder.add_parameters (EdamBuilder.add_parameters self ps') ps.
Proof.
  intros Hdisj. rewrite !add_parameters_closed, !add_plusargs_closed.
  repeat split; try reflexivity.
  unfold EdamBuilder.with_parameters. cbn [EdamBuilder.name EdamBuilder.files
    EdamBuilder.parameters EdamBuilder.tool_options EdamBuilder.flow_options
    EdamBuilder.toplevel].
  f_equal. rewrite !(assoc_L (∪)). f_equal. apply map_union_comm.
  apply map_disjoint_dom. rewrite !dom_fmap_L. symmetry. exact Hdisj.
Qed.

Lemma builder_calls_commute_witness :
  EdamBuilder.add_parameters
    (EdamBuilder.add_parameters (EdamBuilder.init (PyStr "test")) {[ "WIDTH" := PyInt 8 ]})
    {[ "ENABLE" := PyBool true ]}
  = EdamBuilder.add_parameters
      (EdamBuilder.add_parameters (EdamBuilder.init (PyStr "test"))
         {[ "ENABLE" := PyBool true ]})
      {[ "WIDTH" := PyInt 8 ]}.
Proof.
  refine (proj2 (proj2 (proj2 (proj2 (proj2 (proj2 (proj2 (proj2 (proj2
            (@builder_calls_commute example_interp (EdamBuilder.init (PyStr "test"))
               {[ "WIDTH" := PyInt 8 ]} {[ "ENABLE" := PyBool true ]} ∅ ∅ PyNone "icarus"
               _)))))))))).
  rewrite !dom_singleton_L. apply disjoint_singleton_l.
  rewrite elem_of_singleton. discriminate.
Defined.

(** X6. Parameters and plusargs share one dictionary, so for a name
    given to both the later call wins: a plusarg added after a parameter
    replaces it, and a parameter added after a plusarg replaces the
    plusarg. *)
Theorem same_name_last_call_wins (self : EdamBuilder.t) (ps pa : gmap string PyVal)
    (k : string) (v v' : PyVal) :
  ps !! k = Some v -> pa !! k = Some v' ->
  EdamBuilder.parameters
    (EdamBuilder.add_plusargs (EdamBuilder.add_parameters self ps) pa) !! k
  = Some (stored_plusarg v')
  /\ EdamBuilder.parameters
       (EdamBuilder.add_parameters (EdamBuilder.add_plusargs self pa) ps) !! k
     = Some (stored_parameter v).
Proof.
  intros Hps Hpa. rewrite !add_parameters_closed, !add_plusargs_closed.
  cbn [EdamBuilder.with_parameters EdamBuilder.parameters].
  split.
  - apply lookup_union_Some_l. rewrite lookup_fmap, Hpa. reflexivity.
  - apply lookup_union_Some_l. rewrite lookup_fmap, Hps. reflexivity.
Qed.

Lemma same_name_last_call_wins_witness :
  EdamBuilder.parameters
    (EdamBuilder.add_plusargs
       (EdamBuilder.add_parameters (EdamBuilder.init (PyStr "test")) {[ "seed" := PyInt 1 ]})
       {[ "seed" := PyInt 42 ]}) !! "seed"
  = Some (stored_plusarg (PyInt 42)).
Proof.
  exact (proj1 (same_name_last_call_wins (EdamBuilder.init (PyStr "test"))
                  {[ "seed" := PyInt 1 ]} {[ "seed" := PyInt 42 ]} "seed"
                  (PyInt 1) (PyInt 42)
                  (lookup_singleton_eq _ _) (lookup_singleton_eq _ _))).
Defined.

(** X7. [set_tool_options] merges into the tool's option bag: a given
    option replaces the one of the same name, the tool's other options
    stay, other tools are untouched, and two calls for one tool amount to
    one call with the later options laid over the earlier ones.  The tool
    gets an entry even when no option is given. *)
Theorem set_tool_options_merges (self : EdamBuilder.t) (tool : string)
    (options options' : gmap string PyVal) :
  let bag := default ∅ (EdamBuilder.tool_options self !! tool) in
  EdamBuilder.tool_options (EdamBuilder.set_tool_options self tool options) !! tool
  = Some (options ∪ bag)
  /\ (forall k v, options !! k = Some v -> (options ∪ bag) !! k = Some v)
  /\ (forall k, options !! k = None -> (options ∪ bag) !! k = bag !! k)
  /\ (forall tool', tool' <> tool ->
        EdamBuilder.tool_options (EdamBuilder.set_tool_options self tool options) !! tool'
        = EdamBuilder.tool_options self !! tool')
  /\ EdamBuilder.set_tool_options (EdamBuilder.set_tool_options self tool options)
       tool options'
     = EdamBuilder.set_tool_options self tool (options' ∪ options)
  /\ EdamBuilder.tool_options (EdamBuilder.set_tool_options self tool ∅) !! tool
     = Some bag.
Proof.
  intros bag. unfold EdamBuilder.set_tool_options.
  cbn [EdamBuilder.with_tool_options EdamBuilder.tool_options].
  split; [apply lookup_insert_eq|].
  split; [intros k v Hk; apply lookup_union_Some_l; exact Hk|].
  split; [intros k Hk; apply lookup_union_r; exact Hk|].
  split; [intros tool' Hne; apply lookup_insert_ne; congruence|].
  split.
  - rewrite lookup_insert_eq. cbn [default from_option id].
    unfold EdamBuilder.with_tool_options.
    cbn [EdamBuilder.name EdamBuilder.files EdamBuilder.parameters
         EdamBuilder.flow_options EdamBuilder.toplevel].
    rewrite insert_insert_eq, (assoc_L (∪)). reflexivity.
  - rewrite lookup_insert_eq, (left_id_L ∅ (∪)). reflexivity.
Qed.

(** X8. In the descriptor [SimConfigure] builds, the caller's tool
    options are laid over the include-directory flags: when the tool is
    [icarus] and the tool options name [iverilog_options], the descriptor
    holds exactly the given value, whatever the include directories are,
    so the [-I] flags are lost. *)
Theorem SimConfigure_tool_options_replace_includes `{Interp} (p : SimConfigureParams)
    (edam : EdamBuilder.t) (v : PyVal) :
  scp_tool p = "icarus" ->
  scp_tool_options p !! "iverilog_options" = Some v ->
  SimConfigure_edam p = Ok edam ->
  exists bag, EdamBuilder.tool_options edam !! "icarus" = Some bag
              /\ bag !! "iverilog_options" = Some v.
Proof.
  intros Htool Hopt Hedam. unfold SimConfigure_edam in Hedam.
  destruct (EdamBuilder.add_files _ (scp_files p)) as [b1|e]; [|discriminate Hedam].
  cbn [mbind result_bind] in Hedam.
  match type of Hedam with
  | (?inc ≫= _) = _ => destruct inc as [b2|e]; [|discriminate Hedam]
  end.
  cbn [mbind result_bind] in Hedam.
  rewrite (truthy_dict_lookup _ _ _ Hopt) in Hedam.
  unfold EdamBuilder.build in Hedam.
  match type of Hedam with
  | (if ?c then _ else _) = _ => destruct c; [discriminate Hedam|]
  end.
  injection Hedam as <-. rewrite Htool.
  destruct (truthy (PyDict (scp_parameters p))), (truthy (PyDict (scp_plusargs p)));
    rewrite ?add_parameters_closed, ?add_plusargs_closed;
    unfold EdamBuilder.set_tool_options;
    cbn [EdamBuilder.with_tool_options EdamBuilder.with_parameters
         EdamBuilder.tool_options];
    (eexists; split; [apply lookup_insert_eq|]);
    apply lookup_union_Some_l; exact Hopt.
Qed.

Lemma SimConfigure_tool_options_replace_includes_witness :
  exists edam bag,
    @SimConfigure_edam example_interp example_params_with_options = Ok edam
    /\ EdamBuilder.tool_options edam !! "icarus" = Some bag
    /\ bag !! "iverilog_options" = Some (PyList [PyStr "-g2012"]).
Proof.
  destruct (@SimConfigure_edam example_interp example_params_with_options)
    as [edam|e] eqn:Hedam; [|vm_compute in Hedam; discriminate Hedam].
  destruct (@SimConfigure_tool_options_replace_includes example_interp
              example_params_with_options edam
              (PyList [PyStr "-g2012"]) eq_refl (lookup_singleton_eq _ _) Hedam)
    as (bag & Hbag & Hv).
  exists edam, bag. split; [reflexivity|]. split; assumption.
Defined.

Lemma map_file_type_hashable (v : PyVal) :
  hashable v = true -> exists t, EdamBuilder._map_file_type v = Ok t.
Proof.
  intros Hv. destruct v; try discriminate Hv; eexists; reflexivity.
Qed.


Lemma edam_file_of_spec `{Interp} (r : gmap string PyVal) :
  type_hashable r = true ->
  exists f, EdamBuilder.edam_file_of r = Ok f /\ edam_file_for r f.
Proof.
  intros Hr. destruct (map_file_type_hashable _ Hr) as [t Ht].
  unfold EdamBuilder.edam_file_of. rewrite Ht. cbn [mbind result_bind].
  eexists. split; [reflexivity|]. unfold edam_file_for.
  split; [|split; [|split; [|split; [|split]]]].
  - destruct (truthy (default PyNone (r !! "is_include")));
      destruct (r !! "include_path") as [v1|]; try destruct (truthy v1);
      destruct (r !! "library") as [v2|]; try destruct (truthy v2);
      dict_lookup; reflexivity.
  - exists t. split; [exact Ht|].
    destruct (truthy (default PyNone (r !! "is_include")));
      destruct (r !! "include_path") as [v1|]; try destruct (truthy v1);
      destruct (r !! "library") as [v2|]; try destruct (truthy v2);
      dict_lookup; reflexivity.
  - destruct (truthy (default PyNone (r !! "is_include")));
      destruct (r !! "include_path") as [v1|]; try destruct (truthy v1);
      destruct (r !! "library") as [v2|]; try destruct (truthy v2);
      dict_lookup; reflexivity.
  - destruct (truthy (default PyNone (r !! "is_include")));
      destruct (r !! "include_path") as [v1|]; cbn [default from_option id truthy];
      try destruct (truthy v1);
      destruct (r !! "library") as [v2|]; try destruct (truthy v2);
      dict_lookup; reflexivity.
  - destruct (truthy (default PyNone (r !! "is_include")));
      destruct (r !! "include_path") as [v1|]; try destruct (truthy v1);
      destruct (r !! "library") as [v2|]; cbn [default from_option id truthy];
      try destruct (truthy v2);
      dict_lookup; reflexivity.
  - intros k Hk. unfold edam_file_keys in Hk. rewrite !not_elem_of_cons in Hk.
    destruct_and!.
    destruct (truthy (default PyNone (r !! "is_include")));
      destruct (r !! "include_path") as [v1|]; try destruct (truthy v1);
      destruct (r !! "library") as [v2|]; try destruct (truthy v2);
      dict_lookup; reflexivity.
Qed.


Lemma add_files_loop_spec `{Interp} (self : EdamBuilder.t)
    (l : list (gmap string PyVal)) :
  Forall (fun r => type_hashable r = true) l ->
  exists new,
    EdamBuilder.add_files self l
    = Ok (EdamBuilder.mk (EdamBuilder.name self) (EdamBuilder.files self ++ new)
            (EdamBuilder.parameters self) (EdamBuilder.tool_options self)
            (EdamBuilder.flow_options self) (EdamBuilder.toplevel self))
    /\ Forall2 edam_file_for l new.
Proof.
  intros Hl. revert self. induction Hl as [|r rest Hr _ IH]; intros self.
  - exists []. split; [|constructor]. rewrite app_nil_r. destruct self; reflexivity.
  - destruct (edam_file_of_spec r Hr) as (f & Hf & Hfor).
    cbn [EdamBuilder.add_files]. rewrite Hf. cbn [mbind result_bind].
    destruct (IH (EdamBuilder.mk (EdamBuilder.name self) (EdamBuilder.files self ++ [f])
                    (EdamBuilder.parameters self) (EdamBuilder.tool_options self)
                    (EdamBuilder.flow_options self) (EdamBuilder.toplevel self)))
      as (new & Hnew & Hall).
    exists (f :: new). split; [|constructor; assumption].
    rewrite Hnew. cbn [EdamBuilder.name EdamBuilder.files EdamBuilder.parameters
                       EdamBuilder.tool_options EdamBuilder.flow_options
                       EdamBuilder.toplevel].
    rewrite <- app_assoc. reflexivity.
Qed.




Lemma mapped_tag_hashable (file_type m : PyVal) :
  hashable file_type = true -> mapped_tag file_type m -> hashable m = true.
Proof.
  unfold mapped_tag. intros Hh Hm.
  destruct file_type; try (subst m; exact Hh).
  destruct (FilesetConverter.FILE_TYPE_MAP !! s); subst m; reflexivity.
Qed.

(** X10. A file record that goes through [_convert_file] and then
    [add_files] becomes an EDAM file named by the resolved path.  The type
    tag comes back as it was for [verilogSource], [systemVerilogSource],
    [vhdlSource], [tclSource] and [user] (and a missing tag becomes
    [user]); the include flag and the library survive when truthy, the
    include path arrives as the text of the resolved path, and [copyto]
    and [tags] do not reach the descriptor. *)
Theorem convert_then_add_file `{Interp} (fs : FileSystem) (self : FilesetConverter.t)
    (r d : gmap string PyVal) :
  FilesetConverter._convert_file fs self r = Ok (Some d) ->
  exists f p,
    EdamBuilder.edam_file_of d = Ok f
    /\ FilesetConverter._resolve_file_path fs self (default PyNone (r !! "name")) = Ok p
    /\ f !! "name" = Some (PyStr (path_str p))
    /\ (forall tag, r !! "file_type" = Some (PyStr tag) -> tag ∈ round_trip_tags ->
                    f !! "file_type" = Some (PyStr tag))
    /\ (r !! "file_type" = None -> f !! "file_type" = Some (PyStr "user"))
    /\ f !! "is_include_file"
       = (if truthy (default PyNone (r !! "is_include_file"))
          then Some (PyBool true) else None)
    /\ match r !! "include_path" with
       | Some v => exists q, FilesetConverter._resolve_file_path fs self v = Ok q
                             /\ f !! "include_path" = Some (PyStr (path_str q))
       | None => f !! "include_path" = None
       end
    /\ f !! "logical_name"
       = (if truthy (default PyNone (r !! "logical_name"))
          then r !! "logical_name" else None)
    /\ f !! "copyto" = None
    /\ f !! "tags" = None.
Proof.
  intros Hconv. apply convert_file_inv in Hconv as (Hname & Hok & Hfrom).
  unfold file_record_ok in Hok. rewrite Hname in Hok. cbn [negb orb] in Hok.
  apply andb_true_iff in Hok as [Hok _]. apply andb_true_iff in Hok as [_ Hhash].
  destruct Hfrom as (Hdname & (p & Hp & Hdpath) & (m & Hdtype & Htag) & Hdinc & Hdip
                     & Hdlib & _ & _ & _).
  assert (Hd : type_hashable d = true).
  { unfold type_hashable. rewrite Hdtype. exact (mapped_tag_hashable _ _ Hhash Htag). }
  destruct (edam_file_of_spec d Hd) as (f & Hf & Hfname & (t & Ht & Hftype) & Hfinc
                                        & Hfip & Hflib & Hfother).
  exists f, p. split; [exact Hf|]. split; [exact Hp|].
  rewrite Hdpath in Hfname. rewrite Hdtype in Ht. rewrite Hdinc in Hfinc.
  rewrite Hdlib in Hflib.
  split; [exact Hfname|]. split; [|split; [|split; [exact Hfinc|split; [|split]]]].
  - intros tag Hft Hrt. rewrite Hft in Htag. unfold mapped_tag in Htag.
    cbn [default from_option id] in Htag.
    destruct (FilesetConverter.FILE_TYPE_MAP !! tag) as [target|] eqn:Hmap.
    + subst m. cbn [default from_option id] in Ht.
      destruct (file_type_round_trip_value tag target Hmap) as [Hback _].
      rewrite bool_decide_eq_true_2 in Hback by exact Hrt.
      rewrite Hback in Ht. injection Ht as <-. exact Hftype.
    + exfalso. unfold round_trip_tags in Hrt. rewrite !elem_of_cons, elem_of_nil in Hrt.
      destruct Hrt as [->|[->|[->|[->|[->|[]]]]]]; discriminate Hmap.
  - intros Hft. rewrite Hft in Htag. vm_compute in Htag. subst m.
    vm_compute in Ht. injection Ht as <-. exact Hftype.
  - destruct (r !! "include_path") as [v|].
    + destruct Hdip as (q & Hq & Hdq). exists q. split; [exact Hq|].
      rewrite Hdq in Hfip. exact Hfip.
    + rewrite Hdip in Hfip. exact Hfip.
  - exact Hflib.
  - split; apply Hfother; unfold edam_file_keys; rewrite !not_elem_of_cons;
      repeat split; try discriminate; apply not_elem_of_nil.
Qed.

Lemma convert_then_add_file_witness :
  exists f, @EdamBuilder.edam_file_of example_interp example_source_converted = Ok f
            /\ f !! "name" = Some (PyStr "/core/rtl/top.v")
            /\ f !! "file_type" = Some (PyStr "verilogSource").
Proof.
  destruct (@convert_then_add_file example_interp example_fs example_converter
              example_source_record example_source_converted eq_refl)
    as (f & p & Hf & Hp & Hname & Htype & _).
  exists f. split; [exact Hf|]. split.
  - vm_compute in Hp. injection Hp as <-. exact Hname.
  - apply Htype; [reflexivity|]. unfold round_trip_tags. constructor.
Defined.

(* ===================================================================== *)
(** ** Further properties: the backend and the task wrappers *)
(* ===================================================================== *)

Ltac es_run :=
  cbv beta iota zeta
      delta [es_bind in_world call get_local put_local es_ret es_lift read_world
             mark task_return fst snd].

Ltac backend_run :=
  cbn [EdalizeBackend.flow_class EdalizeBackend.edam EdalizeBackend.work_root
       EdalizeBackend.verbose EdalizeBackend.flow EdalizeBackend.with_flow].

Section BackendTheorems.
Context `{External}.




End BackendTheorems.


Section WrapperTheorems.
Context `{External}.

Lemma failure_result_status (prefix : string) (prior : list TaskMarker) (e : exn) :
  reports_failure (failure_result prefix prior e).
Proof.
  split; [reflexivity|].
  exists (mkMarker Error (prefix +:+ exn_str e)). split; [|reflexivity].
  cbn [failure_result markers]. apply elem_of_app. right. constructor.
Qed.

(** What holds of every result of the body and of every failure result
    holds of every result of the wrapper. *)
Lemma run_task_result (P : TaskDataResult -> Prop) (body : Task TaskDataResult)
    (prefix : string) (w w' : World) (r : TaskDataResult) :
  (forall s r0 s', body s = (Ok r0, s') -> P r0) ->
  (forall e prior, P (failure_result prefix prior e)) ->
  run_task body prefix w = (Ok r, w') -> P r.
Proof.
  intros Hbody Hfail Hrun. unfold run_task, try_except_Exception in Hrun.
  destruct (body (w, [])) as [[r0|e] s0] eqn:Hb.
  - injection Hrun as <- _. exact (Hbody _ _ _ Hb).
  - destruct (is_Exception e); [|discriminate Hrun].
    destruct s0 as [w0 ms]. injection Hrun as <- _. apply Hfail.
Qed.

Lemma SimBuild_with_edam_reports_failure (Sim : Obj) (work_root : Path) (edam : PyVal)
    (s s' : World * list TaskMarker) (r : TaskDataResult) :
  SimBuild_with_edam Sim work_root edam s = (Ok r, s') ->
  reports_failure r.
Proof.
  unfold SimBuild_with_edam, EdalizeBackend.init, EdalizeBackend.build. es_run.
  destruct (os_mkdir work_root (let (w, _) := s in w)) as [[[]|e] w2];
    [|discriminate].
  backend_run. intros [= <- _]. split; [reflexivity|].
  eexists. split; [cbn [markers]; apply elem_of_app; right; constructor | reflexivity].
Qed.

Lemma SimBuild_body_reports_failure (input : TaskDataInput SimBuildParams)
    (s s' : World * list TaskMarker) (r : TaskDataResult) :
  SimBuild_body input s = (Ok r, s') ->
  reports_failure r.
Proof.
  unfold SimBuild_body, SimBuild_load_edam.
  cbv beta iota zeta delta [es_bind in_world get_local put_local es_ret es_lift
                            read_world ask_world fst snd].
  destruct (import_Sim (let (w, _) := s in w)) as [[Sim|e] w1]; [|discriminate].
  repeat match goal with
         | |- context [fs_exists ?fs ?p] =>
             let found := fresh "found" in
             destruct (fs_exists fs p) as [found|e]; [destruct found|]
         | |- context [json_load_file ?p ?w0] =>
             destruct (json_load_file p w0) as [[edam|e] w2]
         end;
    try discriminate; apply SimBuild_with_edam_reports_failure.
Qed.

Lemma SimRun_body_reports_failure (input : TaskDataInput SimRunParams)
    (s s' : World * list TaskMarker) (r : TaskDataResult) :
  SimRun_body input s = (Ok r, s') ->
  reports_failure r.
Proof.
  unfold SimRun_body, EdalizeBackend.init, EdalizeBackend.run,
    EdalizeBackend.get_log_files. es_run.
  destruct (import_Sim (let (w, _) := s in w)) as [[Sim|e] w1]; [|discriminate].
  destruct (os_mkdir (Path_of_str (srp_work_root (params input))) w1) as [[[]|e] w2];
    [|discriminate].
  backend_run. intros [= <- _]. split; [reflexivity|].
  eexists. split; [cbn [markers]; apply elem_of_app; right; constructor | reflexivity].
Qed.

(** X13. [SimBuild] and [SimRun] never report success: the backend they
    create is never configured, so its build and run steps answer "not
    configured"; whenever one of the two wrappers returns, the status is 1
    and an error marker is present. *)
Theorem SimBuild_SimRun_never_succeed :
  (forall input w r w',
      SimBuild input w = (Ok r, w') ->
      reports_failure r)
  /\ (forall input w r w',
         SimRun input w = (Ok r, w') ->
         reports_failure r).
Proof.
  split; intros input w r w' Hrun.
  - revert Hrun. unfold SimBuild. apply (run_task_result reports_failure).
    + intros s r0 s'. apply SimBuild_body_reports_failure.
    + intros e prior. apply failure_result_status.
  - revert Hrun. unfold SimRun. apply (run_task_result reports_failure).
    + intros s r0 s'. apply SimRun_body_reports_failure.
    + intros e prior. apply failure_result_status.
Qed.

End WrapperTheorems.

Lemma SimBuild_SimRun_never_succeed_witness : reports_failure example_run_result.
Proof.
  apply (proj2 (@SimBuild_SimRun_never_succeed edam_missing)
               example_run_input [] example_run_result
               ["import Sim"; "mkdir /run/sim_work"]).
  vm_compute. reflexivity.
Defined.

Section ManagerTheorems.
Context `{External}.

(** X14. [get_core_manager] creates the core manager once: after a
    call that returned, the manager holds the core manager, and every
    further call returns the same object without touching the outside
    world; configuration and library manager are never replaced. *)
Theorem get_core_manager_caches (self self' : FuseSoCManager.t) (w w' : World)
    (cm : Obj) :
  FuseSoCManager.get_core_manager (w, self) = (Ok cm, (w', self')) ->
  FuseSoCManager._core_manager self' = Some cm
  /\ FuseSoCManager._config self' = FuseSoCManager._config self
  /\ FuseSoCManager._library_manager self' = FuseSoCManager._library_manager self
  /\ (forall w'', FuseSoCManager.get_core_manager (w'', self') = (Ok cm, (w'', self'))).
Proof.
  unfold FuseSoCManager.get_core_manager at 1. es_run.
  destruct (FuseSoCManager._core_manager self) as [cm0|] eqn:Hcm.
  - intros [= <- <- <-]. split; [exact Hcm|]. split; [reflexivity|].
    split; [reflexivity|]. intros w''.
    unfold FuseSoCManager.get_core_manager. es_run. rewrite Hcm. reflexivity.
  - destruct (fusesoc_CoreManager _ _ w) as [[cm1|e] w1]; [|discriminate].
    intros [= <- <- <-]. repeat split.
Qed.

End ManagerTheorems.

Lemma get_core_manager_caches_witness :
  @FuseSoCManager.get_core_manager edam_missing
    (["CoreManager()"],
     @FuseSoCManager.mk edam_missing None None 1%nat 2%nat (Some 3%nat))
  = (Ok 3%nat,
     (["CoreManager()"],
      @FuseSoCManager.mk edam_missing None None 1%nat 2%nat (Some 3%nat))).
Proof.
  exact (proj2 (proj2 (proj2
           (@get_core_manager_caches edam_missing example_manager _ [] ["CoreManager()"]
              3%nat eq_refl))) ["CoreManager()"]).
Defined.

Section ConfigureTheorems.
Context `{External} `{Interp}.

(** X15. Whenever [SimConfigure] returns, its result is one of three:
    the success result (status 0, one output record with
    [configured = True], one informational marker); the result for a
    backend that answered [False] (status 1, one output record with
    [configured = False]); or the failure result of the [except] clause
    (status 1, no output).  So status 0 comes only with a configured
    flow. *)
Theorem SimConfigure_outcomes (input : TaskDataInput SimConfigureParams)
    (w w' : World) (r : TaskDataResult) :
  SimConfigure input w = (Ok r, w') ->
  let work_root := path_join (Path_of_str (rundir input)) (Path_of_str "sim_work") in
  r = configured_result work_root (scp_tool (params input)) (scp_toplevel (params input))
  \/ r = configure_failed_result work_root (scp_tool (params input))
  \/ exists e, is_Exception e = true
               /\ r = failure_result "Configuration failed: " [] e.
Proof.
  intros Hrun work_root.
  unfold SimConfigure, run_task, try_except_Exception, SimConfigure_body in Hrun.
  unfold EdalizeBackend.create_sim_backend, EdalizeBackend.init, EdalizeBackend.configure,
    try_except_Exception, task_failed in Hrun.
  cbv beta iota zeta delta [es_bind in_world call get_local put_local es_ret es_lift
                            read_world mark task_return fst snd] in Hrun.
  fold work_root in Hrun.
  destruct (SimConfigure_edam (params input)) as [edam|e].
  - destruct (import_Sim w) as [[Sim|e] w1].
    + destruct (os_mkdir work_root w1) as [[[]|e] w2].
      * cbn [EdalizeBackend.flow_class EdalizeBackend.edam EdalizeBackend.work_root
             EdalizeBackend.verbose] in Hrun.
        destruct (flow_new Sim _ _ true w2) as [[f|e] w3].
        -- destruct (flow_configure f w3) as [[[]|e] w4].
           ++ injection Hrun as <- _. left. reflexivity.
           ++ destruct (is_Exception e) eqn:He.
              ** injection Hrun as <- _. right. left. reflexivity.
              ** rewrite He in Hrun. discriminate Hrun.
        -- destruct (is_Exception e) eqn:He.
           ++ injection Hrun as <- _. right. left. reflexivity.
           ++ rewrite He in Hrun. discriminate Hrun.
      * destruct (is_Exception e) eqn:He; [|discriminate Hrun].
        injection Hrun as <- _. right. right. exists e. split; [exact He|reflexivity].
    + destruct (is_Exception e) eqn:He; [|discriminate Hrun].
      injection Hrun as <- _. right. right. exists e. split; [exact He|reflexivity].
  - destruct (is_Exception e) eqn:He; [|discriminate Hrun].
    injection Hrun as <- _. right. right. exists e. split; [exact He|reflexivity].
Qed.

End ConfigureTheorems.

Lemma SimConfigure_outcomes_witness :
  configure_failed_result (Path_of_str "/run/sim_work") "icarus"
  = configured_result (Path_of_str "/run/sim_work") "icarus" "top"
  \/ configure_failed_result (Path_of_str "/run/sim_work") "icarus"
     = configure_failed_result (Path_of_str "/run/sim_work") "icarus"
  \/ exists e, is_Exception e = true
               /\ configure_failed_result (Path_of_str "/run/sim_work") "icarus"
                  = failure_result "Configuration failed: " [] e.
Proof.
  apply (@SimConfigure_outcomes flow_fails example_interp example_configure_input []
           ["import Sim"; "mkdir /run/sim_work"; "Sim()"]).
  vm_compute. reflexivity.
Defined.

Section PipelineTheorems.
Context `{Interp}.

(** On a builder without tool options [add_include_dirs] cannot fail,
    and it writes the tool options only. *)
Lemma add_include_dirs_fresh (self : EdamBuilder.t) (include_dirs : list PyVal) :
  EdamBuilder.tool_options self = ∅ ->
  exists tos,
    EdamBuilder.add_include_dirs self include_dirs
    = Ok (EdamBuilder.with_tool_options self tos).
Proof.
  intros Htos.
  unfold EdamBuilder.add_include_dirs, EdamBuilder.add_include_dirs_tool.
  cbn [String.eqb Ascii.eqb Bool.eqb]. rewrite Htos, !lookup_empty.
  cbn [default from_option id]. rewrite lookup_empty. cbn [default from_option id].
  rewrite extend_icarus_list. cbn [mbind result_bind].
  rewrite lookup_insert_ne by discriminate. rewrite lookup_empty.
  cbn [default from_option id]. rewrite lookup_empty. cbn [default from_option id].
  rewrite append_verilator_list. cbn [mbind result_bind].
  eexists. reflexivity.
Qed.


Lemma build_named (b : EdamBuilder.t) (s : string) :
  EdamBuilder.name b = PyStr s ->
  EdamBuilder.build b
  = if String.eqb s "" then Raise (ValueError "EDAM 'name' is required") else Ok b.
Proof.
  intros Hname. unfold EdamBuilder.build. rewrite Hname. cbn [truthy].
  destruct (String.eqb s ""); reflexivity.
Qed.

Lemma converted_type_hashable (fs : FileSystem) (self : FilesetConverter.t)
    (files out : list (gmap string PyVal)) :
  Forall (fun r => file_record_ok r = true) files ->
  Forall2 (converted_from fs self) (filter (fun r => has_name r = true) files) out ->
  Forall (fun d => type_hashable d = true) out.
Proof.
  intros Hok Hconv.
  assert (Hnamed : Forall (fun r => hashable (default (PyStr "user") (r !! "file_type"))
                                   = true)
                          (filter (fun r => has_name r = true) files)).
  { apply Forall_forall. intros r Hr. apply list_elem_of_filter in Hr as [Hname Hr].
    rewrite Forall_forall in Hok. specialize (Hok r Hr).
    unfold file_record_ok in Hok. rewrite Hname in Hok. cbn [negb orb] in Hok.
    apply andb_true_iff in Hok as [Hok _]. apply andb_true_iff in Hok as [_ Hh].
    exact Hh. }
  induction Hconv as [|r d rs ds Hrd _ IH]; [constructor|].
  apply Forall_cons in Hnamed as [Hr Hrs]. constructor; [|exact (IH Hrs)].
  destruct Hrd as (_ & _ & (m & Hm & Htag) & _).
  unfold type_hashable. rewrite Hm. exact (mapped_tag_hashable _ _ Hr Htag).
Qed.

(** X16. [build_edam_from_core] on well-typed file records.  When the
    file system answers for the names and include paths of the records:
    with an empty core name it raises [ValueError]; otherwise it returns a
    descriptor with that name, one EDAM file per named record (unnamed
    records are dropped by the conversion), the given tool as the flow
    option [tool], and the toplevel as [set_toplevel] stores it.  The files
    are converted before the name is checked: an exception raised while
    the name of a record is resolved ends [build_edam_from_core], whatever
    the core name is. *)
Theorem build_edam_from_core_spec (fs : FileSystem)
    (core_files : FuseSoCManager.CoreFiles) (toplevel : PyVal) (tool : string)
    (parameters plusargs : option (gmap string PyVal)) :
  let files := FuseSoCManager.cf_files core_files in
  let converter := core_converter core_files in
  Forall (fun r => file_record_ok r = true) files ->
  Forall (fun r => include_record_ok r = true) files ->
  (Forall (fun r => record_answered fs converter r = true) files ->
   Forall (fun r => include_answered fs converter r = true) files ->
   FuseSoCManager.cf_name core_files = "" ->
   build_edam_from_core fs core_files toplevel tool parameters plusargs
   = Raise (ValueError "EDAM 'name' is required"))
  /\ (forall before r after e,
         files = (before ++ r :: after)%list ->
         Forall (fun r => record_answered fs converter r = true) before ->
         has_name r = true ->
         FilesetConverter._resolve_file_path fs converter
           (default PyNone (r !! "name")) = Raise e ->
         build_edam_from_core fs core_files toplevel tool parameters plusargs
         = Raise e)
  /\ (Forall (fun r => record_answered fs converter r = true) files ->
      Forall (fun r => include_answered fs converter r = true) files ->
      FuseSoCManager.cf_name core_files <> "" ->
      exists edam,
        build_edam_from_core fs core_files toplevel tool parameters plusargs = Ok edam
        /\ EdamBuilder.name edam = PyStr (FuseSoCManager.cf_name core_files)
        /\ length (EdamBuilder.files edam)
           = length (filter (fun r => has_name r = true) files)
        /\ EdamBuilder.flow_options edam !! "tool" = Some (PyStr tool)
        /\ EdamBuilder.toplevel edam
           = EdamBuilder.toplevel (EdamBuilder.set_toplevel (EdamBuilder.init PyNone)
                                                            toplevel)).
Proof.
  intros files converter Hrec Hinc. unfold files, converter, core_converter in *.
  assert (Hraise : forall before r after e,
             FuseSoCManager.cf_files core_files = (before ++ r :: after)%list ->
             Forall (fun r => record_answered fs
                                (FilesetConverter.init
                                   (Path_of_str (FuseSoCManager.cf_core_root core_files))
                                   (Some (Path_of_str
                                            (FuseSoCManager.cf_files_root core_files))))
                                r = true) before ->
             has_name r = true ->
             FilesetConverter._resolve_file_path fs
               (FilesetConverter.init
                  (Path_of_str (FuseSoCManager.cf_core_root core_files))
                  (Some (Path_of_str (FuseSoCManager.cf_files_root core_files))))
               (default PyNone (r !! "name")) = Raise e ->
             build_edam_from_core fs core_files toplevel tool parameters plusargs
             = Raise e).
  { intros before r after e Hfiles Hbefore Hname Hrefused.
    unfold build_edam_from_core, FilesetConverter.convert_files.
    rewrite Hfiles in Hrec |- *. apply Forall_app in Hrec as [Hrec _].
    rewrite (convert_files_loop_raises fs _ before after [] r e
               Hrec Hbefore Hname Hrefused).
    reflexivity. }
  assert (Hshape :
             Forall (fun r => record_answered fs
                                (FilesetConverter.init
                                   (Path_of_str (FuseSoCManager.cf_core_root core_files))
                                   (Some (Path_of_str
                                            (FuseSoCManager.cf_files_root core_files))))
                                r = true) (FuseSoCManager.cf_files core_files) ->
             Forall (fun r => include_answered fs
                                (FilesetConverter.init
                                   (Path_of_str (FuseSoCManager.cf_core_root core_files))
                                   (Some (Path_of_str
                                            (FuseSoCManager.cf_files_root core_files))))
                                r = true) (FuseSoCManager.cf_files core_files) ->
             exists b,
             build_edam_from_core fs core_files toplevel tool parameters plusargs
             = EdamBuilder.build b
             /\ EdamBuilder.name b = PyStr (FuseSoCManager.cf_name core_files)
             /\ length (EdamBuilder.files b)
                = length (filter (fun r => has_name r = true)
                                 (FuseSoCManager.cf_files core_files))
             /\ EdamBuilder.flow_options b !! "tool" = Some (PyStr tool)
             /\ EdamBuilder.toplevel b
                = EdamBuilder.toplevel (EdamBuilder.set_toplevel (EdamBuilder.init PyNone)
                                                                 toplevel)).
  { intros Hans Hians.
    unfold build_edam_from_core, FilesetConverter.convert_files,
      FilesetConverter.extract_include_dirs.
    destruct (convert_files_loop_spec fs
                (FilesetConverter.init
                   (Path_of_str (FuseSoCManager.cf_core_root core_files))
                   (Some (Path_of_str (FuseSoCManager.cf_files_root core_files))))
                (FuseSoCManager.cf_files core_files) [] Hrec Hans) as (out & -> & Hout).
    cbn [mbind result_bind app].
    destruct (extract_include_dirs_loop_spec fs
                (FilesetConverter.init
                   (Path_of_str (FuseSoCManager.cf_core_root core_files))
                   (Some (Path_of_str (FuseSoCManager.cf_files_root core_files))))
                (FuseSoCManager.cf_files core_files) ∅ Hinc Hians) as (dirs & -> & _).
    cbn [mbind result_bind].
    destruct (add_files_loop_spec
                (EdamBuilder.init (PyStr (FuseSoCManager.cf_name core_files))) out
                (converted_type_hashable fs _ _ out Hrec Hout)) as (new & -> & Hnew).
    cbn [mbind result_bind].
    set (b2 := EdamBuilder.set_flow_options _ _).
    assert (Hb2 : EdamBuilder.tool_options b2 = ∅) by reflexivity.
    match goal with
    | |- context [if ?c then EdamBuilder.add_include_dirs b2 ?ds else Ok b2] =>
        assert (Hdirs : exists tos,
                   (if c then EdamBuilder.add_include_dirs b2 ds else Ok b2)
                   = Ok (EdamBuilder.with_tool_options b2 tos));
        [destruct c; [apply add_include_dirs_fresh; exact Hb2 | exists ∅; reflexivity]|]
    end.
    destruct Hdirs as (tos & ->). cbn [mbind result_bind].
    eexists. split; [reflexivity|].
    assert (Hlen : length new
                   = length (filter (fun r => has_name r = true)
                                    (FuseSoCManager.cf_files core_files))).
    { rewrite <- (Forall2_length _ _ _ Hnew). symmetry.
      exact (Forall2_length _ _ _ Hout). }
    assert (Htool : EdamBuilder.flow_options b2 !! "tool" = Some (PyStr tool)).
    { unfold b2, EdamBuilder.set_flow_options. cbn [EdamBuilder.flow_options].
      apply lookup_union_Some_l. apply lookup_singleton_eq. }
    destruct parameters as [ps|]; destruct plusargs as [pa|];
      repeat match goal with
             | |- context [truthy (PyDict ?m)] => destruct (truthy (PyDict m))
             end;
      rewrite ?add_parameters_closed, ?add_plusargs_closed;
      (split; [reflexivity|]); (split; [exact Hlen|]);
      (split; [exact Htool|]); destruct toplevel; reflexivity. }
  split; [|split; [exact Hraise|]].
  - intros Hans Hians Hempty.
    destruct (Hshape Hans Hians) as (b & Hb & Hname & _).
    rewrite Hb, (build_named b _ Hname), Hempty. reflexivity.
  - intros Hans Hians Hne.
    destruct (Hshape Hans Hians) as (b & Hb & Hname & Hlen & Htool & Htop).
    rewrite Hb, (build_named b _ Hname).
    destruct (String.eqb_spec (FuseSoCManager.cf_name core_files) "");
      [contradiction|].
    exists b. repeat split; assumption.
Qed.

End PipelineTheorems.

Lemma build_edam_from_core_spec_witness :
  exists edam,
    @build_edam_from_core example_interp example_fs example_core_files (PyStr "top")
      "icarus" None None = Ok edam
    /\ length (EdamBuilder.files edam) = 2%nat
    /\ EdamBuilder.flow_options edam !! "tool" = Some (PyStr "icarus").
Proof.
  destruct (@build_edam_from_core_spec example_interp example_fs example_core_files
              (PyStr "top") "icarus" None None) as (_ & _ & Hnamed).
  - repeat constructor.
  - repeat constructor.
  - destruct Hnamed as (edam & Hedam & _ & Hlen & Htool & _);
      [repeat constructor | repeat constructor | discriminate |].
    exists edam. split; [exact Hedam|]. split; [exact Hlen|exact Htool].
Defined.

Section ConfigureNameTheorems.
Context `{External} `{Interp}.


End ConfigureNameTheorems.


(* ===================================================================== *)
(** ** Further properties: the manager object *)
(* ===================================================================== *)

Section ManagerInvariant.
Context `{External}.

Lemma es_bind_inv {S A B} (m : ES S A) (k : A -> ES S B) (s s' : S) (r : result B) :
  es_bind m k s = (r, s') ->
  (exists a s1, m s = (Ok a, s1) /\ k a s1 = (r, s'))
  \/ (exists e, m s = (Raise e, s') /\ r = Raise e).
Proof.
  unfold es_bind. destruct (m s) as [[a|e] s1]; intros Hrun.
  - left. exists a, s1. split; [reflexivity|exact Hrun].
  - right. exists e. injection Hrun as <- <-. split; reflexivity.
Qed.

Lemma in_world_local {W L A} (m : ES W A) (s s' : W * L) (r : result A) :
  in_world m s = (r, s') -> snd s' = snd s.
Proof.
  unfold in_world. destruct (m (fst s)) as [r0 w0]. intros [= _ <-]. reflexivity.
Qed.

Lemma manager_kept_refl (self : FuseSoCManager.t) : manager_kept self self.
Proof. left. reflexivity. Qed.

Lemma manager_kept_trans (a b c : FuseSoCManager.t) :
  manager_kept a b -> manager_kept b c -> manager_kept a c.
Proof.
  intros [->|(Hnone & cm & ->)] Hbc; [exact Hbc|].
  destruct Hbc as [->|(Hnone' & _)].
  - right. split; [exact Hnone|]. exists cm. reflexivity.
  - discriminate Hnone'.
Qed.

Lemma keeps_manager_in_world {A} (m : ES World A) :
  keeps_manager (in_world m).
Proof.
  intros s r s' Hrun. apply in_world_local in Hrun. rewrite Hrun.
  apply manager_kept_refl.
Qed.

Lemma keeps_manager_ret {A} (a : A) : keeps_manager (es_ret a).
Proof. intros s r s' [= _ <-]. apply manager_kept_refl. Qed.

Lemma keeps_manager_bind {A B} (m : ES (World * FuseSoCManager.t) A)
    (k : A -> ES (World * FuseSoCManager.t) B) :
  keeps_manager m -> (forall a, keeps_manager (k a)) -> keeps_manager (es_bind m k).
Proof.
  intros Hm Hk s r s' Hrun.
  apply es_bind_inv in Hrun as [(a & s1 & Hm1 & Hk1)|(e & Hm1 & _)].
  - exact (manager_kept_trans _ _ _ (Hm _ _ _ Hm1) (Hk a _ _ _ Hk1)).
  - exact (Hm _ _ _ Hm1).
Qed.

Lemma keeps_manager_get_core_manager :
  keeps_manager FuseSoCManager.get_core_manager.
Proof.
  intros s r s' Hrun. unfold FuseSoCManager.get_core_manager in Hrun.
  cbv beta iota zeta delta [es_bind get_local] in Hrun.
  destruct (FuseSoCManager._core_manager (snd s)) as [cm|] eqn:Hcm.
  - injection Hrun as _ <-. apply manager_kept_refl.
  - unfold in_world, put_local, es_ret in Hrun.
    destruct (fusesoc_CoreManager _ _ (fst s)) as [[cm|e] w1].
    + injection Hrun as _ <-. right. split; [exact Hcm|]. exists cm. reflexivity.
    + injection Hrun as _ <-. apply manager_kept_refl.
Qed.

(** X18. The methods of [FuseSoCManager] never replace the
    configuration or the library manager, and the only change they make to
    the manager object is to store a core manager where there was none;
    this holds whether they return or raise.  Once the core manager exists
    the object is never changed again. *)
Theorem manager_object_kept :
  keeps_manager FuseSoCManager.get_core_manager
  /\ (forall lname path sync_uri,
         keeps_manager (FuseSoCManager.add_library lname path sync_uri))
  /\ (forall core_name flags, keeps_manager (FuseSoCManager.resolve_core core_name flags))
  /\ (forall core flags, keeps_manager (FuseSoCManager.get_core_files core flags))
  /\ (forall core flags, keeps_manager (FuseSoCManager.get_dependencies core flags))
  /\ (forall self self' cm,
         manager_kept self self' ->
         FuseSoCManager._core_manager self = Some cm -> self' = self).
Proof.
  split; [exact keeps_manager_get_core_manager|].
  split; [|split; [|split; [|split]]].
  - intros lname path sync_uri. unfold FuseSoCManager.add_library.
    apply keeps_manager_bind; [intros s r s' [= _ <-]; apply manager_kept_refl|].
    intros self.
    repeat (apply keeps_manager_bind;
            [first [apply keeps_manager_in_world | apply keeps_manager_get_core_manager]
            | intros ?]).
    apply keeps_manager_in_world.
  - intros cname flags. unfold FuseSoCManager.resolve_core.
    repeat (apply keeps_manager_bind;
            [first [apply keeps_manager_in_world | apply keeps_manager_get_core_manager]
            | intros ?]).
    match goal with
    | |- keeps_manager (match ?p with _ => _ end) => destruct p as [p'|]
    end; [|apply keeps_manager_ret].
    apply keeps_manager_bind; [apply keeps_manager_in_world|]. intros st.
    apply keeps_manager_bind; [|intros ?; apply keeps_manager_ret].
    destruct (String.eqb st "downloaded");
      [apply keeps_manager_ret|apply keeps_manager_in_world].
  - intros core flags. unfold FuseSoCManager.get_core_files.
    repeat (apply keeps_manager_bind; [apply keeps_manager_in_world | intros ?]).
    apply keeps_manager_ret.
  - intros core flags. unfold FuseSoCManager.get_dependencies.
    apply keeps_manager_bind; [apply keeps_manager_get_core_manager|]. intros cm.
    apply keeps_manager_bind; [apply keeps_manager_in_world|]. intros deps.
    apply keeps_manager_ret.
  - intros self self' cm [->|(Hnone & _)] Hcm; [reflexivity|].
    rewrite Hcm in Hnone. discriminate Hnone.
Qed.

End ManagerInvariant.

Lemma manager_object_kept_witness :
  snd (snd (@FuseSoCManager.get_dependencies edam_missing 6%nat ∅
              ([], example_cached_manager)))
  = example_cached_manager.
Proof.
  destruct (@manager_object_kept edam_missing) as (_ & _ & _ & _ & Hdeps & Hfixed).
  apply (Hfixed example_cached_manager _ 3%nat); [|reflexivity].
  apply (Hdeps 6%nat ∅ ([], example_cached_manager)
               (fst (@FuseSoCManager.get_dependencies edam_missing 6%nat ∅
                       ([], example_cached_manager)))).
  reflexivity.
Defined.

(* ===================================================================== *)
(** ** Further properties: the results of CoreResolve *)
(* ===================================================================== *)

Section ResolveTheorems.
Context `{External}.

Lemma task_triple_bind {A B} (ms : list TaskMarker) (m : Task A) (k : A -> Task B)
    (Q : A -> list TaskMarker -> Prop) (R : B -> list TaskMarker -> Prop)
    (E : list TaskMarker -> Prop) :
  task_triple ms m Q E ->
  (forall a ms', Q a ms' -> task_triple ms' (k a) R E) ->
  task_triple ms (es_bind m k) R E.
Proof.
  intros Hm Hk w. specialize (Hm w). unfold es_bind.
  destruct (m (w, ms)) as [[a|e] [w1 ms1]]; [|exact Hm].
  exact (Hk a ms1 Hm w1).
Qed.

Lemma task_triple_in_world {A} (ms : list TaskMarker) (m : ES World A)
    (E : list TaskMarker -> Prop) :
  E ms -> task_triple ms (in_world m) (fun _ ms' => ms' = ms) E.
Proof.
  intros HE w. unfold in_world. cbn [fst snd].
  destruct (m w) as [[a|e] w1]; [reflexivity|exact HE].
Qed.

Lemma task_triple_call {O A} (ms : list TaskMarker) (m : ES (World * O) A) (obj : O)
    (E : list TaskMarker -> Prop) :
  E ms -> task_triple ms (call m obj) (fun _ ms' => ms' = ms) E.
Proof.
  intros HE w. unfold call. cbn [fst snd].
  destruct (m (w, obj)) as [[a|e] [w1 obj1]]; [reflexivity|exact HE].
Qed.

Lemma task_triple_pure {A} (ms : list TaskMarker)
    (f : World * list TaskMarker -> result A) (E : list TaskMarker -> Prop) :
  E ms -> task_triple ms (fun s => (f s, s)) (fun _ ms' => ms' = ms) E.
Proof. intros HE w. destruct (f (w, ms)); [reflexivity|exact HE]. Qed.

Lemma task_triple_mark (ms : list TaskMarker) (sev : SeverityE) (m : string)
    (E : list TaskMarker -> Prop) :
  task_triple ms (mark sev m) (fun _ ms' => ms' = (ms ++ [mkMarker sev m])%list) E.
Proof. intros w. reflexivity. Qed.

Lemma task_triple_add_libraries (ms : list TaskMarker) (manager : FuseSoCManager.t)
    (libs : list (string * string)) (E : list TaskMarker -> Prop) :
  E ms -> task_triple ms (add_libraries manager libs) (fun _ ms' => ms' = ms) E.
Proof.
  intros HE. revert manager. induction libs as [|[lib_name lib_path] rest IH];
    intros manager.
  - intros w. reflexivity.
  - cbn [add_libraries].
    eapply task_triple_bind; [apply task_triple_call; exact HE|].
    intros [u manager'] ms' ->. apply IH.
Qed.

Lemma only_info_nil : only_info [].
Proof. split; [constructor|cbn; lia]. Qed.

Lemma only_info_one (m : string) : only_info [mkMarker Info m].
Proof. split; [repeat constructor|cbn; lia]. Qed.

Lemma only_info_two (m m' : string) : only_info [mkMarker Info m; mkMarker Info m'].
Proof. split; [repeat constructor|cbn; lia]. Qed.

Lemma CoreResolve_body_triple (input : TaskDataInput CoreResolveParams) :
  task_triple [] (CoreResolve_body input) (fun _ _ => True) only_info.
Proof.
  unfold CoreResolve_body. cbv zeta.
  eapply task_triple_bind; [apply task_triple_in_world, only_info_nil|].
  intros _ ms ->.
  eapply task_triple_bind; [apply task_triple_in_world, only_info_nil|].
  intros manager ms ->.
  eapply task_triple_bind; [apply task_triple_add_libraries, only_info_nil|].
  intros manager1 ms ->.
  eapply task_triple_bind; [apply task_triple_call, only_info_nil|].
  intros [core manager2] ms ->.
  eapply task_triple_bind; [apply task_triple_in_world, only_info_nil|].
  intros cname ms ->.
  eapply task_triple_bind; [apply task_triple_mark|].
  intros _ ms ->. cbn [app].
  eapply task_triple_bind; [apply task_triple_call, only_info_one|].
  intros [core_files manager3] ms ->.
  eapply task_triple_bind;
    [apply (task_triple_pure _
              (fun s => FilesetConverter.convert_files (world_fs (fst s)) _ _)),
       only_info_one|].
  intros converted_files ms ->.
  eapply task_triple_bind;
    [apply (task_triple_pure _
              (fun s => FilesetConverter.extract_include_dirs (world_fs (fst s)) _ _)),
       only_info_one|].
  intros include_dirs ms ->.
  eapply task_triple_bind; [apply task_triple_mark|].
  intros _ ms ->. cbn [app].
  eapply task_triple_bind; [apply task_triple_call, only_info_two|].
  intros [dependencies manager4] ms ->.
  eapply task_triple_bind; [apply task_triple_in_world, only_info_two|].
  intros now ms ->.
  intros w. exact I.
Qed.

Lemma es_bind_Ok {S A B} (m : ES S A) (k : A -> ES S B) (s s' : S) (b : B) :
  es_bind m k s = (Ok b, s') ->
  exists a s1, m s = (Ok a, s1) /\ k a s1 = (Ok b, s').
Proof.
  intros Hrun. apply es_bind_inv in Hrun as [Hok|(e & _ & Hraise)];
    [exact Hok|discriminate Hraise].
Qed.

Lemma in_world_Ok {W L A} (m : ES W A) (w : W) (l : L) (a : A) (s1 : W * L) :
  in_world m (w, l) = (Ok a, s1) -> exists w1, m w = (Ok a, w1) /\ s1 = (w1, l).
Proof.
  unfold in_world. cbn [fst snd]. destruct (m w) as [r w1].
  intros [= -> <-]. exists w1. split; reflexivity.
Qed.

Lemma call_Ok {W O L A} (m : ES (W * O) A) (obj obj' : O) (w : W) (l : L) (a : A)
    (s1 : W * L) :
  call m obj (w, l) = (Ok (a, obj'), s1) ->
  exists w1, m (w, obj) = (Ok a, (w1, obj')) /\ s1 = (w1, l).
Proof.
  unfold call. cbn [fst snd]. destruct (m (w, obj)) as [[a0|e] [w1 o1]];
    [|discriminate].
  intros [= -> -> <-]. exists w1. split; reflexivity.
Qed.

Lemma ask_world_Ok {W L A} (f : W -> result A) (w : W) (l : L) (a : A) (s1 : W * L) :
  ask_world f (w, l) = (Ok a, s1) -> f w = Ok a /\ s1 = (w, l).
Proof. unfold ask_world. cbn [fst snd]. intros [= -> <-]. split; reflexivity. Qed.

Lemma add_libraries_Ok (manager manager' : FuseSoCManager.t)
    (libs : list (string * string)) (w : World) (ms : list TaskMarker)
    (s1 : World * list TaskMarker) :
  add_libraries manager libs (w, ms) = (Ok manager', s1) -> snd s1 = ms.
Proof.
  intros Hrun.
  pose proof (task_triple_add_libraries ms manager libs (fun _ => True) I w) as Hkeep.
  rewrite Hrun in Hkeep. exact Hkeep.
Qed.

(** A [CoreResolve] body that returns went through every step. *)
Lemma CoreResolve_body_resolved (input : TaskDataInput CoreResolveParams)
    (w : World) (r : TaskDataResult) (s' : World * list TaskMarker) :
  CoreResolve_body input (w, []) = (Ok r, s') ->
  resolved_result (params input) (fst s') r.
Proof.
  intros Hrun. unfold CoreResolve_body in Hrun. cbv zeta in Hrun.
  apply es_bind_Ok in Hrun as (u & s1 & Hstep & Hrun).
  apply in_world_Ok in Hstep as (wa & _ & ->).
  apply es_bind_Ok in Hrun as (manager & s1 & Hstep & Hrun).
  apply in_world_Ok in Hstep as (wb & _ & ->).
  apply es_bind_Ok in Hrun as (m0 & [w0 ms0] & Hstep & Hrun).
  apply add_libraries_Ok in Hstep. cbn [snd] in Hstep. subst ms0.
  apply es_bind_Ok in Hrun as ([core m1] & s1 & Hstep & Hrun).
  apply call_Ok in Hstep as (w1 & Hcore & ->).
  apply es_bind_Ok in Hrun as (cname & s1 & Hstep & Hrun).
  apply in_world_Ok in Hstep as (w2 & Hname & ->).
  apply es_bind_Ok in Hrun as (u1 & s1 & Hstep & Hrun).
  unfold mark in Hstep. cbv beta iota zeta delta [es_bind get_local put_local] in Hstep.
  cbn [fst snd app] in Hstep. injection Hstep as _ <-.
  apply es_bind_Ok in Hrun as ([core_files m2] & s1 & Hstep & Hrun).
  apply call_Ok in Hstep as (w3 & Hfiles & ->).
  apply es_bind_Ok in Hrun as (converted_files & s1 & Hstep & Hrun).
  apply ask_world_Ok in Hstep as (Hconv & ->).
  apply es_bind_Ok in Hrun as (include_dirs & s1 & Hstep & Hrun).
  apply ask_world_Ok in Hstep as (Hdirs & ->).
  apply es_bind_Ok in Hrun as (u2 & s1 & Hstep & Hrun).
  unfold mark in Hstep. cbv beta iota zeta delta [es_bind get_local put_local] in Hstep.
  cbn [fst snd app] in Hstep. injection Hstep as _ <-.
  apply es_bind_Ok in Hrun as ([dependencies m3] & s1 & Hstep & Hrun).
  apply call_Ok in Hstep as (w4 & Hdeps & ->).
  apply es_bind_Ok in Hrun as (now & s1 & Hstep & Hrun).
  apply in_world_Ok in Hstep as (w5 & Hnow & ->).
  unfold task_return in Hrun. cbv beta iota zeta delta [es_bind get_local es_ret] in Hrun.
  cbn [fst snd] in Hrun. injection Hrun as <- <-. cbn [fst].
  unfold resolved_result.
  exists core, cname, core_files, converted_files, include_dirs, dependencies, now,
    w0, w1, w2, w3, w4, m0, m1, m2, m3.
  repeat (split; [assumption|]). reflexivity.
Qed.

(** X19. Whenever [CoreResolve] returns, the result is one of two.
    Either the core was resolved: status 0, [changed], and one output
    record that holds the conversion of the files [get_core_files]
    returned for the resolved core, the include directories extracted from
    these files and the dependencies [get_dependencies] returned; the two
    informational markers (the second one counting the converted files)
    and a memento of the request.  Or something raised: status 1, no
    output, no memento, and the error marker comes after the informational
    markers issued before the failure, which are kept. *)
Theorem CoreResolve_outcomes (input : TaskDataInput CoreResolveParams)
    (w w' : World) (r : TaskDataResult) :
  CoreResolve input w = (Ok r, w') ->
  resolved_result (params input) w' r \/ unresolved_result r.
Proof.
  intros Hrun. unfold CoreResolve, run_task, try_except_Exception in Hrun.
  pose proof (CoreResolve_body_triple input w) as Hbody.
  destruct (CoreResolve_body input (w, [])) as [[r0|e] [w0 ms0]] eqn:Hb.
  - injection Hrun as <- <-. left.
    exact (CoreResolve_body_resolved input w r0 (w0, ms0) Hb).
  - destruct (is_Exception e) eqn:He; [|discriminate Hrun].
    injection Hrun as <- _. right. exists ms0, e.
    split; [reflexivity|]. split; [exact He|exact Hbody].
Qed.

End ResolveTheorems.

Lemma CoreResolve_outcomes_witness :
  unresolved_result
    (failure_result "Core resolution failed: " []
       (RuntimeError "'no:such:core' or any of its dependencies requires 'core', but this core was not found")).
Proof.
  destruct (@CoreResolve_outcomes core_missing example_resolve_input
              [] _ _ eq_refl) as [Hres|Hun].
  - exfalso. unfold resolved_result in Hres.
    repeat match type of Hres with ex _ => destruct Hres as [? Hres] end.
    repeat match type of Hres with _ /\ _ => destruct Hres as [_ Hres] end.
    apply (f_equal status) in Hres. vm_compute in Hres. discriminate Hres.
  - exact Hun.
Defined.

(* ===================================================================== *)
(** ** Further properties: what a positive answer of the backend means *)
(* ===================================================================== *)

Section BackendSuccess.
Context `{External}.

Lemma nonempty_true {A} (l : list A) : EdalizeBackend.nonempty l = true -> l <> [].
Proof. destruct l; [discriminate|intros _; discriminate]. Qed.

Lemma tool_match {A} (tool : PyVal) (a b c : A) :
  match tool with
  | PyStr "icarus" => a
  | PyStr "verilator" => b
  | _ => c
  end
  = match tool with
    | PyStr s => if String.eqb s "icarus" then a
                 else if String.eqb s "verilator" then b else c
    | _ => c
    end.
Proof.
  destruct tool as [| | | |s| | |]; try reflexivity.
  repeat (let a0 := fresh "a" in
          destruct s as [|a0 s]; [reflexivity|];
          destruct a0 as [[] [] [] [] [] [] [] []]; try reflexivity).
Qed.

(** X20. A positive answer of [build()] or [run()] is backed by the
    flow: when [build()] answers [True] a flow was present, its own
    [build()] returned without raising, the message is ["Build completed"],
    the backend object is as before, and for [icarus] ([simv] or a [*.vvp]
    file) and [verilator] (an [obj_dir] holding a [V*] file) the artefacts
    are there after the build.  When [run()] answers [True] the flow's
    [run()] returned without raising; nothing else is checked. *)
Theorem backend_success_sound (self : EdalizeBackend.t) (w : World) (msg : string)
    (s' : World * EdalizeBackend.t) :
  (EdalizeBackend.build (w, self) = (Ok (true, msg), s') ->
   exists f, EdalizeBackend.flow self = Some f
             /\ flow_build f w = (Ok tt, fst s')
             /\ msg = "Build completed"
             /\ snd s' = self
             /\ build_artefacts (fst s') self)
  /\ (EdalizeBackend.run (w, self) = (Ok (true, msg), s') ->
      exists f, EdalizeBackend.flow self = Some f
                /\ flow_run f w = (Ok tt, fst s')
                /\ msg = "Run completed"
                /\ snd s' = self).
Proof.
  split.
  - intros Hrun. unfold EdalizeBackend.build in Hrun.
    cbv beta iota zeta delta [es_bind get_local] in Hrun. cbn [snd] in Hrun.
    destruct (EdalizeBackend.flow self) as [f|]; [|discriminate Hrun].
    exists f. split; [reflexivity|].
    unfold try_except_Exception, EdalizeBackend._check_build_success in Hrun.
    cbv beta iota zeta delta [es_bind in_world get_local es_lift] in Hrun.
    cbn [fst snd] in Hrun.
    destruct (flow_build f w) as [[[]|e] w1]; cbn [fst snd] in Hrun.
    + destruct (EdalizeBackend.get_tool self) as [tool|e] eqn:Htool.
      * rewrite tool_match in Hrun. unfold build_artefacts. rewrite Htool.
        destruct tool as [| | | |s| | |];
          try (cbv beta iota zeta delta [es_ret] in Hrun; injection Hrun as <- <-;
               repeat (split; [reflexivity|]); split; intros [=]).
        destruct (String.eqb_spec s "icarus") as [->|Hi].
        { cbv beta iota zeta delta [read_world ask_world es_ret] in Hrun.
          cbn [fst snd] in Hrun.
          destruct (fs_exists (world_fs w1)
                      (path_join (EdalizeBackend.work_root self) (Path_of_str "simv")))
            as [[]|e] eqn:Hsimv.
          - injection Hrun as <- <-. repeat (split; [reflexivity|]).
            split; [|intros [=]]. intros _. cbn [fst]. left. exact Hsimv.
          - injection Hrun as Hart <- <-. repeat (split; [reflexivity|]).
            split; [|intros [=]]. intros _. cbn [fst].
            right. exact (nonempty_true _ Hart).
          - destruct (is_Exception e); discriminate Hrun. }
        destruct (String.eqb_spec s "verilator") as [->|Hv].
        { cbv beta iota zeta delta [read_world es_ret] in Hrun. cbn [fst snd] in Hrun.
          injection Hrun as Hart <- <-. repeat (split; [reflexivity|]).
          split; [intros [=]|]. intros _. cbn [fst].
          destruct (world_glob w1 (EdalizeBackend.work_root self) "obj_dir")
            as [|obj_dir rest]; [discriminate Hart|].
          exists obj_dir, rest. split; [reflexivity|exact (nonempty_true _ Hart)]. }
        cbv beta iota zeta delta [es_ret] in Hrun. injection Hrun as <- <-.
        repeat (split; [reflexivity|]). split; intros [= ->]; contradiction.
      * destruct (is_Exception e); [|discriminate Hrun].
        cbv beta iota zeta delta [es_ret] in Hrun. discriminate Hrun.
    + destruct (is_Exception e); [|discriminate Hrun].
      cbv beta iota zeta delta [es_ret] in Hrun. discriminate Hrun.
  - intros Hrun. unfold EdalizeBackend.run in Hrun.
    cbv beta iota zeta delta [es_bind get_local] in Hrun. cbn [snd] in Hrun.
    destruct (EdalizeBackend.flow self) as [f|]; [|discriminate Hrun].
    exists f. split; [reflexivity|].
    unfold try_except_Exception, EdalizeBackend._check_run_success in Hrun.
    cbv beta iota zeta delta [es_bind in_world es_ret] in Hrun. cbn [fst snd] in Hrun.
    destruct (flow_run f w) as [[[]|e] w1]; cbn [fst snd] in Hrun.
    + injection Hrun as <- <-. repeat split.
    + destruct (is_Exception e); discriminate Hrun.
Qed.

End BackendSuccess.

Lemma backend_success_sound_witness :
  exists f, @EdalizeBackend.flow edam_missing example_flow_backend = Some f
            /\ @flow_build edam_missing f [] = (Ok tt, ["flow.build"]).
Proof.
  destruct (proj1 (@backend_success_sound edam_missing example_flow_backend []
                     "Build completed" (["flow.build"], example_flow_backend))
                  eq_refl) as (f & Hflow & Hbuild & _).
  exists f. split; [exact Hflow|exact Hbuild].
Defined.

(* ===================================================================== *)
(** ** Further properties: the tool of the configured backend *)
(* ===================================================================== *)

(** X21. The descriptor [SimConfigure] hands to its backend names the
    requested tool: whatever files, include directories, parameters and
    tool options were given, [get_tool()] of a backend with a flow over
    this descriptor answers the [tool] parameter, so the artefact check of
    [build()] is the one of that tool. *)
Theorem SimConfigure_backend_tool `{External} `{Interp} (p : SimConfigureParams)
    (edam : EdamBuilder.t) (Sim f : Obj) (work_root : Path) (verbose : bool) :
  SimConfigure_edam p = Ok edam ->
  EdalizeBackend.get_tool
    (EdalizeBackend.mk Sim (EdamBuilder.to_dict edam) work_root verbose (Some f))
  = Ok (PyStr (scp_tool p)).
Proof.
  intros Hedam.
  assert (Hflow : EdamBuilder.flow_options edam !! "tool" = Some (PyStr (scp_tool p))).
  { unfold SimConfigure_edam in Hedam.
    destruct (EdamBuilder.add_files _ (scp_files p)) as [b1|e]; [|discriminate Hedam].
    cbn [mbind result_bind] in Hedam.
    match type of Hedam with
    | ((if ?c then ?inc else _) ≫= _) = _ =>
        assert (Hinc : forall b2, (if c then inc else Ok (EdamBuilder.set_flow_options
                         (EdamBuilder.set_toplevel b1 (PyStr (scp_toplevel p)))
                         {[ "tool" := PyStr (scp_tool p) ]})) = Ok b2 ->
                       EdamBuilder.flow_options b2 !! "tool"
                       = Some (PyStr (scp_tool p)))
    end.
    { intros b2 Hb2.
      assert (Hopts : EdamBuilder.flow_options b2
                      = EdamBuilder.flow_options
                          (EdamBuilder.set_flow_options
                             (EdamBuilder.set_toplevel b1 (PyStr (scp_toplevel p)))
                             {[ "tool" := PyStr (scp_tool p) ]})).
      { destruct (EdalizeBackend.nonempty (scp_include_dirs p));
          [|injection Hb2 as <-; reflexivity].
        unfold EdamBuilder.add_include_dirs in Hb2.
        destruct (EdamBuilder.add_include_dirs_tool _ "icarus" _) as [t1|e];
          [|discriminate Hb2].
        cbn [mbind result_bind] in Hb2.
        destruct (EdamBuilder.add_include_dirs_tool _ "verilator" _) as [t2|e];
          [|discriminate Hb2].
        cbn [mbind result_bind] in Hb2. injection Hb2 as <-. reflexivity. }
      rewrite Hopts. unfold EdamBuilder.set_flow_options.
      cbn [EdamBuilder.flow_options].
      apply lookup_union_Some_l. apply lookup_singleton_eq. }
    match type of Hedam with
    | (?inc ≫= _) = _ => destruct inc as [b2|e] eqn:Hb2; [|discriminate Hedam]
    end.
    specialize (Hinc b2 eq_refl). cbn [mbind result_bind] in Hedam.
    destruct (truthy (PyDict (scp_parameters p))), (truthy (PyDict (scp_plusargs p))),
      (truthy (PyDict (scp_tool_options p)));
      unfold EdamBuilder.build in Hedam;
      match type of Hedam with
      | (if ?c then _ else _) = _ => destruct c; [discriminate Hedam|]
      end;
      injection Hedam as <-;
      rewrite ?add_parameters_closed, ?add_plusargs_closed; exact Hinc. }
  unfold EdalizeBackend.get_tool, EdamBuilder.to_dict. cbn [EdalizeBackend.flow
    EdalizeBackend.edam py_get mbind result_bind].
  dict_lookup. cbn [default from_option id py_get]. rewrite Hflow. reflexivity.
Qed.

Lemma SimConfigure_backend_tool_witness :
  exists edam,
    @SimConfigure_edam example_interp example_params_with_options = Ok edam
    /\ @EdalizeBackend.get_tool edam_missing
         (@EdalizeBackend.mk edam_missing 0%nat (EdamBuilder.to_dict edam)
            (Path_of_str "/run/sim_work") true (Some 7%nat))
       = Ok (PyStr "icarus").
Proof.
  destruct (@SimConfigure_edam example_interp example_params_with_options)
    as [edam|e] eqn:Hedam; [|vm_compute in Hedam; discriminate Hedam].
  exists edam. split; [reflexivity|].
  exact (@SimConfigure_backend_tool edam_missing example_interp
           example_params_with_options edam 0%nat 7%nat (Path_of_str "/run/sim_work")
           true Hedam).
Defined.
